(** * Signal evaluator: a shallow embedding of [evaluate_signal] (agent.py)

    The evaluator takes one Python dict and returns one dict, or raises.
    The input is embedded as a finite map from keys to Python values, the
    output as a record, and an exception as the second constructor of
    [outcome].  Numbers are binary64 floats, as Python has them: the
    kernel's primitive floats, with Python's decimal [round] and fixed-point
    formatting built from the Standard Library's [SpecFloat] functions. *)

From Stdlib Require Import ZArith String Ascii List Bool Floats DecimalString Lia.
From Stdlib Require Import Reals Lra.
From stdpp Require Import gmap strings.
Import ListNotations.

Set Warnings "-inexact-float".
Local Open Scope string_scope.
Local Open Scope Z_scope.

(** ** Python values *)

(** The kinds of value a field of the request model can take: [None], a
    bool, a str (a byte string here) or a float. *)
Inductive value : Type :=
  | VNone
  | VBool (b : bool)
  | VStr (s : string)
  | VFloat (x : float).

(** A number of the output: the literal [0] of the early returns is an int,
    a computed score is a float. *)
Inductive number : Type :=
  | NInt (n : Z)
  | NFloat (x : float).

(** The exceptions of the embedding.  The first three are Python's.
    [OutsideSchema] marks the places where the embedding stops because a
    value is not of the kind the request model (MarketDataRequest) gives
    the field: what Python does with such a mapping is not modelled. *)
Inductive exn : Type :=
  | KeyError
  | AttributeError
  | ZeroDivisionError
  | OutsideSchema.

(** Either the function returns, or it raises. *)
Inductive outcome (A : Type) : Type :=
  | Done (a : A)
  | Raise (e : exn).
Arguments Done {A} a.
Arguments Raise {A} e.

#[global] Instance outcome_ret : MRet outcome := @Done.
#[global] Instance outcome_bind : MBind outcome := fun A B k c =>
  match c with
  | Done a => k a
  | Raise e => Raise e
  end.

(** Python's truth value of an object ([if x:]). *)
Definition truthy (v : value) : bool :=
  match v with
  | VNone => false
  | VBool b => b
  | VStr s => negb (String.eqb s "")
  | VFloat x => negb (x =? 0)%float
  end.

Definition is_none (v : value) : bool :=
  match v with
  | VNone => true
  | _ => false
  end.

(** [v == s] for a str literal [s] *)
Definition is_str (v : value) (s : string) : bool :=
  match v with
  | VStr t => String.eqb t s
  | _ => false
  end.

(** A value where the code computes with a number. *)
Definition as_float (v : value) : outcome float :=
  match v with
  | VFloat x => Done x
  | _ => Raise OutsideSchema
  end.

(** [v.lower()] needs a str; any other object has no such attribute. *)
Definition as_str (v : value) : outcome string :=
  match v with
  | VStr s => Done s
  | _ => Raise AttributeError
  end.

(** [f"{v}"]; the shortest-digits form Python prints for a float is not
    modelled. *)
Definition str (v : value) : outcome string :=
  match v with
  | VNone => Done "None"
  | VBool b => Done (if b then "True" else "False")
  | VStr s => Done s
  | VFloat _ => Raise OutsideSchema
  end.

(** ** Dictionaries *)

Module Dict.

(** [k in data] *)
Definition contains (data : gmap string value) (k : string) : bool :=
  match data !! k with
  | Some _ => true
  | None => false
  end.

(** [data[k]] *)
Definition item (data : gmap string value) (k : string) : outcome value :=
  match data !! k with
  | Some v => Done v
  | None => Raise KeyError
  end.

(** [data.get(k, d)] *)
Definition get_or (data : gmap string value) (k : string) (d : value) : value :=
  match data !! k with
  | Some v => v
  | None => d
  end.

(** [data.get(k)] *)
Definition get (data : gmap string value) (k : string) : value :=
  get_or data k VNone.

End Dict.

(** ** Strings *)

Module Str.

Definition lower_ascii (c : ascii) : ascii :=
  let n := nat_of_ascii c in
  if (Nat.leb 65 n && Nat.leb n 90)%bool then ascii_of_nat (n + 32) else c.

(** [s.lower()], on the ASCII letters; the labels the code compares with
    are plain ASCII. *)
Fixpoint lower (s : string) : string :=
  match s with
  | EmptyString => EmptyString
  | String c s' => String (lower_ascii c) (lower s')
  end.

Definition upper_ascii (c : ascii) : ascii :=
  let n := nat_of_ascii c in
  if (Nat.leb 97 n && Nat.leb n 122)%bool then ascii_of_nat (n - 32) else c.

(** [s.upper()], likewise. *)
Fixpoint upper (s : string) : string :=
  match s with
  | EmptyString => EmptyString
  | String c s' => String (upper_ascii c) (upper s')
  end.

(** [s in l] for a list of strings *)
Definition mem (s : string) (l : list string) : bool :=
  existsb (String.eqb s) l.

(** [sep.join(l)] *)
Definition join (sep : string) (l : list string) : string :=
  String.concat sep l.

(** [n] copies of ["0"] *)
Fixpoint zeros (n : nat) : string :=
  match n with
  | O => ""
  | S n' => String "0" (zeros n')
  end.

Definition of_N (n : N) : string := NilZero.string_of_uint (N.to_uint n).

(** [str(n)] for an int *)
Definition of_Z (n : Z) : string :=
  match n with
  | Zneg p => "-" +:+ of_N (Npos p)
  | _ => of_N (Z.to_N n)
  end.

End Str.

(** ** Floats *)

Module Float.

Definition of_Z (n : Z) : float := SF2Prim (binary_normalize prec emax n 0 false).

(** The integer nearest to [m * 2^e * 10^ndigits], ties to even. *)
Definition scaled_half_even (m : positive) (e : Z) (ndigits : nat) : Z :=
  let num := Zpos m * 10 ^ Z.of_nat ndigits * 2 ^ Z.max e 0 in
  let den := 2 ^ Z.max (- e) 0 in
  let q := num / den in
  let r := num mod den in
  match 2 * r ?= den with
  | Lt => q
  | Gt => q + 1
  | Eq => if Z.even q then q else q + 1
  end.

(** The float nearest to [k / 10^ndigits], ties to even, for [k > 0]. *)
Definition nearest_ratio (s : bool) (k : Z) (ndigits : nat) : float :=
  let '(q, e, l) := SFdiv_core_binary prec emax k 0 (10 ^ Z.of_nat ndigits) 0 in
  SF2Prim (binary_round_aux prec emax s q e l).

(** [round(x, ndigits)] for [ndigits >= 0]: the decimal with [ndigits]
    places nearest to the exact value of [x] (ties to even), read back as
    a float; zeros, infinities and nan round to themselves and the sign
    survives a result of zero. *)
Definition round (x : float) (ndigits : nat) : float :=
  match Prim2SF x with
  | S754_finite s m e =>
      let k := scaled_half_even m e ndigits in
      if (k =? 0)%Z then (if s then (-0)%float else 0%float)
      else nearest_ratio s k ndigits
  | _ => x
  end.

(** [f"{x:.<ndigits>f}"] *)
Definition format_fixed (x : float) (ndigits : nat) : string :=
  match Prim2SF x with
  | S754_nan => "nan"
  | S754_infinity s => if s then "-inf" else "inf"
  | S754_zero s =>
      (if s then "-" else "") +:+ "0" +:+
      (if Nat.eqb ndigits 0 then "" else "." +:+ Str.zeros ndigits)
  | S754_finite s m e =>
      let k := scaled_half_even m e ndigits in
      let p := 10 ^ Z.of_nat ndigits in
      let frac := Str.of_N (Z.to_N (k mod p)) in
      (if s then "-" else "") +:+ Str.of_N (Z.to_N (k / p)) +:+
      (if Nat.eqb ndigits 0 then ""
       else "." +:+ Str.zeros (ndigits - String.length frac) +:+ frac)
  end.

(** [str(x)] for a float that [round(_, 1)] returned: Python prints the
    shortest decimal that reads back as [x], which for the float nearest
    to a multiple of a tenth (below 1e16 in size) is the one-place form. *)
Definition str_tenths (x : float) : string := format_fixed x 1.

(** [x / y], which Python refuses for a zero divisor of either sign. *)
Definition div (x y : float) : outcome float :=
  if (y =? 0)%float then Raise ZeroDivisionError else Done (x / y)%float.

(** [math.isnan(x)] and [math.isfinite(x)], read off the decoded float. *)
Definition is_nan (x : float) : bool :=
  match Prim2SF x with
  | S754_nan => true
  | _ => false
  end.

Definition is_finite (x : float) : bool :=
  match Prim2SF x with
  | S754_zero _ | S754_finite _ _ _ => true
  | _ => false
  end.

End Float.

(** ** Exact values

    A finite float [(-1)^s * m * 2^e] denotes a real number.  Statements
    about sizes and distances of returned levels are made on these
    numbers. *)

Definition bpow (e : Z) : R := powerRZ 2 e.

Definition F2R (m e : Z) : R := (IZR m * bpow e)%R.

Definition signed (s : bool) (v : R) : R := if s then (- v)%R else v.

Definition SF2R (x : spec_float) : R :=
  match x with
  | S754_finite s m e => F2R (cond_Zopp s (Zpos m)) e
  | _ => 0%R
  end.

(** The number a float denotes; zero for a zero, and by convention for an
    infinity and for nan, which the statements exclude with
    [Float.is_finite]. *)
Definition exact_value (x : float) : R := SF2R (Prim2SF x).

Definition finite_sf (x : spec_float) : bool :=
  match x with
  | S754_zero _ | S754_finite _ _ _ => true
  | _ => false
  end.

(** What a comparison says about two numbers. *)
Definition compare_spec_R (c : option comparison) (a b : R) : Prop :=
  match c with
  | Some Lt => (a < b)%R
  | Some Eq => a = b
  | Some Gt => (b < a)%R
  | None => False
  end.

(** ** The result of an evaluation *)

Record TradeSignal : Type := {
  status : string;
  reason : string;
  entry : option float;
  stop_loss : option float;
  take_profit : option float;
  rrr : option float;
  confidence : number;
  message : string;
  instrument : value;
  timeframe : value;
  timestamp : value
}.

(** The dict every early return builds: no levels, the three identifiers
    echoed through [data.get]. *)
Definition no_trade (data : gmap string value) (why : string)
    (score : number) (msg : string) : TradeSignal :=
  {| status := "no_trade";
     reason := why;
     entry := None;
     stop_loss := None;
     take_profit := None;
     rrr := None;
     confidence := score;
     message := msg;
     instrument := Dict.get data "instrument";
     timeframe := Dict.get data "timeframe";
     timestamp := Dict.get data "timestamp" |}.

(** ** Module 1: data validation *)

Definition required_fields : list string :=
  [ "instrument"; "timeframe"; "close"; "high"; "low";
    "rsi_4h"; "rsi_daily"; "atr"; "ema50_daily" ].

Definition missing_fields (data : gmap string value) : list string :=
  List.filter (fun field => negb (Dict.contains data field)) required_fields.

(** [data[field] is None]; the loop runs only when no field is missing. *)
Definition none_fields (data : gmap string value) : list string :=
  List.filter (fun field => is_none (Dict.get data field)) required_fields.

Definition is_empty {A : Type} (l : list A) : bool :=
  match l with
  | [] => true
  | _ :: _ => false
  end.

(** The three early returns of the validation, or [None] to go on. *)
Definition validate_data (data : gmap string value) : outcome (option TradeSignal) :=
  let missing := missing_fields data in
  if negb (is_empty missing) then
    Done (Some (no_trade data "data_invalid" (NInt 0)
                  ("Missing required fields: " +:+ Str.join ", " missing)))
  else
    let nones := none_fields data in
    if negb (is_empty nones) then
      Done (Some (no_trade data "data_invalid" (NInt 0)
                    ("Fields with None values: " +:+ Str.join ", " nones)))
    else
      tf ← Dict.item data "timeframe";
      if is_str tf "4H" then Done None
      else
        shown ← str tf;
        Done (Some (no_trade data "preconditions_not_met" (NInt 0)
                      ("Invalid timeframe '" +:+ shown +:+
                       "'. Strategy requires '4H' timeframe."))).

(** ** Module 2: trend filter *)

Inductive Trend : Type := bullish | bearish.

Definition trend_name (t : Trend) : string :=
  match t with
  | bullish => "bullish"
  | bearish => "bearish"
  end.

(** [close > ema50_daily] *)
Definition calculate_trend (close ema50_daily : float) : Trend :=
  if (ema50_daily <? close)%float then bullish else bearish.

(** ** Module 3: confluence analysis *)

Definition bullish_candles : list string :=
  [ "hammer"; "bullish_engulfing"; "morning_star"; "bullish_pin_bar" ].
Definition bearish_candles : list string :=
  [ "shooting_star"; "bearish_engulfing"; "evening_star"; "bearish_pin_bar" ].
Definition bullish_patterns : list string :=
  [ "double_bottom"; "inverse_head_shoulders"; "ascending_triangle";
    "bullish_flag"; "cup_and_handle" ].
Definition bearish_patterns : list string :=
  [ "double_top"; "head_shoulders"; "descending_triangle";
    "bearish_flag"; "rising_wedge" ].

(** Each confluence yields its flag and the details it appends. *)
Definition met (detail : string) : bool * list string := (true, [detail]).
Definition unmet : bool * list string := (false, []).

(** Confluence 1: RSI extreme at structure. *)
Definition rsi_confluence (trend : Trend) (strict_mode : value) (rsi_4h : float)
    : bool * list string :=
  match trend with
  | bullish =>
      if truthy strict_mode then
        if (rsi_4h <=? 5)%float
        then met ("RSI 4H extremely oversold: " +:+ Float.format_fixed rsi_4h 2)
        else unmet
      else
        if (rsi_4h <=? 20)%float
        then met ("RSI 4H oversold: " +:+ Float.format_fixed rsi_4h 2)
        else unmet
  | bearish =>
      if truthy strict_mode then
        if (95 <=? rsi_4h)%float
        then met ("RSI 4H extremely overbought: " +:+ Float.format_fixed rsi_4h 2)
        else unmet
      else
        if (80 <=? rsi_4h)%float
        then met ("RSI 4H overbought: " +:+ Float.format_fixed rsi_4h 2)
        else unmet
  end.

(** Confluence 2: candle confirmation. *)
Definition candle_confluence (trend : Trend) (candle_type : value)
    : outcome (bool * list string) :=
  if truthy candle_type then
    label ← as_str candle_type;
    match trend with
    | bullish =>
        if Str.mem (Str.lower label) bullish_candles
        then Done (met ("Bullish candle pattern: " +:+ label))
        else Done unmet
    | bearish =>
        if Str.mem (Str.lower label) bearish_candles
        then Done (met ("Bearish candle pattern: " +:+ label))
        else Done unmet
    end
  else Done unmet.

(** Confluence 3: pattern or divergence; one slot, up to two details. *)
Definition pattern_confluence (trend : Trend) (pattern divergence : value)
    : outcome (bool * list string) :=
  '(pattern_confluence_met, details) ←
    (if truthy pattern then
       label ← as_str pattern;
       match trend with
       | bullish =>
           if Str.mem (Str.lower label) bullish_patterns
           then Done (met ("Bullish pattern: " +:+ label))
           else Done unmet
       | bearish =>
           if Str.mem (Str.lower label) bearish_patterns
           then Done (met ("Bearish pattern: " +:+ label))
           else Done unmet
       end
     else Done unmet);
  if truthy divergence
  then Done (true, (details ++ ["Price/RSI divergence detected"])%list)
  else Done (pattern_confluence_met, details).

(** Confluence 4: daily trend alignment. *)
Definition trend_confluence (trend : Trend) (rsi_daily : float) : bool * list string :=
  match trend with
  | bullish =>
      if (rsi_daily <? 70)%float
      then met ("Daily trend aligned (RSI Daily: " +:+
                Float.format_fixed rsi_daily 2 +:+ ")")
      else unmet
  | bearish =>
      if (30 <? rsi_daily)%float
      then met ("Daily trend aligned (RSI Daily: " +:+
                Float.format_fixed rsi_daily 2 +:+ ")")
      else unmet
  end.

Record Confluences : Type := {
  confluence_count : Z;
  confluence_details : list string;
  candle_confluence_met : bool
}.

Definition check_confluences (data : gmap string value) (trend : Trend)
    : outcome Confluences :=
  let strict_mode := Dict.get_or data "strict_mode" (VBool false) in
  rsi_4h ← Dict.item data "rsi_4h" ≫= as_float;
  let '(rsi_confluence_met, d1) := rsi_confluence trend strict_mode rsi_4h in
  '(candle_met, d2) ← candle_confluence trend (Dict.get_or data "candle_type" VNone);
  '(pattern_confluence_met, d3) ←
    pattern_confluence trend (Dict.get_or data "pattern" VNone)
                             (Dict.get_or data "divergence" (VBool false));
  rsi_daily ← Dict.item data "rsi_daily" ≫= as_float;
  let '(trend_confluence_met, d4) := trend_confluence trend rsi_daily in
  Done {| confluence_count :=
            Z.b2z rsi_confluence_met + Z.b2z candle_met +
            Z.b2z pattern_confluence_met + Z.b2z trend_confluence_met;
          confluence_details := (d1 ++ d2 ++ d3 ++ d4)%list;
          candle_confluence_met := candle_met |}.

(** ** Module 4: entry signal *)

Definition signal_direction (trend : Trend) : string :=
  match trend with
  | bullish => "long"
  | bearish => "short"
  end.

(** ** Module 5: stop loss and take profit *)

(** The larger of [1.0 * atr] and the distance to the swing level of the
    trade's side, when that level is given. *)
Definition sl_distance (trend : Trend) (entry_price atr : float)
    (recent_swing_low recent_swing_high : value) : outcome float :=
  let atr_distance := (1.0 * atr)%float in
  let swing :=
    match trend with
    | bullish => recent_swing_low
    | bearish => recent_swing_high
    end in
  if is_none swing then Done atr_distance
  else
    level ← as_float swing;
    let structure_sl_distance :=
      match trend with
      | bullish => (entry_price - level)%float
      | bearish => (level - entry_price)%float
      end in
    Done (if (atr_distance <? structure_sl_distance)%float
          then structure_sl_distance else atr_distance).

Record Levels : Type := {
  level_entry : float;
  level_stop_loss : float;
  level_take_profit : float;
  level_rrr : float
}.

(** The price levels from the entry and the stop distance, the quotient,
    and the final rounding. *)
Definition price_levels (trend : Trend) (entry_price distance : float)
    : outcome Levels :=
  let tp_distance := (2.0 * distance)%float in
  let '(stop, take) :=
    match trend with
    | bullish => ((entry_price - distance)%float, (entry_price + tp_distance)%float)
    | bearish => ((entry_price + distance)%float, (entry_price - tp_distance)%float)
    end in
  ratio ← Float.div tp_distance distance;
  Done {| level_entry := Float.round entry_price 5;
          level_stop_loss := Float.round stop 5;
          level_take_profit := Float.round take 5;
          level_rrr := Float.round ratio 2 |}.

Definition calculate_levels (data : gmap string value) (trend : Trend)
    : outcome Levels :=
  entry_price ← Dict.item data "close" ≫= as_float;
  atr ← Dict.item data "atr" ≫= as_float;
  distance ← sl_distance trend entry_price atr
               (Dict.get_or data "recent_swing_low" VNone)
               (Dict.get_or data "recent_swing_high" VNone);
  price_levels trend entry_price distance.

(** ** Module 6: confidence scoring *)

Definition trend_score (trend : Trend) (rsi_daily : float) : Z :=
  match trend with
  | bullish =>
      if (rsi_daily <? 50)%float then 20
      else if (rsi_daily <? 60)%float then 15
      else if (rsi_daily <? 70)%float then 10
      else 5
  | bearish =>
      if (50 <? rsi_daily)%float then 20
      else if (40 <? rsi_daily)%float then 15
      else if (30 <? rsi_daily)%float then 10
      else 5
  end.

Definition level_quality_score : Z := 20.
Definition market_conditions_score : Z := 15.

Definition strong_patterns : list string :=
  [ "hammer"; "shooting_star"; "bullish_engulfing";
    "bearish_engulfing"; "morning_star"; "evening_star" ].

Definition candle_score (candle_met : bool) (candle_type : value) : outcome Z :=
  if candle_met then
    if truthy candle_type then
      label ← as_str candle_type;
      Done (if Str.mem (Str.lower label) strong_patterns then 20 else 12)
    else Done 12
  else Done 8.

(** [(confluence_count / 4) * 25] *)
Definition confluence_percentage (count : Z) : float :=
  (Float.of_Z count / 4 * 25)%float.

Record Confidence : Type := {
  score_confluences : float;
  score_trend : Z;
  score_candle : Z;
  confidence_score : float
}.

Definition calculate_confidence (trend : Trend) (c : Confluences)
    (rsi_daily : float) (candle_type : value) : outcome Confidence :=
  let pct := confluence_percentage (confluence_count c) in
  let ts := trend_score trend rsi_daily in
  cs ← candle_score (candle_confluence_met c) candle_type;
  let total :=
    (Float.of_Z 0 + pct + Float.of_Z ts + Float.of_Z level_quality_score
     + Float.of_Z cs + Float.of_Z market_conditions_score)%float in
  Done {| score_confluences := pct;
          score_trend := ts;
          score_candle := cs;
          confidence_score := Float.round total 1 |}.

Definition confidence_message (k : Confidence) : string :=
  "Confidence score " +:+ Float.str_tenths (confidence_score k) +:+
  "% is below minimum threshold of 70%. " +:+
  "Confluences: " +:+ Float.format_fixed (score_confluences k) 1 +:+
  "%, Trend: " +:+ Str.of_Z (score_trend k) +:+
  ", Level: " +:+ Str.of_Z level_quality_score +:+
  ", Candle: " +:+ Str.of_Z (score_candle k) +:+
  ", Market: " +:+ Str.of_Z market_conditions_score.

(** ** Module 7: final decision and risk checks *)

(** [stop_loss >= entry_price or take_profit <= entry_price] for a long,
    [stop_loss <= entry_price or take_profit >= entry_price] for a short. *)
Definition invalid_positioning (trend : Trend) (l : Levels) : bool :=
  match trend with
  | bullish =>
      (level_entry l <=? level_stop_loss l)%float
      || (level_take_profit l <=? level_entry l)%float
  | bearish =>
      (level_stop_loss l <=? level_entry l)%float
      || (level_entry l <=? level_take_profit l)%float
  end.

Definition final_message (trend : Trend) (c : Confluences) : string :=
  Str.join " | "
    [ "Trend: " +:+ Str.upper (trend_name trend);
      "Signal: " +:+ Str.upper (signal_direction trend);
      "Confluences (" +:+ Str.of_Z (confluence_count c) +:+ "/4): " +:+
        Str.join "; " (confluence_details c) ].

Definition confluences_message (c : Confluences) : string :=
  "Only " +:+ Str.of_Z (confluence_count c) +:+
  "/4 confluences met. Need at least 3. Met: " +:+
  (if is_empty (confluence_details c) then "None"
   else Str.join "; " (confluence_details c)).

(** The dict of the final return. *)
Definition trade (data : gmap string value) (trend : Trend) (c : Confluences)
    (l : Levels) (k : Confidence) : TradeSignal :=
  {| status := signal_direction trend;
     reason := "all_conditions_met";
     entry := Some (level_entry l);
     stop_loss := Some (level_stop_loss l);
     take_profit := Some (level_take_profit l);
     rrr := Some (level_rrr l);
     confidence := NFloat (confidence_score k);
     message := final_message trend c;
     instrument := Dict.get data "instrument";
     timeframe := Dict.get data "timeframe";
     timestamp := Dict.get data "timestamp" |}.

(** ** The evaluator *)

Definition evaluate_signal (data : gmap string value) : outcome TradeSignal :=
  early ← validate_data data;
  match early with
  | Some r => Done r
  | None =>
      close ← Dict.item data "close" ≫= as_float;
      ema50_daily ← Dict.item data "ema50_daily" ≫= as_float;
      let trend := calculate_trend close ema50_daily in
      c ← check_confluences data trend;
      if (confluence_count c <? 3)%Z then
        Done (no_trade data "not_enough_confluences" (NInt 0) (confluences_message c))
      else
        l ← calculate_levels data trend;
        rsi_daily ← Dict.item data "rsi_daily" ≫= as_float;
        k ← calculate_confidence trend c rsi_daily
               (Dict.get_or data "candle_type" VNone);
        if (confidence_score k <? 70)%float then
          Done (no_trade data "confidence_too_low" (NFloat (confidence_score k))
                  (confidence_message k))
        else if invalid_positioning trend l then
          Done (no_trade data "invalid_risk_parameters" (NFloat (confidence_score k))
                  ("Invalid SL/TP positioning for " +:+ signal_direction trend
                   +:+ " trade"))
        else
          Done (trade data trend c l k)
  end.

(** ** Sample snapshots *)

(** The request of the API documentation (main.py). *)
Definition eurusd : gmap string value :=
  list_to_map
    [ ("instrument", VStr "EURUSD"); ("timeframe", VStr "4H");
      ("timestamp", VStr "2024-01-15T10:00:00Z");
      ("close", VFloat 1.0850); ("high", VFloat 1.0865); ("low", VFloat 1.0835);
      ("rsi_4h", VFloat 18.5); ("rsi_daily", VFloat 45.2);
      ("atr", VFloat 0.0025); ("ema50_daily", VFloat 1.0800);
      ("candle_type", VStr "hammer"); ("pattern", VStr "double_bottom");
      ("divergence", VBool true); ("recent_swing_low", VFloat 1.0820);
      ("recent_swing_high", VNone); ("strict_mode", VBool false) ].

(** The example of the specification: the fields it lists, with any high
    and low. *)
Definition snapshot (high low : float) : gmap string value :=
  list_to_map
    [ ("instrument", VStr "EURUSD"); ("timeframe", VStr "4H");
      ("close", VFloat 1.0850); ("high", VFloat high); ("low", VFloat low);
      ("ema50_daily", VFloat 1.0800); ("rsi_4h", VFloat 18.5);
      ("rsi_daily", VFloat 45.2); ("atr", VFloat 0.0025);
      ("candle_type", VStr "hammer"); ("pattern", VStr "double_bottom");
      ("divergence", VBool true); ("recent_swing_low", VFloat 1.0820) ].

Definition without_timestamp : gmap string value := delete "timestamp" eurusd.
Definition without_close : gmap string value := delete "close" eurusd.

(** No swing level, and an average true range of zero, of a millionth and
    of 1e308. *)
Definition zero_atr : gmap string value :=
  delete "recent_swing_low" (<["atr" := VFloat 0]> eurusd).
Definition tiny_atr : gmap string value :=
  delete "recent_swing_low" (<["atr" := VFloat 0.000001]> eurusd).
Definition huge_atr : gmap string value :=
  delete "recent_swing_low" (<["atr" := VFloat 1e308]> eurusd).

(** A price of 1e17, where neighbouring floats are 16 apart. *)
Definition huge_price : gmap string value :=
  delete "recent_swing_low"
    (<["atr" := VFloat 10]> (<["close" := VFloat 1e17]> eurusd)).

(** Only the RSI extreme and the daily alignment hold. *)
Definition two_confluences : gmap string value :=
  <["divergence" := VBool false]>
    (<["pattern" := VNone]> (<["candle_type" := VNone]> eurusd)).

(** The request with a key the evaluator never reads, and with another
    high and low. *)
Definition with_volume : gmap string value := <["volume" := VFloat 12345]> eurusd.
Definition other_range : gmap string value :=
  <["high" := VFloat 2]> (<["low" := VFloat 1]> eurusd).

(** ** Vocabulary of the statements *)

(** The keys whose values the evaluator uses, and the two it only tests
    for presence and for [None]. *)
Definition value_keys : list string :=
  [ "instrument"; "timeframe"; "timestamp"; "close"; "rsi_4h"; "rsi_daily";
    "atr"; "ema50_daily"; "candle_type"; "pattern"; "divergence";
    "recent_swing_low"; "recent_swing_high"; "strict_mode" ].
Definition presence_keys : list string := [ "high"; "low" ].
Definition read_keys : list string := (value_keys ++ presence_keys)%list.

(** What the validation sees of a key. *)
Inductive Presence : Type := Missing | Null | Given.

Definition presence (entry : option value) : Presence :=
  match entry with
  | None => Missing
  | Some VNone => Null
  | Some _ => Given
  end.

(** The kinds of the request model (MarketDataRequest, main.py): every
    field is a str, a float or a bool, and the evaluator tolerates [None]. *)
Inductive Kind : Type := KStr | KFloat | KBool.

Definition schema : list (string * Kind) :=
  [ ("instrument", KStr); ("timeframe", KStr); ("timestamp", KStr);
    ("close", KFloat); ("high", KFloat); ("low", KFloat);
    ("rsi_4h", KFloat); ("rsi_daily", KFloat); ("atr", KFloat);
    ("ema50_daily", KFloat);
    ("candle_type", KStr); ("pattern", KStr); ("divergence", KBool);
    ("recent_swing_low", KFloat); ("recent_swing_high", KFloat);
    ("strict_mode", KBool) ].

Definition has_kind (kind : Kind) (v : value) : bool :=
  match v, kind with
  | VNone, _ => true
  | VStr _, KStr => true
  | VFloat _, KFloat => true
  | VBool _, KBool => true
  | _, _ => false
  end.

(** Every entry under a key of the schema has the kind the schema says. *)
Definition conforms (data : gmap string value) : bool :=
  forallb (fun '(key, kind) =>
             match data !! key with
             | Some v => has_kind kind v
             | None => true
             end) schema.

(** The documented request with a negative average true range. *)
Definition negative_atr : gmap string value :=
  delete "recent_swing_low" (<["atr" := VFloat (-0.0025)]> eurusd).

(** The float 2.0, decoded: mantissa 2^52, exponent -51. *)
Definition two_sf : spec_float := S754_finite false 4503599627370496 (-51).

(** The reason codes of a [no_trade] result. *)
Definition abstain_reasons : list string :=
  [ "data_invalid"; "preconditions_not_met"; "not_enough_confluences";
    "confidence_too_low"; "invalid_risk_parameters" ].

(** A run that went through every gate and returned the final dict. *)
Inductive accepted (data : gmap string value) (r : TradeSignal) : Prop :=
  | Accepted (close ema50_daily rsi_daily : float)
      (c : Confluences) (l : Levels) (k : Confidence) :
      validate_data data = Done None ->
      data !! "close" = Some (VFloat close) ->
      data !! "ema50_daily" = Some (VFloat ema50_daily) ->
      check_confluences data (calculate_trend close ema50_daily) = Done c ->
      3 <= confluence_count c ->
      calculate_levels data (calculate_trend close ema50_daily) = Done l ->
      calculate_confidence (calculate_trend close ema50_daily) c rsi_daily
        (Dict.get_or data "candle_type" VNone) = Done k ->
      (confidence_score k <? 70)%float = false ->
      invalid_positioning (calculate_trend close ema50_daily) l = false ->
      r = trade data (calculate_trend close ema50_daily) c l k ->
      accepted data r.

(** ** The endpoint (main.py) *)

Module Api.

(** The request model: ten required fields, six optional ones. *)
Record MarketDataRequest : Type := {
  instrument : string;
  timeframe : string;
  timestamp : string;
  close : float;
  high : float;
  low : float;
  rsi_4h : float;
  rsi_daily : float;
  atr : float;
  ema50_daily : float;
  candle_type : option string;
  pattern : option string;
  divergence : option bool;
  recent_swing_low : option float;
  recent_swing_high : option float;
  strict_mode : option bool
}.

Definition optional {A : Type} (inject : A -> value) (field : option A) : value :=
  match field with
  | Some a => inject a
  | None => VNone
  end.

(** [market_data.model_dump()]: every field of the model under its name. *)
Definition model_dump (market_data : MarketDataRequest) : gmap string value :=
  list_to_map
    [ ("instrument", VStr (instrument market_data));
      ("timeframe", VStr (timeframe market_data));
      ("timestamp", VStr (timestamp market_data));
      ("close", VFloat (close market_data));
      ("high", VFloat (high market_data));
      ("low", VFloat (low market_data));
      ("rsi_4h", VFloat (rsi_4h market_data));
      ("rsi_daily", VFloat (rsi_daily market_data));
      ("atr", VFloat (atr market_data));
      ("ema50_daily", VFloat (ema50_daily market_data));
      ("candle_type", optional VStr (candle_type market_data));
      ("pattern", optional VStr (pattern market_data));
      ("divergence", optional VBool (divergence market_data));
      ("recent_swing_low", optional VFloat (recent_swing_low market_data));
      ("recent_swing_high", optional VFloat (recent_swing_high market_data));
      ("strict_mode", optional VBool (strict_mode market_data)) ].

(** The exception of the handler: status 500 and a detail made of a fixed
    error text and of the message and class name of the exception caught,
    kept here as the exception itself. *)
Record HTTPException : Type := {
  status_code : Z;
  error : string;
  raised : exn
}.

(** The handler of POST /generate-signal: the signal, or the exception it
    raises for any exception of the evaluator. *)
Definition generate_signal (market_data : MarketDataRequest)
    : TradeSignal + HTTPException :=
  match evaluate_signal (model_dump market_data) with
  | Done signal => inl signal
  | Raise e =>
      inr {| status_code := 500;
             error := "Signal generation failed";
             raised := e |}
  end.

(** The example of the request model. *)
Definition example : MarketDataRequest :=
  {| instrument := "EURUSD";
     timeframe := "4H";
     timestamp := "2024-01-15T10:00:00Z";
     close := 1.0850;
     high := 1.0865;
     low := 1.0835;
     rsi_4h := 18.5;
     rsi_daily := 45.2;
     atr := 0.0025;
     ema50_daily := 1.0800;
     candle_type := Some "hammer";
     pattern := Some "double_bottom";
     divergence := Some true;
     recent_swing_low := Some 1.0820%float;
     recent_swing_high := None;
     strict_mode := Some false |}.

(** The example with an average true range of zero and no swing low. *)
Definition flat : MarketDataRequest :=
  {| instrument := "EURUSD";
     timeframe := "4H";
     timestamp := "2024-01-15T10:00:00Z";
     close := 1.0850;
     high := 1.0865;
     low := 1.0835;
     rsi_4h := 18.5;
     rsi_daily := 45.2;
     atr := 0;
     ema50_daily := 1.0800;
     candle_type := Some "hammer";
     pattern := Some "double_bottom";
     divergence := Some true;
     recent_swing_low := None;
     recent_swing_high := None;
     strict_mode := Some false |}.

End Api.

(** ** More sample snapshots *)

Definition null_atr : gmap string value := <["atr" := VNone]> eurusd.
Definition hourly : gmap string value := <["timeframe" := VStr "1H"]> eurusd.
Definition upper_case_labels : gmap string value :=
  <["candle_type" := VStr "HAMMER"]> (<["pattern" := VStr "Double_Bottom"]> eurusd).
Definition strict : gmap string value := <["strict_mode" := VBool true]> eurusd.

(** The score before the gate, from the count and the two variable scores. *)
Definition total_confidence (count trend_points candle_points : Z) : float :=
  Float.round
    (Float.of_Z 0 + confluence_percentage count + Float.of_Z trend_points
     + Float.of_Z level_quality_score + Float.of_Z candle_points
     + Float.of_Z market_conditions_score)%float 1.

(** The keys other than the two labels and the strict-mode flag. *)
Definition fixed_keys : list string :=
  [ "instrument"; "timeframe"; "timestamp"; "close"; "rsi_4h"; "rsi_daily";
    "atr"; "ema50_daily"; "divergence"; "recent_swing_low";
    "recent_swing_high" ].

(** Two labels that [lower()] makes equal, or the same value twice. *)
Definition same_label (v1 v2 : value) : Prop :=
  v1 = v2
  \/ exists s1 s2, v1 = VStr s1 /\ v2 = VStr s2 /\ Str.lower s1 = Str.lower s2.

(** Two results that agree on everything but the message. *)
Definition same_decision (r1 r2 : TradeSignal) : Prop :=
  status r1 = status r2 /\ reason r1 = reason r2
  /\ entry r1 = entry r2 /\ stop_loss r1 = stop_loss r2
  /\ take_profit r1 = take_profit r2 /\ rrr r1 = rrr r2
  /\ confidence r1 = confidence r2
  /\ instrument r1 = instrument r2 /\ timeframe r1 = timeframe r2
  /\ timestamp r1 = timestamp r2.

(** Two outcomes that raise the same exception or return results that agree
    on everything but the message. *)
Definition same_outcome (o1 o2 : outcome TradeSignal) : Prop :=
  match o1, o2 with
  | Done r1, Done r2 => same_decision r1 r2
  | Raise e1, Raise e2 => e1 = e2
  | _, _ => False
  end.

(** The documented request with an overbought daily RSI and a weak candle:
    three confluences, the lowest scores. *)
Definition weakest : gmap string value :=
  <["rsi_daily" := VFloat 75]> (<["candle_type" := VStr "bullish_pin_bar"]> eurusd).

(** The float 1.0, decoded: mantissa 2^52, exponent -52. *)
Definition one_sf : spec_float := S754_finite false 4503599627370496 (-52).

(** [lo <= x <= hi] *)
Definition between (lo hi x : float) : bool := (lo <=? x)%float && (x <=? hi)%float.

(** A level that is given is at most [bound] in size. *)
Definition level_within (bound : float) (v : value) : bool :=
  match v with
  | VFloat x => between (- bound) bound x
  | _ => true
  end.

(** The prices the level computation reads are at most [bound] in size:
    the close, the atr and, when given, the swing level of the trade's
    side. *)
Definition prices_within (bound : float) (data : gmap string value) : bool :=
  match data !! "close", data !! "ema50_daily", data !! "atr" with
  | Some (VFloat close), Some (VFloat ema50_daily), Some (VFloat atr) =>
      between (- bound) bound close
      && between (- bound) bound atr
      && level_within bound
           match calculate_trend close ema50_daily with
           | bullish => Dict.get_or data "recent_swing_low" VNone
           | bearish => Dict.get_or data "recent_swing_high" VNone
           end
  | _, _, _ => false
  end.

(** [atr >= least] *)
Definition atr_at_least (least : float) (data : gmap string value) : bool :=
  match data !! "atr" with
  | Some (VFloat atr) => (least <=? atr)%float
  | _ => false
  end.

#[global] Instance Presence_eq_dec : EqDecision Presence.
Proof. solve_decision. Defined.

(** * Checks of the embedding on known values of Python *)

Example round_5_a : Float.round 1.0820000000000001%float 5 = 1.082%float.
Proof. vm_compute. reflexivity. Qed.
Example round_5_b : Float.round (1.085 - 0.000001)%float 5 = 1.085%float.
Proof. vm_compute. reflexivity. Qed.
Example round_2_tie : Float.round 0.125%float 2 = 0.12%float.
Proof. vm_compute. reflexivity. Qed.
Example round_2_not_tie : Float.round 2.675%float 2 = 2.67%float.
Proof. vm_compute. reflexivity. Qed.
Example round_1_tie : Float.round 66.75%float 1 = 66.8%float.
Proof. vm_compute. reflexivity. Qed.
Example round_big : Float.round 1e308%float 5 = 1e308%float.
Proof. vm_compute. reflexivity. Qed.
Example round_neg_small : Float.round (-0.000001)%float 5 = (-0)%float.
Proof. vm_compute. reflexivity. Qed.
Example format_2 : Float.format_fixed 18.5%float 2 = "18.50".
Proof. vm_compute. reflexivity. Qed.
Example format_2_small : Float.format_fixed (-0.001)%float 2 = "-0.00".
Proof. vm_compute. reflexivity. Qed.
Example format_1 : Float.format_fixed 18.75%float 1 = "18.8".
Proof. vm_compute. reflexivity. Qed.
Example format_2_pad : Float.format_fixed 45.05%float 2 = "45.05".
Proof. vm_compute. reflexivity. Qed.
Example lower_mixed : Str.lower "Bullish_Pin_BAR" = "bullish_pin_bar".
Proof. reflexivity. Qed.
Example eurusd_runs :
  evaluate_signal eurusd =
  Done {| status := "long";
          reason := "all_conditions_met";
          entry := Some 1.085%float;
          stop_loss := Some 1.082%float;
          take_profit := Some 1.091%float;
          rrr := Some 2%float;
          confidence := NFloat 100;
          message :=
            "Trend: BULLISH | Signal: LONG | Confluences (4/4): " +:+
            "RSI 4H oversold: 18.50; Bullish candle pattern: hammer; " +:+
            "Bullish pattern: double_bottom; Price/RSI divergence detected; " +:+
            "Daily trend aligned (RSI Daily: 45.20)";
          instrument := VStr "EURUSD";
          timeframe := VStr "4H";
          timestamp := VStr "2024-01-15T10:00:00Z" |}.
Proof. vm_compute. reflexivity. Qed.

(** * Facts about outcomes *)

Lemma bind_Done {A B : Type} (c : outcome A) (k : A -> outcome B) (b : B) :
  c ≫= k = Done b -> exists a, c = Done a /\ k a = Done b.
Proof. destruct c; simpl; [ eauto | discriminate ]. Qed.

Lemma item_float_Done (data : gmap string value) (key : string) (x : float) :
  Dict.item data key ≫= as_float = Done x -> data !! key = Some (VFloat x).
Proof.
  unfold Dict.item. destruct (data !! key) as [[]|]; simpl; congruence.
Qed.

Ltac invert_outcome H :=
  lazymatch type of H with
  | (_ ≫= _) = Done _ =>
      let a := fresh "a" in
      let Ha := fresh "Ha" in
      apply bind_Done in H as (a & Ha & H)
  | Done _ = Done _ => injection H as H
  | Raise _ = Done _ => discriminate H
  end.

Tactic Notation "bind_inv" hyp(H) "as" ident(a) ident(Ha) :=
  apply bind_Done in H as (a & Ha & H).

(** * Facts about binary64 floats *)

(** The comparison of two decoded floats, read the other way round. *)
Lemma SFcompare_antisym (x y : spec_float) (c : comparison) :
  SFcompare x y = Some c -> SFcompare y x = Some (CompOpp c).
Proof.
  destruct x as [sx|sx| |sx mx ex], y as [sy|sy| |sy my ey]; simpl;
    try discriminate; intros [= <-];
    try (destruct sx; reflexivity); try (destruct sy; reflexivity);
    try (destruct sx, sy; reflexivity).
  destruct sx, sy; try reflexivity;
    rewrite (Z.compare_antisym ex ey); destruct (ex ?= ey); simpl; try reflexivity;
    pose proof (Pos.compare_cont_antisym mx my Eq) as H; simpl in H; rewrite <- H;
    rewrite ?CompOpp_involutive; reflexivity.
Qed.

Lemma Zdigits2_double (p : positive) : Zdigits2 (Zpos p~0) = Zdigits2 (Zpos p) + 1.
Proof. simpl. lia. Qed.

Lemma shr_52 (m : positive) (e : Z) :
  shr {| shr_m := Zpos (4503599627370496 * m); shr_r := false; shr_s := false |} e 52
  = ({| shr_m := Zpos m; shr_r := false; shr_s := false |}, e + 52).
Proof. reflexivity. Qed.

Lemma shr_51 (m : positive) (e : Z) :
  shr {| shr_m := Zpos (4503599627370496 * m); shr_r := false; shr_s := false |} e 51
  = ({| shr_m := Zpos m~0; shr_r := false; shr_s := false |}, e + 51).
Proof. reflexivity. Qed.

Lemma digits_scaled (m : positive) :
  Zdigits2 (Zpos (4503599627370496 * m)) = Zdigits2 (Zpos m) + 52.
Proof.
  change (Zpos (4503599627370496 * m)) with
    (Zpos m~0~0~0~0~0~0~0~0~0~0~0~0~0~0~0~0~0~0~0~0~0~0~0~0~0~0~0~0~0~0~0~0~0~0~0~0~0~0~0~0~0~0~0~0~0~0~0~0~0~0~0~0).
  rewrite !Zdigits2_double. lia.
Qed.

Lemma shr_fexp_scaled_normal (m : positive) (e : Z) :
  Zdigits2 (Zpos m) = 53 -> -1074 <= e ->
  shr_fexp prec emax (Zpos (4503599627370496 * m)) (-51 + e) loc_Exact
  = ({| shr_m := Zpos m; shr_r := false; shr_s := false |}, e + 1).
Proof.
  intros Hd He. unfold shr_fexp. rewrite digits_scaled, Hd.
  replace (fexp prec emax (53 + 52 + (-51 + e)) - (-51 + e)) with 52
    by (unfold fexp, emin, prec, emax; lia).
  change (shr_record_of_loc (Zpos (4503599627370496 * m)) loc_Exact)
    with {| shr_m := Zpos (4503599627370496 * m); shr_r := false; shr_s := false |}.
  rewrite shr_52. f_equal. lia.
Qed.

Lemma shr_fexp_scaled_subnormal (m : positive) (e : Z) :
  Zdigits2 (Zpos m) < 53 -> e = -1074 ->
  shr_fexp prec emax (Zpos (4503599627370496 * m)) (-51 + e) loc_Exact
  = ({| shr_m := Zpos m~0; shr_r := false; shr_s := false |}, e).
Proof.
  intros Hd He. unfold shr_fexp. rewrite digits_scaled.
  replace (fexp prec emax (Zdigits2 (Zpos m) + 52 + (-51 + e)) - (-51 + e)) with 51
    by (unfold fexp, emin, prec, emax; lia).
  change (shr_record_of_loc (Zpos (4503599627370496 * m)) loc_Exact)
    with {| shr_m := Zpos (4503599627370496 * m); shr_r := false; shr_s := false |}.
  rewrite shr_51. f_equal. lia.
Qed.

Lemma shr_fexp_canonical (m : positive) (e : Z) :
  fexp prec emax (Zdigits2 (Zpos m) + e) = e ->
  shr_fexp prec emax (Zpos m) e loc_Exact
  = ({| shr_m := Zpos m; shr_r := false; shr_s := false |}, e).
Proof.
  intros H. unfold shr_fexp. rewrite H, Z.sub_diag. reflexivity.
Qed.

(** Doubling a finite float is exact: the mantissa stays and the exponent
    grows by one, or (a subnormal) the mantissa doubles; past the largest
    exponent the product is infinite. *)
Lemma SFmul_two (s : bool) (m : positive) (e : Z) :
  valid_binary (S754_finite s m e) = true ->
  SFmul prec emax two_sf (S754_finite s m e) = S754_finite s m (e + 1)
  \/ SFmul prec emax two_sf (S754_finite s m e) = S754_finite s m~0 e
  \/ SFmul prec emax two_sf (S754_finite s m e) = S754_infinity s.
Proof.
  unfold SpecFloat.valid_binary, bounded, canonical_mantissa.
  intros H. apply andb_prop in H as [Hc Hb].
  apply Z.eqb_eq in Hc. apply Z.leb_le in Hb.
  change (Zpos (digits2_pos m)) with (Zdigits2 (Zpos m)) in Hc.
  unfold SFmul, two_sf. change (xorb false s) with s.
  unfold binary_round_aux.
  destruct (Z.eq_dec (Zdigits2 (Zpos m)) 53) as [Hd|Hd].
  - rewrite shr_fexp_scaled_normal;
      [ | assumption | unfold fexp, emin, prec, emax in Hc; lia ].
    cbn [shr_m loc_of_shr_record shr_r shr_s round_nearest_even].
    rewrite shr_fexp_canonical
      by (rewrite Hd; unfold fexp, emin, prec, emax in *; lia).
    cbn [shr_m].
    destruct (e + 1 <=? emax - prec); auto.
  - assert (Zdigits2 (Zpos m) < 53 /\ e = -1074) as [Hlt He]
      by (unfold fexp, emin, prec, emax in Hc; lia).
    rewrite shr_fexp_scaled_subnormal by assumption.
    cbn [shr_m loc_of_shr_record shr_r shr_s round_nearest_even].
    rewrite shr_fexp_canonical
      by (rewrite Zdigits2_double; unfold fexp, emin, prec, emax in *; lia).
    cbn [shr_m].
    replace (e <=? emax - prec) with true; auto.
    symmetry. apply Z.leb_le. assumption.
Qed.

Lemma new_location_zero (n : Z) : new_location n 0 = loc_Exact.
Proof.
  unfold new_location, new_location_even, new_location_odd.
  destruct (Z.even n); reflexivity.
Qed.

Lemma SFdiv_doubled (s : bool) (m m1 : positive) (e e1 : Z) :
  (m1 = m /\ e1 = e + 1) \/ (m1 = (m~0)%positive /\ e1 = e) ->
  SFdiv prec emax (S754_finite s m1 e1) (S754_finite s m e) = two_sf.
Proof.
  intros H. unfold SFdiv, SFdiv_core_binary.
  assert (Zdigits2 (Zpos m1) + e1 - (Zdigits2 (Zpos m) + e) = 1) as Hx.
  { destruct H as [[-> ->]|[-> ->]]; [ lia | rewrite Zdigits2_double; lia ]. }
  rewrite Hx.
  change (Z.min (fexp prec emax 1)) with (Z.min (-52)).
  assert (Z.min (-52) (e1 - e) = -52) as -> by (destruct H as [[_ ->]|[_ ->]]; lia).
  assert (exists p, e1 - e - -52 = Zpos p /\ Zpos m1 * 2 ^ Zpos p = Zpos m * 2 ^ 53) as (p & Hs & Hm).
  { destruct H as [[-> ->]|[-> ->]].
    - exists 53%positive. split; lia.
    - exists 52%positive. split; [ lia | ]. rewrite Pos2Z.inj_xO.
      change (2 ^ 53) with (2 * 2 ^ 52). lia. }
  rewrite Hs. rewrite Z.shiftl_mul_pow2 by lia. rewrite Hm.
  assert (Z.div_eucl (Zpos m * 2 ^ 53) (Zpos m) = (2 ^ 53, 0)) as ->.
  { pose proof (Z.div_eucl_eq (Zpos m * 2 ^ 53) (Zpos m) ltac:(lia)) as Heq.
    pose proof (Z.mod_pos_bound (Zpos m * 2 ^ 53) (Zpos m) ltac:(lia)) as Hb.
    unfold Z.modulo in Hb.
    destruct (Z.div_eucl (Zpos m * 2 ^ 53) (Zpos m)) as [q r].
    assert (r = 0 /\ q = 2 ^ 53) as [-> ->]; [ | reflexivity ].
    assert (Zpos m * (2 ^ 53 - q) = r) as Hr by lia.
    assert (2 ^ 53 - q = 0) by nia. split; lia. }
  rewrite new_location_zero. destruct s; reflexivity.
Qed.



Lemma Prim2SF_inj (x y : float) : Prim2SF x = Prim2SF y -> x = y.
Proof.
  intros H. rewrite <- (SF2Prim_Prim2SF x), <- (SF2Prim_Prim2SF y), H. reflexivity.
Qed.

Lemma eqb_zero_false (d : float) (s : bool) :
  Prim2SF d = S754_zero s -> (d =? 0)%float = true.
Proof.
  intros H. rewrite FloatAxioms.eqb_spec, H. reflexivity.
Qed.

(** [(2.0 * d) / d] is [2.0] unless the product overflows. *)
Lemma double_then_divide (d : float) :
  Float.is_finite (2 * d)%float = true -> (d =? 0)%float = false ->
  (2 * d / d)%float = 2%float.
Proof.
  intros Hfin Hnz. apply Prim2SF_inj.
  rewrite FloatAxioms.div_spec. unfold Float.is_finite in Hfin. rewrite FloatAxioms.mul_spec in *.
  change (Prim2SF 2) with two_sf in *. unfold SF64mul, SF64div in *.
  pose proof (Prim2SF_valid d) as Hv.
  destruct (Prim2SF d) as [s|s| |s m e] eqn:Hd.
  - rewrite (eqb_zero_false d s Hd) in Hnz. discriminate.
  - discriminate.
  - discriminate.
  - destruct (SFmul_two s m e Hv) as [H|[H|H]]; rewrite H in *.
    + rewrite (SFdiv_doubled s m m e (e + 1)) by auto. reflexivity.
    + rewrite (SFdiv_doubled s m (m~0) e e) by auto. reflexivity.
    + discriminate.
Qed.

Lemma add_finite_r (x y : float) :
  Float.is_finite (x + y)%float = true -> Float.is_finite y = true.
Proof.
  unfold Float.is_finite. rewrite FloatAxioms.add_spec. unfold SF64add.
  destruct (Prim2SF x) as [sx|sx| |sx mx ex], (Prim2SF y) as [sy|sy| |sy my ey];
    simpl; try reflexivity; try discriminate.
  destruct sx, sy; discriminate.
Qed.

Lemma sub_finite_r (x y : float) :
  Float.is_finite (x - y)%float = true -> Float.is_finite y = true.
Proof.
  unfold Float.is_finite. rewrite FloatAxioms.sub_spec. unfold SF64sub.
  destruct (Prim2SF x) as [sx|sx| |sx mx ex], (Prim2SF y) as [sy|sy| |sy my ey];
    simpl; try reflexivity; try discriminate.
  destruct sx, sy; discriminate.
Qed.

Lemma SFcompare_defined (x y : spec_float) :
  x <> S754_nan -> y <> S754_nan -> exists c, SFcompare x y = Some c.
Proof.
  destruct x, y; simpl; try congruence; eauto.
Qed.

Lemma leb_false_ltb (x y : float) :
  Float.is_nan x = false -> Float.is_nan y = false ->
  (x <=? y)%float = false -> (y <? x)%float = true.
Proof.
  unfold Float.is_nan. rewrite FloatAxioms.leb_spec, FloatAxioms.ltb_spec. unfold SFleb, SFltb.
  intros Hx Hy.
  destruct (SFcompare_defined (Prim2SF x) (Prim2SF y)) as [c Hc].
  - destruct (Prim2SF x); congruence.
  - destruct (Prim2SF y); congruence.
  - rewrite Hc, (SFcompare_antisym _ _ _ Hc). destruct c; simpl; congruence.
Qed.




(** * Facts about the evaluator *)

Lemma validate_data_Some (data : gmap string value) (r : TradeSignal) :
  validate_data data = Done (Some r) ->
  exists why msg, r = no_trade data why (NInt 0) msg
    /\ (why = "data_invalid" \/ why = "preconditions_not_met").
Proof.
  unfold validate_data. intros H.
  destruct (negb (is_empty (missing_fields data))).
  { invert_outcome H. subst r. eauto 6. }
  destruct (negb (is_empty (none_fields data))).
  { invert_outcome H. subst r. eauto 6. }
  invert_outcome H.
  destruct (is_str a "4H"); [ discriminate | ].
  invert_outcome H. invert_outcome H. subst r. eauto 6.
Qed.

Lemma evaluate_signal_Done (data : gmap string value) (r : TradeSignal) :
  evaluate_signal data = Done r ->
  (exists why score msg, r = no_trade data why score msg /\ In why abstain_reasons)
  \/ accepted data r.
Proof.
  unfold evaluate_signal. intros H.
  bind_inv H as early Hearly. destruct early as [r0|].
  - invert_outcome H. subst r0.
    apply validate_data_Some in Hearly as (why & msg & -> & [-> | ->]);
      left; do 3 eexists; (split; [ reflexivity | simpl; tauto ]).
  - bind_inv H as close Hclose. apply item_float_Done in Hclose.
    bind_inv H as ema Hema. apply item_float_Done in Hema.
    bind_inv H as c Hc.
    destruct (confluence_count c <? 3)%Z eqn:Hcount.
    { invert_outcome H. subst r. left. do 3 eexists. split; [ reflexivity | simpl; tauto ]. }
    bind_inv H as l Hl. bind_inv H as rsi_daily Hrsi. bind_inv H as k Hk.
    destruct (confidence_score k <? 70)%float eqn:Hconf.
    { invert_outcome H. subst r. left. do 3 eexists. split; [ reflexivity | simpl; tauto ]. }
    destruct (invalid_positioning (calculate_trend close ema) l) eqn:Hpos.
    { invert_outcome H. subst r. left. do 3 eexists. split; [ reflexivity | simpl; tauto ]. }
    invert_outcome H. subst r. right.
    apply Z.ltb_ge in Hcount.
    eapply Accepted; eauto.
Qed.

Lemma price_levels_Done (trend : Trend) (close d : float) (l : Levels) :
  price_levels trend close d = Done l ->
  (d =? 0)%float = false
  /\ level_entry l = Float.round close 5
  /\ level_rrr l = Float.round (2 * d / d) 2
  /\ match trend with
     | bullish =>
         level_stop_loss l = Float.round (close - d) 5
         /\ level_take_profit l = Float.round (close + 2 * d) 5
     | bearish =>
         level_stop_loss l = Float.round (close + d) 5
         /\ level_take_profit l = Float.round (close - 2 * d) 5
     end.
Proof.
  unfold price_levels, Float.div. intros H.
  destruct trend; destruct (d =? 0)%float; simpl in H; try discriminate;
    injection H as <-; simpl; auto.
Qed.

Lemma round_finite (x : float) (n : nat) :
  Float.is_finite (Float.round x n) = true -> Float.is_finite x = true.
Proof.
  unfold Float.round, Float.is_finite at 2.
  destruct (Prim2SF x) eqn:Hx; try reflexivity;
    unfold Float.is_finite; rewrite Hx; trivial.
Qed.

Lemma calculate_levels_Done (data : gmap string value) (trend : Trend) (l : Levels) :
  calculate_levels data trend = Done l ->
  exists close d, data !! "close" = Some (VFloat close)
    /\ price_levels trend close d = Done l.
Proof.
  unfold calculate_levels. intros H.
  bind_inv H as close Hclose. apply item_float_Done in Hclose.
  bind_inv H as atr Hatr. bind_inv H as d Hd. eauto.
Qed.

Lemma finite_take_profit_ratio (trend : Trend) (close d : float) (l : Levels) :
  price_levels trend close d = Done l ->
  Float.is_finite (level_take_profit l) = true ->
  level_rrr l = 2%float.
Proof.
  intros H Hfin. apply price_levels_Done in H as (Hnz & _ & Hr & Hl).
  rewrite Hr.
  assert (Float.is_finite (2 * d) = true) as Hd.
  { destruct trend; destruct Hl as [_ Ht]; rewrite Ht in Hfin;
      apply round_finite in Hfin;
      [ apply add_finite_r in Hfin | apply sub_finite_r in Hfin ]; assumption. }
  rewrite (double_then_divide d Hd Hnz). vm_compute. reflexivity.
Qed.

Lemma signal_direction_not_no_trade (trend : Trend) : signal_direction trend <> "no_trade".
Proof. destruct trend; discriminate. Qed.

(** C7. Whatever the input, a run that returns gives a result in which
    entry, stop_loss, take_profit and rrr are all [None] and the status is
    no_trade, or all four are present and the status is not no_trade. *)
Theorem levels_all_or_none (data : gmap string value) (r : TradeSignal) :
  evaluate_signal data = Done r ->
  (status r = "no_trade" /\ entry r = None /\ stop_loss r = None
   /\ take_profit r = None /\ rrr r = None)
  \/ (status r <> "no_trade" /\ is_Some (entry r) /\ is_Some (stop_loss r)
      /\ is_Some (take_profit r) /\ is_Some (rrr r)).
Proof.
  intros H. apply evaluate_signal_Done in H as [(why & score & msg & -> & _) | Hacc].
  - left. repeat split.
  - right. destruct Hacc as [close ema rsi c l k _ _ _ _ _ _ _ _ _ ->]. simpl.
    repeat split; eauto using signal_direction_not_no_trade.
Qed.

(** C7 at the documented request. *)
Lemma levels_all_or_none_eurusd :
  exists r, evaluate_signal eurusd = Done r
    /\ ((status r = "no_trade" /\ entry r = None /\ stop_loss r = None
         /\ take_profit r = None /\ rrr r = None)
        \/ (status r <> "no_trade" /\ is_Some (entry r) /\ is_Some (stop_loss r)
            /\ is_Some (take_profit r) /\ is_Some (rrr r))).
Proof.
  eexists. split.
  - vm_compute. reflexivity.
  - apply (levels_all_or_none eurusd). vm_compute. reflexivity.
Defined.

Ltac in_list := solve [ repeat constructor ].

(** ** Validation *)

Lemma missing_fields_filter (data : gmap string value) :
  missing_fields data = filter (fun k => data !! k = None) required_fields.
Proof.
  unfold missing_fields. induction required_fields as [|k ks IH]; [ reflexivity | ].
  simpl. rewrite filter_cons, IH. unfold Dict.contains.
  case_decide as Hd; destruct (data !! k); simpl; congruence.
Qed.

(** C2, amended. When one of the nine keys of [required_fields] is not in
    the mapping, the evaluator returns status no_trade, reason data_invalid
    and the message "Missing required fields: " followed by the missing
    keys, comma-joined in the order of [required_fields]. *)
Theorem missing_required_field (data : gmap string value) (field : string) :
  field ∈ required_fields -> data !! field = None ->
  exists r, evaluate_signal data = Done r
    /\ status r = "no_trade" /\ reason r = "data_invalid"
    /\ message r = "Missing required fields: " +:+
         Str.join ", " (filter (fun k => data !! k = None) required_fields).
Proof.
  intros Hin Hnone.
  assert (field ∈ missing_fields data) as Hm.
  { rewrite missing_fields_filter. apply list_elem_of_filter. auto. }
  unfold evaluate_signal, validate_data.
  destruct (missing_fields data) as [|k ks] eqn:Hmiss.
  { inversion Hm. }
  simpl. eexists. split; [ reflexivity | ]. simpl.
  rewrite <- missing_fields_filter, Hmiss. auto.
Qed.

(** C2, amended, at the documented request without its close. *)
Lemma missing_required_field_close :
  exists r, evaluate_signal without_close = Done r
    /\ status r = "no_trade" /\ reason r = "data_invalid"
    /\ message r = "Missing required fields: " +:+
         Str.join ", " (filter (fun k => without_close !! k = None) required_fields).
Proof.
  apply (missing_required_field without_close "close").
  - in_list.
  - vm_compute. reflexivity.
Defined.

(** C2 as stated fails: without its timestamp the documented request is
    accepted, and the result carries [None] as timestamp. *)
Lemma timestamp_is_not_required :
  without_timestamp !! "timestamp" = None
  /\ evaluate_signal without_timestamp
     = Done {| status := "long";
               reason := "all_conditions_met";
               entry := Some 1.085%float;
               stop_loss := Some 1.082%float;
               take_profit := Some 1.091%float;
               rrr := Some 2%float;
               confidence := NFloat 100;
               message :=
                 "Trend: BULLISH | Signal: LONG | Confluences (4/4): " +:+
                 "RSI 4H oversold: 18.50; Bullish candle pattern: hammer; " +:+
                 "Bullish pattern: double_bottom; Price/RSI divergence detected; " +:+
                 "Daily trend aligned (RSI Daily: 45.20)";
               instrument := VStr "EURUSD";
               timeframe := VStr "4H";
               timestamp := VNone |}.
Proof. split; vm_compute; reflexivity. Qed.

(** ** Confluences *)

Lemma rsi_confluence_details (trend : Trend) (strict_mode : value) (rsi_4h : float) :
  is_empty (snd (rsi_confluence trend strict_mode rsi_4h))
  = negb (fst (rsi_confluence trend strict_mode rsi_4h)).
Proof.
  unfold rsi_confluence.
  destruct trend, (truthy strict_mode);
    repeat match goal with |- context [if ?b then _ else _] => destruct b end;
    reflexivity.
Qed.

Lemma trend_confluence_details (trend : Trend) (rsi_daily : float) :
  is_empty (snd (trend_confluence trend rsi_daily))
  = negb (fst (trend_confluence trend rsi_daily)).
Proof.
  unfold trend_confluence.
  destruct trend;
    repeat match goal with |- context [if ?b then _ else _] => destruct b end;
    reflexivity.
Qed.

Lemma candle_confluence_details (trend : Trend) (candle_type : value)
    (flag : bool) (details : list string) :
  candle_confluence trend candle_type = Done (flag, details) ->
  is_empty details = negb flag.
Proof.
  unfold candle_confluence. intros H.
  destruct (truthy candle_type).
  - bind_inv H as label Hlabel.
    destruct trend;
      match type of H with (if ?b then _ else _) = _ => destruct b end;
      injection H as <- <-; reflexivity.
  - injection H as <- <-. reflexivity.
Qed.

Lemma is_empty_snoc {A : Type} (l : list A) (x : A) : is_empty (l ++ [x]) = false.
Proof. destruct l; reflexivity. Qed.

Lemma pattern_confluence_details (trend : Trend) (pattern divergence : value)
    (flag : bool) (details : list string) :
  pattern_confluence trend pattern divergence = Done (flag, details) ->
  is_empty details = negb flag.
Proof.
  unfold pattern_confluence. intros H.
  bind_inv H as first Hfirst. destruct first as [flag0 details0].
  assert (is_empty details0 = negb flag0) as Hinv.
  { destruct (truthy pattern).
    - bind_inv Hfirst as label Hlabel.
      destruct trend;
        match type of Hfirst with (if ?b then _ else _) = _ => destruct b end;
        injection Hfirst as <- <-; reflexivity.
    - injection Hfirst as <- <-. reflexivity. }
  destruct (truthy divergence); injection H as <- <-.
  - apply is_empty_snoc.
  - assumption.
Qed.

Lemma is_empty_app {A : Type} (l1 l2 : list A) :
  is_empty (l1 ++ l2) = is_empty l1 && is_empty l2.
Proof. destruct l1; reflexivity. Qed.

(** The count is the number of confluences met, between 0 and 4, and no
    detail is recorded exactly when none is met. *)
Lemma check_confluences_count (data : gmap string value) (trend : Trend)
    (c : Confluences) :
  check_confluences data trend = Done c ->
  0 <= confluence_count c <= 4
  /\ (is_empty (confluence_details c) = (confluence_count c =? 0)).
Proof.
  unfold check_confluences. intros H.
  bind_inv H as rsi_4h Hrsi.
  pose proof (rsi_confluence_details trend
                (Dict.get_or data "strict_mode" (VBool false)) rsi_4h) as H1.
  destruct (rsi_confluence _ _ rsi_4h) as [m1 d1].
  bind_inv H as candle Hcandle. destruct candle as [m2 d2].
  apply candle_confluence_details in Hcandle as H2.
  bind_inv H as pat Hpat. destruct pat as [m3 d3].
  apply pattern_confluence_details in Hpat as H3.
  bind_inv H as rsi_daily Hdaily.
  pose proof (trend_confluence_details trend rsi_daily) as H4.
  destruct (trend_confluence trend rsi_daily) as [m4 d4].
  injection H as <-. simpl in *.
  rewrite !is_empty_app, H1, H2, H3, H4.
  destruct m1, m2, m3, m4; simpl; split; (lia || reflexivity).
Qed.

(** C6, amended. For a validated input whose confluence count is below 3
    the evaluator returns status no_trade, reason not_enough_confluences and
    the message "Only {count}/4 confluences met. Need at least 3. Met:
    {details}", the details being the recorded ones joined with "; " in
    evaluation order, or None when no confluence is met. *)
Theorem not_enough_confluences (data : gmap string value) (close ema50_daily : float)
    (c : Confluences) :
  validate_data data = Done None ->
  data !! "close" = Some (VFloat close) ->
  data !! "ema50_daily" = Some (VFloat ema50_daily) ->
  check_confluences data (calculate_trend close ema50_daily) = Done c ->
  confluence_count c < 3 ->
  exists r, evaluate_signal data = Done r
    /\ status r = "no_trade" /\ reason r = "not_enough_confluences"
    /\ message r =
         "Only " +:+ Str.of_Z (confluence_count c) +:+
         "/4 confluences met. Need at least 3. Met: " +:+
         (if confluence_count c =? 0 then "None"
          else Str.join "; " (confluence_details c)).
Proof.
  intros Hv Hclose Hema Hc Hlt.
  unfold evaluate_signal. rewrite Hv. simpl.
  unfold Dict.item. rewrite Hclose, Hema. simpl. rewrite Hc. simpl.
  apply Z.ltb_lt in Hlt. rewrite Hlt.
  eexists. split; [ reflexivity | ]. simpl. repeat split.
  unfold confluences_message.
  apply check_confluences_count in Hc as [_ ->]. reflexivity.
Qed.

(** C6, amended, at a request with two confluences. *)
Lemma not_enough_confluences_two :
  exists r, evaluate_signal two_confluences = Done r
    /\ status r = "no_trade" /\ reason r = "not_enough_confluences"
    /\ message r =
         "Only " +:+ Str.of_Z 2 +:+
         "/4 confluences met. Need at least 3. Met: " +:+
         Str.join "; " [ "RSI 4H oversold: 18.50";
                         "Daily trend aligned (RSI Daily: 45.20)" ].
Proof.
  apply (not_enough_confluences two_confluences 1.0850 1.0800
           {| confluence_count := 2;
              confluence_details := [ "RSI 4H oversold: 18.50";
                                      "Daily trend aligned (RSI Daily: 45.20)" ];
              candle_confluence_met := false |}).
  - vm_compute. reflexivity.
  - vm_compute. reflexivity.
  - vm_compute. reflexivity.
  - vm_compute. reflexivity.
  - simpl. lia.
Defined.

(** C6 as stated fails: the message starts with "Only ". *)
Lemma message_starts_with_only :
  exists r, evaluate_signal two_confluences = Done r
    /\ reason r = "not_enough_confluences"
    /\ message r =
         "Only 2/4 confluences met. Need at least 3. Met: " +:+
         "RSI 4H oversold: 18.50; Daily trend aligned (RSI Daily: 45.20)"
    /\ message r <>
         "2/4 confluences met. Need at least 3. Met: " +:+
         "RSI 4H oversold: 18.50; Daily trend aligned (RSI Daily: 45.20)".
Proof.
  eexists. split; [ vm_compute; reflexivity | ].
  split; [ reflexivity | ]. split; [ reflexivity | ].
  vm_compute. discriminate.
Qed.

(** ** Risk levels *)

(** C3 as stated fails: with an atr of a millionth the stop loss rounds onto
    the entry and the evaluator abstains with invalid_risk_parameters. *)
Lemma positive_atr_invalid_risk :
  tiny_atr !! "atr" = Some (VFloat 0.000001)
  /\ (0 <? 0.000001)%float = true
  /\ validate_data tiny_atr = Done None
  /\ (exists c, check_confluences tiny_atr bullish = Done c /\ confluence_count c = 4)
  /\ evaluate_signal tiny_atr
     = Done (no_trade tiny_atr "invalid_risk_parameters" (NFloat 100)
               "Invalid SL/TP positioning for long trade").
Proof.
  repeat split; try (vm_compute; reflexivity).
  eexists. split; vm_compute; reflexivity.
Qed.

(** C4 as stated fails: with an atr of 1e308 the take-profit distance
    overflows and the accepted signal carries an infinite rrr. *)
Lemma overflowing_distance_ratio :
  (0 <? 1e308)%float = true
  /\ exists r, evaluate_signal huge_atr = Done r
    /\ status r = "long" /\ reason r = "all_conditions_met"
    /\ entry r = Some 1.085%float
    /\ stop_loss r = Some (-1e308)%float
    /\ take_profit r = Some infinity
    /\ rrr r = Some infinity.
Proof.
  split; [ vm_compute; reflexivity | ].
  eexists. split; [ vm_compute; reflexivity | ]. repeat split.
Qed.

(** At a price of 1e17 both returned distances are 16. *)
Example distances_at_huge_price :
  exists r, evaluate_signal huge_price = Done r
    /\ status r = "long"
    /\ entry r = Some 1e17%float
    /\ stop_loss r = Some (1e17 - 16)%float
    /\ take_profit r = Some (1e17 + 16)%float
    /\ rrr r = Some 2%float.
Proof.
  eexists. split; [ vm_compute; reflexivity | ]. repeat split.
Qed.

(** C1. The documented request with an atr of 0.0 and no swing low passes
    validation and makes the evaluator raise ZeroDivisionError at the
    quotient tp_distance / sl_distance. *)
Theorem zero_atr_raises :
  validate_data zero_atr = Done None
  /\ zero_atr !! "atr" = Some (VFloat 0)
  /\ zero_atr !! "recent_swing_low" = None
  /\ evaluate_signal zero_atr = Raise ZeroDivisionError.
Proof. repeat split; vm_compute; reflexivity. Qed.

(** C5. On the example of the specification, with any high and low, the
    evaluator returns status long, reason all_conditions_met, entry 1.0850,
    stop_loss 1.0820, take_profit 1.0910, rrr 2.0 and confidence 100.0; the
    trend is bullish, 4 confluences are met and the component scores are
    25, 20, 20, 20 and 15. *)
Theorem specification_example (high low : float) :
  evaluate_signal (snapshot high low)
  = Done {| status := "long";
            reason := "all_conditions_met";
            entry := Some 1.0850%float;
            stop_loss := Some 1.0820%float;
            take_profit := Some 1.0910%float;
            rrr := Some 2.0%float;
            confidence := NFloat 100.0;
            message :=
              "Trend: BULLISH | Signal: LONG | Confluences (4/4): " +:+
              "RSI 4H oversold: 18.50; Bullish candle pattern: hammer; " +:+
              "Bullish pattern: double_bottom; Price/RSI divergence detected; " +:+
              "Daily trend aligned (RSI Daily: 45.20)";
            instrument := VStr "EURUSD";
            timeframe := VStr "4H";
            timestamp := VNone |}
  /\ calculate_trend 1.0850 1.0800 = bullish
  /\ (exists c k,
        check_confluences (snapshot high low) bullish = Done c
        /\ confluence_count c = 4
        /\ calculate_confidence bullish c 45.2 (VStr "hammer") = Done k
        /\ score_confluences k = 25%float
        /\ score_trend k = 20
        /\ level_quality_score = 20
        /\ score_candle k = 20
        /\ market_conditions_score = 15
        /\ confidence_score k = 100%float).
Proof.
  split; [ vm_compute; reflexivity | ].
  split; [ vm_compute; reflexivity | ].
  eexists. eexists.
  split; [ vm_compute; reflexivity | ].
  split; [ reflexivity | ].
  split; [ vm_compute; reflexivity | ].
  repeat split.
Qed.

(** ** Trend *)


(** ** What the evaluator reads *)

Section Reads.

Variables data1 data2 : gmap string value.

(** The two mappings hold the same value under every key whose value the
    code uses, and [high] and [low] are present in both or missing in
    both, and [None] in both or in neither. *)
Hypothesis same_values : forall k, k ∈ value_keys -> data1 !! k = data2 !! k.
Hypothesis same_presence :
  forall k, k ∈ presence_keys -> presence (data1 !! k) = presence (data2 !! k).

Lemma required_presence (k : string) :
  k ∈ required_fields -> presence (data1 !! k) = presence (data2 !! k).
Proof.
  intros Hk. unfold required_fields in Hk.
  repeat (apply elem_of_cons in Hk as [-> | Hk]);
    try (apply same_presence; in_list);
    try (rewrite same_values by in_list; reflexivity).
  inversion Hk.
Qed.

Lemma missing_fields_same : missing_fields data1 = missing_fields data2.
Proof.
  unfold missing_fields. apply List.filter_ext_in. intros k Hk.
  apply list_elem_of_In, required_presence in Hk. revert Hk.
  unfold Dict.contains.
  destruct (data1 !! k) as [[]|], (data2 !! k) as [[]|]; simpl; congruence.
Qed.

Lemma none_fields_same : none_fields data1 = none_fields data2.
Proof.
  unfold none_fields. apply List.filter_ext_in. intros k Hk.
  apply list_elem_of_In, required_presence in Hk. revert Hk.
  unfold Dict.get, Dict.get_or.
  destruct (data1 !! k) as [[]|], (data2 !! k) as [[]|]; simpl; congruence.
Qed.

Lemma item_same (k : string) :
  k ∈ value_keys -> Dict.item data1 k = Dict.item data2 k.
Proof. intros Hk. unfold Dict.item. rewrite (same_values k Hk). reflexivity. Qed.

Lemma get_or_same (k : string) (d : value) :
  k ∈ value_keys -> Dict.get_or data1 k d = Dict.get_or data2 k d.
Proof. intros Hk. unfold Dict.get_or. rewrite (same_values k Hk). reflexivity. Qed.

Lemma get_same (k : string) :
  k ∈ value_keys -> Dict.get data1 k = Dict.get data2 k.
Proof. intros Hk. apply get_or_same, Hk. Qed.

Ltac same_reads :=
  rewrite ?(item_same "timeframe"), ?(item_same "close"),
    ?(item_same "ema50_daily"), ?(item_same "rsi_4h"),
    ?(item_same "rsi_daily"), ?(item_same "atr"),
    ?(get_or_same "strict_mode"), ?(get_or_same "candle_type"),
    ?(get_or_same "pattern"), ?(get_or_same "divergence"),
    ?(get_or_same "recent_swing_low"), ?(get_or_same "recent_swing_high"),
    ?(get_same "instrument"), ?(get_same "timeframe"),
    ?(get_same "timestamp")
    by in_list.

Lemma no_trade_same (why : string) (score : number) (msg : string) :
  no_trade data1 why score msg = no_trade data2 why score msg.
Proof. unfold no_trade. same_reads. reflexivity. Qed.

Lemma validate_data_same : validate_data data1 = validate_data data2.
Proof.
  unfold validate_data.
  rewrite missing_fields_same, none_fields_same. same_reads.
  destruct (negb (is_empty (missing_fields data2)));
    [ rewrite no_trade_same; reflexivity | ].
  destruct (negb (is_empty (none_fields data2)));
    [ rewrite no_trade_same; reflexivity | ].
  destruct (Dict.item data2 "timeframe") as [tf|]; [ simpl | reflexivity ].
  destruct (is_str tf "4H"); [ reflexivity | ].
  destruct (str tf); [ simpl | reflexivity ].
  rewrite no_trade_same. reflexivity.
Qed.

Lemma check_confluences_same (trend : Trend) :
  check_confluences data1 trend = check_confluences data2 trend.
Proof. unfold check_confluences. same_reads. reflexivity. Qed.

Lemma calculate_levels_same (trend : Trend) :
  calculate_levels data1 trend = calculate_levels data2 trend.
Proof. unfold calculate_levels. same_reads. reflexivity. Qed.

Lemma trade_same (trend : Trend) (c : Confluences) (l : Levels) (k : Confidence) :
  trade data1 trend c l k = trade data2 trend c l k.
Proof. unfold trade. same_reads. reflexivity. Qed.

Lemma evaluate_signal_same : evaluate_signal data1 = evaluate_signal data2.
Proof.
  unfold evaluate_signal. rewrite validate_data_same. same_reads.
  destruct (validate_data data2) as [[r|]|]; simpl; try reflexivity.
  destruct (Dict.item data2 "close" ≫= as_float) as [close|]; simpl;
    [ | reflexivity ].
  destruct (Dict.item data2 "ema50_daily" ≫= as_float) as [ema|]; simpl;
    [ | reflexivity ].
  rewrite check_confluences_same.
  destruct (check_confluences data2 (calculate_trend close ema)) as [c|];
    simpl; [ | reflexivity ].
  rewrite no_trade_same. destruct (confluence_count c <? 3); [ reflexivity | ].
  rewrite calculate_levels_same.
  destruct (calculate_levels data2 (calculate_trend close ema)) as [l|];
    simpl; [ | reflexivity ].
  destruct (Dict.item data2 "rsi_daily" ≫= as_float) as [rsi_daily|]; simpl;
    [ | reflexivity ].
  destruct (calculate_confidence _ c rsi_daily _) as [k|]; simpl;
    [ | reflexivity ].
  rewrite !no_trade_same, trade_same. reflexivity.
Qed.

End Reads.

(** C9. The outcome of the evaluator is a function of the entries of the
    input under the sixteen keys it reads: two mappings that agree on those
    keys give the same outcome, return value or exception alike. *)
Theorem evaluate_signal_deterministic (data1 data2 : gmap string value) :
  (forall k, k ∈ read_keys -> data1 !! k = data2 !! k) ->
  evaluate_signal data1 = evaluate_signal data2.
Proof.
  intros H. apply evaluate_signal_same.
  - intros k Hk. apply H. unfold read_keys. apply elem_of_app. auto.
  - intros k Hk. rewrite H; [ reflexivity | ].
    unfold read_keys. apply elem_of_app. auto.
Qed.

(** C9 at the documented request, with and without a key that is not read. *)
Lemma evaluate_signal_deterministic_volume :
  eurusd !! "volume" <> with_volume !! "volume"
  /\ evaluate_signal eurusd = evaluate_signal with_volume.
Proof.
  split; [ vm_compute; discriminate | ].
  apply evaluate_signal_deterministic. intros k Hk.
  unfold read_keys, value_keys, presence_keys in Hk. simpl in Hk.
  repeat (apply elem_of_cons in Hk as [-> | Hk]); try (vm_compute; reflexivity).
  inversion Hk.
Defined.

(** C10. Two mappings that differ only in the float values under high and
    low give the same outcome. *)
Theorem high_low_values_unused (data1 data2 : gmap string value)
    (high1 low1 high2 low2 : float) :
  (forall k, k <> "high" -> k <> "low" -> data1 !! k = data2 !! k) ->
  data1 !! "high" = Some (VFloat high1) -> data1 !! "low" = Some (VFloat low1) ->
  data2 !! "high" = Some (VFloat high2) -> data2 !! "low" = Some (VFloat low2) ->
  evaluate_signal data1 = evaluate_signal data2.
Proof.
  intros H Hh1 Hl1 Hh2 Hl2. apply evaluate_signal_same.
  - intros k Hk. apply H; intros ->; unfold value_keys in Hk;
      repeat (apply elem_of_cons in Hk as [Hk | Hk]; [ discriminate Hk | ]);
      inversion Hk.
  - intros k Hk. unfold presence_keys in Hk.
    repeat (apply elem_of_cons in Hk as [-> | Hk]).
    + rewrite Hh1, Hh2. reflexivity.
    + rewrite Hl1, Hl2. reflexivity.
    + inversion Hk.
Qed.

(** C10 at the documented request and another high and low. *)
Lemma high_low_values_unused_eurusd :
  eurusd !! "high" <> other_range !! "high"
  /\ eurusd !! "low" <> other_range !! "low"
  /\ evaluate_signal eurusd = evaluate_signal other_range.
Proof.
  split; [ vm_compute; congruence | ]. split; [ vm_compute; congruence | ].
  apply (high_low_values_unused eurusd other_range 1.0865 1.0835 2 1);
    try (vm_compute; reflexivity).
  intros k Hh Hl. unfold other_range.
  rewrite !lookup_insert_ne by congruence. reflexivity.
Defined.

(** * Exceptions *)

Lemma conforms_lookup (data : gmap string value) (key : string) (kind : Kind)
    (v : value) :
  conforms data = true -> In (key, kind) schema -> data !! key = Some v ->
  has_kind kind v = true.
Proof.
  unfold conforms. intros Hc Hin Hv.
  rewrite forallb_forall in Hc. specialize (Hc _ Hin). simpl in Hc.
  rewrite Hv in Hc. exact Hc.
Qed.

Lemma filter_empty {A : Type} (f : A -> bool) (l : list A) (x : A) :
  is_empty (List.filter f l) = true -> In x l -> f x = false.
Proof.
  induction l as [|a l IH]; simpl; [ tauto | ].
  destruct (f a) eqn:Ha; simpl; [ discriminate | ].
  intros He [<- | Hin]; auto.
Qed.

(** After the validation a required key holds a value that is not [None]. *)
Lemma validated_entry (data : gmap string value) (key : string) :
  is_empty (missing_fields data) = true -> is_empty (none_fields data) = true ->
  In key required_fields ->
  exists v, data !! key = Some v /\ is_none v = false.
Proof.
  intros Hm Hn Hin.
  pose proof (filter_empty _ _ key Hm Hin) as H1.
  pose proof (filter_empty _ _ key Hn Hin) as H2.
  unfold Dict.contains in H1. unfold Dict.get, Dict.get_or in H2.
  destruct (data !! key) as [v|]; [ eauto | discriminate ].
Qed.

Lemma validated_float (data : gmap string value) (key : string) :
  conforms data = true ->
  is_empty (missing_fields data) = true -> is_empty (none_fields data) = true ->
  In key required_fields -> In (key, KFloat) schema ->
  exists x, Dict.item data key ≫= as_float = Done x.
Proof.
  intros Hc Hm Hn Hreq Hsch.
  destruct (validated_entry data key Hm Hn Hreq) as (v & Hv & Hnone).
  pose proof (conforms_lookup data key KFloat v Hc Hsch Hv) as Hk.
  unfold Dict.item. rewrite Hv.
  destruct v; try discriminate. simpl. eauto.
Qed.

Ltac in_schema := simpl; tauto.

Lemma validate_data_conforms (data : gmap string value) :
  conforms data = true ->
  exists early, validate_data data = Done early
    /\ (early = None ->
        is_empty (missing_fields data) = true
        /\ is_empty (none_fields data) = true).
Proof.
  intros Hc. unfold validate_data.
  destruct (is_empty (missing_fields data)) eqn:Hm; simpl;
    [ | eexists; split; [ reflexivity | discriminate ] ].
  destruct (is_empty (none_fields data)) eqn:Hn; simpl;
    [ | eexists; split; [ reflexivity | discriminate ] ].
  destruct (validated_entry data "timeframe" Hm Hn ltac:(in_schema))
    as (tf & Htf & Hnone).
  pose proof (conforms_lookup data "timeframe" KStr tf Hc ltac:(in_schema) Htf) as Hk.
  unfold Dict.item. rewrite Htf. simpl.
  destruct tf; try discriminate. simpl.
  destruct (String.eqb s "4H"); eexists; (split; [ reflexivity | ]);
    auto; discriminate.
Qed.

Lemma get_or_kind (data : gmap string value) (key : string) (kind : Kind)
    (d : value) :
  conforms data = true -> In (key, kind) schema -> has_kind kind d = true ->
  has_kind kind (Dict.get_or data key d) = true.
Proof.
  intros Hc Hin Hd. unfold Dict.get_or.
  destruct (data !! key) as [v|] eqn:Hv; [ | exact Hd ].
  exact (conforms_lookup data key kind v Hc Hin Hv).
Qed.

Lemma candle_confluence_total (trend : Trend) (candle_type : value) :
  has_kind KStr candle_type = true ->
  exists r, candle_confluence trend candle_type = Done r.
Proof.
  unfold candle_confluence. intros Hk.
  destruct candle_type; try discriminate; simpl; eauto.
  destruct (negb (String.eqb s "")); simpl; eauto.
  destruct trend;
    match goal with |- context [if ?b then _ else _] => destruct b end; eauto.
Qed.

Lemma pattern_confluence_total (trend : Trend) (pattern divergence : value) :
  has_kind KStr pattern = true ->
  exists r, pattern_confluence trend pattern divergence = Done r.
Proof.
  unfold pattern_confluence. intros Hk.
  assert (exists first,
            (if truthy pattern
             then label ← as_str pattern;
                  match trend with
                  | bullish =>
                      if Str.mem (Str.lower label) bullish_patterns
                      then Done (met ("Bullish pattern: " +:+ label))
                      else Done unmet
                  | bearish =>
                      if Str.mem (Str.lower label) bearish_patterns
                      then Done (met ("Bearish pattern: " +:+ label))
                      else Done unmet
                  end
             else Done unmet) = Done first) as (first & ->).
  { destruct pattern; try discriminate; simpl; eauto.
    destruct (negb (String.eqb s "")); simpl; eauto.
    destruct trend;
      match goal with |- context [if ?b then _ else _] => destruct b end; eauto. }
  simpl. destruct first as [flag details].
  destruct (truthy divergence); eauto.
Qed.

Lemma check_confluences_total (data : gmap string value) (trend : Trend) :
  conforms data = true ->
  is_empty (missing_fields data) = true -> is_empty (none_fields data) = true ->
  exists c, check_confluences data trend = Done c.
Proof.
  intros Hc Hm Hn. unfold check_confluences.
  destruct (validated_float data "rsi_4h" Hc Hm Hn ltac:(in_schema) ltac:(in_schema))
    as (rsi_4h & ->). simpl.
  destruct (rsi_confluence trend _ rsi_4h) as [m1 d1].
  destruct (candle_confluence_total trend (Dict.get_or data "candle_type" VNone))
    as ([m2 d2] & ->).
  { apply get_or_kind; [ assumption | in_schema | reflexivity ]. }
  simpl.
  destruct (pattern_confluence_total trend (Dict.get_or data "pattern" VNone)
              (Dict.get_or data "divergence" (VBool false))) as ([m3 d3] & ->).
  { apply get_or_kind; [ assumption | in_schema | reflexivity ]. }
  simpl.
  destruct (validated_float data "rsi_daily" Hc Hm Hn ltac:(in_schema) ltac:(in_schema))
    as (rsi_daily & ->). simpl.
  destruct (trend_confluence trend rsi_daily) as [m4 d4]. eauto.
Qed.

Lemma sl_distance_total (trend : Trend) (entry_price atr : float)
    (recent_swing_low recent_swing_high : value) :
  has_kind KFloat recent_swing_low = true ->
  has_kind KFloat recent_swing_high = true ->
  exists d, sl_distance trend entry_price atr recent_swing_low recent_swing_high
            = Done d.
Proof.
  unfold sl_distance. intros Hl Hh.
  destruct trend.
  - destruct recent_swing_low; try discriminate; simpl; eauto.
  - destruct recent_swing_high; try discriminate; simpl; eauto.
Qed.

Lemma price_levels_raises (trend : Trend) (entry_price distance : float) (e : exn) :
  price_levels trend entry_price distance = Raise e -> e = ZeroDivisionError.
Proof.
  unfold price_levels, Float.div.
  destruct trend; destruct (distance =? 0)%float; simpl; congruence.
Qed.

Lemma calculate_levels_raises (data : gmap string value) (trend : Trend) (e : exn) :
  conforms data = true ->
  is_empty (missing_fields data) = true -> is_empty (none_fields data) = true ->
  calculate_levels data trend = Raise e -> e = ZeroDivisionError.
Proof.
  intros Hc Hm Hn. unfold calculate_levels.
  destruct (validated_float data "close" Hc Hm Hn ltac:(in_schema) ltac:(in_schema))
    as (close & ->). simpl.
  destruct (validated_float data "atr" Hc Hm Hn ltac:(in_schema) ltac:(in_schema))
    as (atr & ->). simpl.
  destruct (sl_distance_total trend close atr
              (Dict.get_or data "recent_swing_low" VNone)
              (Dict.get_or data "recent_swing_high" VNone)) as (d & ->).
  { apply get_or_kind; [ assumption | in_schema | reflexivity ]. }
  { apply get_or_kind; [ assumption | in_schema | reflexivity ]. }
  simpl. apply price_levels_raises.
Qed.

Lemma calculate_confidence_total (trend : Trend) (c : Confluences)
    (rsi_daily : float) (candle_type : value) :
  has_kind KStr candle_type = true ->
  exists k, calculate_confidence trend c rsi_daily candle_type = Done k.
Proof.
  unfold calculate_confidence, candle_score. intros Hk.
  destruct (candle_confluence_met c); simpl; eauto.
  destruct candle_type; try discriminate; simpl; eauto.
  destruct (negb (String.eqb s "")); simpl; eauto.
Qed.

(** X1. On a mapping that conforms to the request schema the only exception
    is the division by a zero stop distance. *)
Theorem conforming_raises_only_zero_division (data : gmap string value) (e : exn) :
  conforms data = true -> evaluate_signal data = Raise e ->
  e = ZeroDivisionError.
Proof.
  intros Hc. unfold evaluate_signal.
  destruct (validate_data_conforms data Hc) as (early & -> & Hearly). simpl.
  destruct early as [r|]; [ discriminate | ].
  destruct (Hearly eq_refl) as [Hm Hn].
  destruct (validated_float data "close" Hc Hm Hn ltac:(in_schema) ltac:(in_schema))
    as (close & ->). simpl.
  destruct (validated_float data "ema50_daily" Hc Hm Hn ltac:(in_schema) ltac:(in_schema))
    as (ema & ->). simpl.
  destruct (check_confluences_total data (calculate_trend close ema) Hc Hm Hn)
    as (c & ->). simpl.
  destruct (confluence_count c <? 3); [ discriminate | ].
  destruct (calculate_levels data (calculate_trend close ema)) as [l|e'] eqn:Hl;
    simpl.
  - destruct (validated_float data "rsi_daily" Hc Hm Hn ltac:(in_schema) ltac:(in_schema))
      as (rsi_daily & ->). simpl.
    destruct (calculate_confidence_total (calculate_trend close ema) c rsi_daily
                (Dict.get_or data "candle_type" VNone)) as (k & ->).
    { apply get_or_kind; [ assumption | in_schema | reflexivity ]. }
    simpl. destruct (confidence_score k <? 70)%float; [ discriminate | ].
    destruct (invalid_positioning _ l); discriminate.
  - intros [= <-]. eapply calculate_levels_raises; eassumption.
Qed.

Lemma conforming_raises_only_zero_division_at_zero_atr :
  conforms zero_atr = true
  /\ evaluate_signal zero_atr = Raise ZeroDivisionError
  /\ ZeroDivisionError = ZeroDivisionError.
Proof.
  split; [ vm_compute; reflexivity | ].
  split; [ vm_compute; reflexivity | ].
  apply (conforming_raises_only_zero_division zero_atr ZeroDivisionError);
    vm_compute; reflexivity.
Defined.

(** A negative average true range does reach the final risk check. *)
Example negative_atr_abstains :
  evaluate_signal negative_atr
  = Done (no_trade negative_atr "invalid_risk_parameters" (NFloat 100)
            "Invalid SL/TP positioning for long trade").
Proof. vm_compute. reflexivity. Qed.

(** * The validation, field by field *)

Lemma filter_none {A : Type} (f : A -> bool) (l : list A) :
  (forall x, In x l -> f x = false) -> List.filter f l = [].
Proof.
  induction l as [|a l IH]; simpl; intros H; [ reflexivity | ].
  rewrite (H a) by auto. apply IH. auto.
Qed.

Lemma none_filter_present (data : gmap string value) (l : list string) :
  (forall k, k ∈ l -> is_Some (data !! k)) ->
  List.filter (fun field => is_none (Dict.get data field)) l
  = filter (fun k => presence (data !! k) = Null) l.
Proof.
  induction l as [|k ks IH]; intros Hall; [ reflexivity | ].
  simpl. rewrite filter_cons, IH by (intros; apply Hall; constructor; assumption).
  destruct (Hall k ltac:(constructor)) as [v Hv].
  unfold Dict.get, Dict.get_or. rewrite Hv.
  case_decide as Hd; destruct v; simpl in *; congruence.
Qed.

(** X2. When every required key is in the mapping and one holds [None], the
    evaluator returns data_invalid and names the keys that hold [None], in
    the order of [required_fields]. *)
Theorem null_required_field (data : gmap string value) (field : string) :
  (forall k, k ∈ required_fields -> is_Some (data !! k)) ->
  field ∈ required_fields -> data !! field = Some VNone ->
  exists r, evaluate_signal data = Done r
    /\ status r = "no_trade" /\ reason r = "data_invalid"
    /\ confidence r = NInt 0
    /\ message r = "Fields with None values: " +:+
         Str.join ", " (filter (fun k => presence (data !! k) = Null) required_fields).
Proof.
  intros Hall Hin Hnull.
  assert (missing_fields data = []) as Hmiss.
  { apply filter_none. intros k Hk. apply list_elem_of_In, Hall in Hk.
    unfold Dict.contains. destruct Hk as [v ->]. reflexivity. }
  assert (none_fields data
          = filter (fun k => presence (data !! k) = Null) required_fields) as Hnone.
  { apply none_filter_present, Hall. }
  assert (field ∈ none_fields data) as Hmem.
  { rewrite Hnone. apply list_elem_of_filter. rewrite Hnull. auto. }
  unfold evaluate_signal, validate_data. rewrite Hmiss. simpl.
  destruct (none_fields data) as [|k ks] eqn:Hn; [ inversion Hmem | ].
  simpl. eexists. split; [ reflexivity | ]. simpl. rewrite <- Hnone. auto.
Qed.

(** X2 at the documented request with atr set to [None]. *)
Lemma null_required_field_atr :
  exists r, evaluate_signal null_atr = Done r
    /\ status r = "no_trade" /\ reason r = "data_invalid"
    /\ confidence r = NInt 0
    /\ message r = "Fields with None values: " +:+
         Str.join ", "
           (filter (fun k => presence (null_atr !! k) = Null) required_fields).
Proof.
  apply (null_required_field null_atr "atr").
  - intros k Hk. unfold required_fields in Hk.
    repeat (apply elem_of_cons in Hk as [-> | Hk]);
      try (vm_compute; eexists; reflexivity).
    inversion Hk.
  - in_list.
  - vm_compute. reflexivity.
Defined.

(** X3. A complete mapping whose timeframe is a str other than "4H" is turned
    down with preconditions_not_met and a message that quotes the timeframe,
    whatever the other fields hold. *)
Theorem wrong_timeframe (data : gmap string value) (tf : string) :
  (forall k, k ∈ required_fields ->
     exists v, data !! k = Some v /\ is_none v = false) ->
  data !! "timeframe" = Some (VStr tf) -> tf <> "4H" ->
  evaluate_signal data
  = Done (no_trade data "preconditions_not_met" (NInt 0)
            ("Invalid timeframe '" +:+ tf +:+ "'. Strategy requires '4H' timeframe.")).
Proof.
  intros Hall Htf Hne.
  assert (missing_fields data = []) as Hmiss.
  { apply filter_none. intros k Hk. apply list_elem_of_In, Hall in Hk.
    unfold Dict.contains. destruct Hk as (v & -> & _). reflexivity. }
  assert (none_fields data = []) as Hnone.
  { apply filter_none. intros k Hk. apply list_elem_of_In, Hall in Hk.
    unfold Dict.get, Dict.get_or. destruct Hk as (v & -> & Hv). exact Hv. }
  unfold evaluate_signal, validate_data. rewrite Hmiss, Hnone. simpl.
  unfold Dict.item. rewrite Htf. simpl.
  apply String.eqb_neq in Hne. rewrite Hne. reflexivity.
Qed.

(** X3 at the documented request on the 1H timeframe. *)
Lemma wrong_timeframe_hourly :
  evaluate_signal hourly
  = Done (no_trade hourly "preconditions_not_met" (NInt 0)
            ("Invalid timeframe '" +:+ "1H" +:+ "'. Strategy requires '4H' timeframe.")).
Proof.
  apply (wrong_timeframe hourly "1H").
  - intros k Hk. unfold required_fields in Hk.
    repeat (apply elem_of_cons in Hk as [-> | Hk]);
      try (vm_compute; eexists; split; reflexivity).
    inversion Hk.
  - vm_compute. reflexivity.
  - discriminate.
Defined.

(** * What every result carries *)

(** X4. Every result, abstention or signal, echoes the instrument, timeframe and
    timestamp of the mapping as [data.get] reads them: the value when the key
    is there, [None] when it is not. *)
Theorem identifiers_echoed (data : gmap string value) (r : TradeSignal) :
  evaluate_signal data = Done r ->
  instrument r = Dict.get data "instrument"
  /\ timeframe r = Dict.get data "timeframe"
  /\ timestamp r = Dict.get data "timestamp".
Proof.
  intros H. apply evaluate_signal_Done in H as [(why & score & msg & -> & _) | Hacc].
  - repeat split.
  - destruct Hacc as [close ema rsi c l k _ _ _ _ _ _ _ _ _ ->]. repeat split.
Qed.

(** X4 at the documented request without its close. *)
Lemma identifiers_echoed_without_close :
  exists r, evaluate_signal without_close = Done r
    /\ instrument r = Dict.get without_close "instrument"
    /\ timeframe r = Dict.get without_close "timeframe"
    /\ timestamp r = Dict.get without_close "timestamp".
Proof.
  eexists. split.
  - vm_compute. reflexivity.
  - apply (identifiers_echoed without_close). vm_compute. reflexivity.
Defined.

(** X5. A returned long has its close above the daily EMA and a returned short
    has not: the direction of a signal is never against the trend filter. *)
Theorem direction_follows_trend (data : gmap string value) (r : TradeSignal)
    (close ema50_daily : float) :
  evaluate_signal data = Done r ->
  data !! "close" = Some (VFloat close) ->
  data !! "ema50_daily" = Some (VFloat ema50_daily) ->
  (status r = "long" -> (ema50_daily <? close)%float = true)
  /\ (status r = "short" -> (ema50_daily <? close)%float = false).
Proof.
  intros H Hclose Hema.
  apply evaluate_signal_Done in H as [(why & score & msg & -> & _) | Hacc].
  { split; discriminate. }
  destruct Hacc as [close' ema' rsi c l k _ Hclose' Hema' _ _ _ _ _ _ ->].
  assert (close' = close) as -> by congruence.
  assert (ema' = ema50_daily) as -> by congruence.
  simpl. unfold calculate_trend.
  destruct (ema50_daily <? close)%float; simpl; split; congruence.
Qed.

(** X5 at the documented request. *)
Lemma direction_follows_trend_eurusd :
  exists r, evaluate_signal eurusd = Done r
    /\ (status r = "long" -> (1.0800 <? 1.0850)%float = true)
    /\ (status r = "short" -> (1.0800 <? 1.0850)%float = false).
Proof.
  eexists. split.
  - vm_compute. reflexivity.
  - apply (direction_follows_trend eurusd); vm_compute; reflexivity.
Defined.

(** * Confluences and confidence *)

Lemma rsi_confluence_length (trend : Trend) (strict_mode : value) (rsi_4h : float) :
  Z.of_nat (length (snd (rsi_confluence trend strict_mode rsi_4h)))
  = Z.b2z (fst (rsi_confluence trend strict_mode rsi_4h)).
Proof.
  unfold rsi_confluence.
  destruct trend, (truthy strict_mode);
    repeat match goal with |- context [if ?b then _ else _] => destruct b end;
    reflexivity.
Qed.

Lemma trend_confluence_length (trend : Trend) (rsi_daily : float) :
  Z.of_nat (length (snd (trend_confluence trend rsi_daily)))
  = Z.b2z (fst (trend_confluence trend rsi_daily)).
Proof.
  unfold trend_confluence.
  destruct trend;
    repeat match goal with |- context [if ?b then _ else _] => destruct b end;
    reflexivity.
Qed.

Lemma candle_confluence_length (trend : Trend) (candle_type : value)
    (flag : bool) (details : list string) :
  candle_confluence trend candle_type = Done (flag, details) ->
  Z.of_nat (length details) = Z.b2z flag.
Proof.
  unfold candle_confluence. intros H.
  destruct (truthy candle_type).
  - bind_inv H as label Hlabel.
    destruct trend;
      match type of H with (if ?b then _ else _) = _ => destruct b end;
      injection H as <- <-; reflexivity.
  - injection H as <- <-. reflexivity.
Qed.

Lemma pattern_confluence_length (trend : Trend) (pattern divergence : value)
    (flag : bool) (details : list string) :
  pattern_confluence trend pattern divergence = Done (flag, details) ->
  Z.b2z flag <= Z.of_nat (length details) <= Z.b2z flag + 1.
Proof.
  unfold pattern_confluence. intros H.
  bind_inv H as first Hfirst. destruct first as [flag0 details0].
  assert (Z.of_nat (length details0) = Z.b2z flag0) as Hinv.
  { destruct (truthy pattern).
    - bind_inv Hfirst as label Hlabel.
      destruct trend;
        match type of Hfirst with (if ?b then _ else _) = _ => destruct b end;
        injection Hfirst as <- <-; reflexivity.
    - injection Hfirst as <- <-. reflexivity. }
  destruct (truthy divergence); injection H as <- <-.
  - rewrite length_app. simpl. destruct flag0; simpl in *; lia.
  - lia.
Qed.

(** What [check_confluences] returns, confluence by confluence. *)
Lemma check_confluences_Done (data : gmap string value) (trend : Trend)
    (c : Confluences) :
  check_confluences data trend = Done c ->
  exists (rsi_met pattern_met : bool) (rsi_daily : float),
    data !! "rsi_daily" = Some (VFloat rsi_daily)
    /\ confluence_count c
       = Z.b2z rsi_met + Z.b2z (candle_confluence_met c) + Z.b2z pattern_met
         + Z.b2z (fst (trend_confluence trend rsi_daily))
    /\ confluence_count c <= Z.of_nat (length (confluence_details c))
       <= confluence_count c + 1.
Proof.
  unfold check_confluences. intros H.
  bind_inv H as rsi_4h Hrsi.
  pose proof (rsi_confluence_length trend
                (Dict.get_or data "strict_mode" (VBool false)) rsi_4h) as H1.
  destruct (rsi_confluence _ _ rsi_4h) as [m1 d1].
  bind_inv H as candle Hcandle. destruct candle as [m2 d2].
  apply candle_confluence_length in Hcandle as H2.
  bind_inv H as pat Hpat. destruct pat as [m3 d3].
  apply pattern_confluence_length in Hpat as H3.
  bind_inv H as rsi_daily Hdaily. apply item_float_Done in Hdaily.
  pose proof (trend_confluence_length trend rsi_daily) as H4.
  destruct (trend_confluence trend rsi_daily) as [m4 d4] eqn:Ht.
  injection H as <-. simpl in *.
  exists m1, m3, rsi_daily. split; [ assumption | ].
  rewrite Ht. simpl. split; [ reflexivity | ].
  rewrite !length_app. lia.
Qed.

(** X6. The count of confluences lies between 0 and 4; the details recorded are
    as many as the count, or one more (a matched pattern and a divergence
    share the third slot), and there is none exactly when the count is 0. *)
Theorem confluence_count_and_details (data : gmap string value) (trend : Trend)
    (c : Confluences) :
  check_confluences data trend = Done c ->
  0 <= confluence_count c <= 4
  /\ confluence_count c <= Z.of_nat (length (confluence_details c))
     <= confluence_count c + 1
  /\ (confluence_details c = [] <-> confluence_count c = 0).
Proof.
  intros H.
  pose proof (check_confluences_count data trend c H) as [Hrange Hempty].
  apply check_confluences_Done in H as (_ & _ & _ & _ & _ & Hlen).
  repeat split; try lia.
  - intros He. rewrite He in Hempty. simpl in Hempty.
    symmetry in Hempty. apply Z.eqb_eq in Hempty. exact Hempty.
  - intros Hz. rewrite Hz in Hempty. destruct (confluence_details c);
      [ reflexivity | discriminate ].
Qed.

(** X6 at the documented request. *)
Lemma confluence_count_and_details_eurusd :
  exists c, check_confluences eurusd bullish = Done c
    /\ 0 <= confluence_count c <= 4
    /\ confluence_count c <= Z.of_nat (length (confluence_details c))
       <= confluence_count c + 1
    /\ (confluence_details c = [] <-> confluence_count c = 0).
Proof.
  eexists. split.
  - vm_compute. reflexivity.
  - apply (confluence_count_and_details eurusd bullish). vm_compute. reflexivity.
Defined.

Lemma trend_score_values (trend : Trend) (rsi_daily : float) :
  (trend_score trend rsi_daily = 5 /\ fst (trend_confluence trend rsi_daily) = false)
  \/ trend_score trend rsi_daily = 10
  \/ trend_score trend rsi_daily = 15
  \/ trend_score trend rsi_daily = 20.
Proof.
  unfold trend_score, trend_confluence.
  destruct trend;
    repeat match goal with |- context [if ?b then _ else _] => destruct b eqn:? end;
    simpl; auto.
Qed.

Lemma candle_score_values (candle_met : bool) (candle_type : value) (points : Z) :
  candle_score candle_met candle_type = Done points ->
  (points = 8 /\ candle_met = false) \/ points = 12 \/ points = 20.
Proof.
  unfold candle_score. intros H. destruct candle_met.
  - destruct (truthy candle_type).
    + bind_inv H as label Hlabel.
      match type of H with Done (if ?b then _ else _) = _ => destruct b end;
        injection H as <-; auto.
    + injection H as <-. auto.
  - injection H as <-. auto.
Qed.

(** With three confluences or more the score is between 70.8 and 100. *)
Lemma confidence_bounds (data : gmap string value) (trend : Trend)
    (c : Confluences) (rsi_daily : float) (candle_type : value) (k : Confidence) :
  check_confluences data trend = Done c ->
  3 <= confluence_count c ->
  data !! "rsi_daily" = Some (VFloat rsi_daily) ->
  calculate_confidence trend c rsi_daily candle_type = Done k ->
  (70.8 <=? confidence_score k)%float = true
  /\ (confidence_score k <=? 100)%float = true
  /\ (confidence_score k <? 70)%float = false.
Proof.
  intros Hc Hcount Hdaily Hk.
  pose proof (check_confluences_count data trend c Hc) as [Hrange _].
  apply check_confluences_Done in Hc as (m1 & m3 & rsi' & Hdaily' & Hsum & _).
  assert (rsi' = rsi_daily) as -> by congruence.
  unfold calculate_confidence in Hk.
  bind_inv Hk as points Hpoints. injection Hk as <-. simpl.
  change (Float.round _ 1)
    with (total_confidence (confluence_count c) (trend_score trend rsi_daily) points).
  apply candle_score_values in Hpoints.
  pose proof (trend_score_values trend rsi_daily) as Htrend.
  assert (confluence_count c = 3 \/ confluence_count c = 4) as Hcases by lia.
  destruct Hcases as [H3 | H4];
    [ rewrite H3 in * | rewrite H4 in * ];
    destruct Hpoints as [[-> Hm2] | [-> | ->]];
    destruct Htrend as [[-> Hm4] | [-> | [-> | ->]]];
    try (vm_compute; repeat split; reflexivity);
    exfalso; try rewrite Hm2 in Hsum; try rewrite Hm4 in Hsum;
    destruct m1, m3, (candle_confluence_met c), (fst (trend_confluence trend rsi_daily));
    simpl in Hsum; lia.
Qed.

(** X7. The gate on the confidence never closes: no result has the reason
    confidence_too_low, because three confluences already score 70.8. *)
Theorem confidence_gate_never_closes (data : gmap string value) (r : TradeSignal) :
  evaluate_signal data = Done r -> reason r <> "confidence_too_low".
Proof.
  unfold evaluate_signal. intros H.
  bind_inv H as early Hearly. destruct early as [r0|].
  { injection H as <-.
    apply validate_data_Some in Hearly as (why & msg & -> & [-> | ->]);
      discriminate. }
  bind_inv H as close Hclose. bind_inv H as ema Hema. bind_inv H as c Hc.
  destruct (confluence_count c <? 3) eqn:Hcount.
  { injection H as <-. discriminate. }
  apply Z.ltb_ge in Hcount.
  bind_inv H as l Hl. bind_inv H as rsi_daily Hrsi. apply item_float_Done in Hrsi.
  bind_inv H as k Hk.
  destruct (confidence_bounds _ _ _ _ _ _ Hc Hcount Hrsi Hk) as (_ & _ & Hgate).
  rewrite Hgate in H.
  destruct (invalid_positioning _ l); injection H as <-; simpl.
  - discriminate.
  - discriminate.
Qed.

(** X7 at the documented request. *)
Lemma confidence_gate_never_closes_eurusd :
  exists r, evaluate_signal eurusd = Done r /\ reason r <> "confidence_too_low".
Proof.
  eexists. split.
  - vm_compute. reflexivity.
  - apply (confidence_gate_never_closes eurusd). vm_compute. reflexivity.
Defined.

(** X8. The confidence of a result is the int 0 when the evaluator stops at the
    validation or at the confluence gate, and a float between 70.8 and 100 in
    every other result. *)
Theorem confidence_range (data : gmap string value) (r : TradeSignal) :
  evaluate_signal data = Done r ->
  (confidence r = NInt 0
   /\ (reason r = "data_invalid" \/ reason r = "preconditions_not_met"
       \/ reason r = "not_enough_confluences"))
  \/ (exists x, confidence r = NFloat x
        /\ (70.8 <=? x)%float = true /\ (x <=? 100)%float = true
        /\ (reason r = "invalid_risk_parameters" \/ reason r = "all_conditions_met")).
Proof.
  unfold evaluate_signal. intros H.
  bind_inv H as early Hearly. destruct early as [r0|].
  { injection H as <-.
    apply validate_data_Some in Hearly as (why & msg & -> & [-> | ->]);
      left; simpl; auto. }
  bind_inv H as close Hclose. bind_inv H as ema Hema. bind_inv H as c Hc.
  destruct (confluence_count c <? 3) eqn:Hcount.
  { injection H as <-. left. simpl. auto. }
  apply Z.ltb_ge in Hcount.
  bind_inv H as l Hl. bind_inv H as rsi_daily Hrsi. apply item_float_Done in Hrsi.
  bind_inv H as k Hk.
  destruct (confidence_bounds _ _ _ _ _ _ Hc Hcount Hrsi Hk) as (Hlo & Hhi & Hgate).
  rewrite Hgate in H. right. exists (confidence_score k).
  destruct (invalid_positioning _ l); injection H as <-; simpl; auto.
Qed.

(** X8 at the documented request. *)
Lemma confidence_range_eurusd :
  exists r, evaluate_signal eurusd = Done r
    /\ ((confidence r = NInt 0
         /\ (reason r = "data_invalid" \/ reason r = "preconditions_not_met"
             \/ reason r = "not_enough_confluences"))
        \/ (exists x, confidence r = NFloat x
              /\ (70.8 <=? x)%float = true /\ (x <=? 100)%float = true
              /\ (reason r = "invalid_risk_parameters"
                  \/ reason r = "all_conditions_met"))).
Proof.
  eexists. split.
  - vm_compute. reflexivity.
  - apply (confidence_range eurusd). vm_compute. reflexivity.
Defined.

(** * Stop distance and reward ratio *)

Lemma shr_fexp_scaled_one (m : positive) (e : Z) :
  fexp prec emax (Zdigits2 (Zpos m) + e) = e ->
  shr_fexp prec emax (Zpos (4503599627370496 * m)) (-52 + e) loc_Exact
  = ({| shr_m := Zpos m; shr_r := false; shr_s := false |}, e).
Proof.
  intros Hc. unfold shr_fexp. rewrite digits_scaled.
  replace (fexp prec emax (Zdigits2 (Zpos m) + 52 + (-52 + e)) - (-52 + e)) with 52
    by (replace (Zdigits2 (Zpos m) + 52 + (-52 + e)) with (Zdigits2 (Zpos m) + e)
          by lia; rewrite Hc; lia).
  change (shr_record_of_loc (Zpos (4503599627370496 * m)) loc_Exact)
    with {| shr_m := Zpos (4503599627370496 * m); shr_r := false; shr_s := false |}.
  rewrite shr_52. f_equal. lia.
Qed.

Lemma SFmul_one (x : spec_float) :
  valid_binary x = true -> SFmul prec emax one_sf x = x.
Proof.
  destruct x as [s|s| |s m e]; try reflexivity.
  unfold SpecFloat.valid_binary, bounded, canonical_mantissa.
  intros H. apply andb_prop in H as [Hc Hb]. apply Z.eqb_eq in Hc.
  change (Zpos (digits2_pos m)) with (Zdigits2 (Zpos m)) in Hc.
  unfold SFmul, one_sf. change (xorb false s) with s.
  unfold binary_round_aux.
  rewrite shr_fexp_scaled_one by assumption.
  cbn [shr_m loc_of_shr_record shr_r shr_s round_nearest_even].
  rewrite shr_fexp_canonical by assumption.
  cbn [shr_m]. rewrite Hb. reflexivity.
Qed.

(** [1.0 * x] is [x], for every float. *)
Lemma mul_one (x : float) : (1 * x)%float = x.
Proof.
  apply Prim2SF_inj. rewrite FloatAxioms.mul_spec.
  change (Prim2SF 1) with one_sf. apply SFmul_one, Prim2SF_valid.
Qed.



Lemma SFmul_two_non_finite (x : spec_float) :
  x = S754_nan \/ (exists s, x = S754_infinity s) ->
  SFdiv prec emax (SFmul prec emax two_sf x) x = S754_nan.
Proof.
  intros [-> | [s ->]]; [ reflexivity | ]. destruct s; reflexivity.
Qed.

(** [(2.0 * d) / d] is 2.0, or infinite when the product overflows, or nan
    when [d] is not finite. *)
Lemma double_then_divide_values (d : float) :
  (d =? 0)%float = false ->
  (2 * d / d)%float = 2%float
  \/ (2 * d / d)%float = infinity
  \/ (2 * d / d)%float = nan.
Proof.
  intros Hnz.
  assert (Prim2SF (2 * d / d) = two_sf
          \/ Prim2SF (2 * d / d) = S754_infinity false
          \/ Prim2SF (2 * d / d) = S754_nan) as H.
  { rewrite FloatAxioms.div_spec, FloatAxioms.mul_spec.
    change (Prim2SF 2) with two_sf. unfold SF64mul, SF64div.
    pose proof (Prim2SF_valid d) as Hv.
    destruct (Prim2SF d) as [s|s| |s m e] eqn:Hd.
    - rewrite (eqb_zero_false d s Hd) in Hnz. discriminate.
    - right. right. destruct s; reflexivity.
    - right. right. reflexivity.
    - destruct (SFmul_two s m e Hv) as [H|[H|H]]; rewrite H.
      + left. apply (SFdiv_doubled s m m e (e + 1)). auto.
      + left. apply (SFdiv_doubled s m (m~0) e e). auto.
      + right. left. destruct s; reflexivity. }
  destruct H as [H | [H | H]]; [ left | right; left | right; right ];
    apply Prim2SF_inj; rewrite H; reflexivity.
Qed.

(** X10. The reward ratio of a signal is 2.0, or one of the two values a float
    quotient gives when the take-profit distance is not a finite number:
    infinity (the distance overflowed) or nan.  No other ratio is returned. *)
Theorem reward_ratio_values (data : gmap string value) (r : TradeSignal)
    (ratio : float) :
  evaluate_signal data = Done r -> rrr r = Some ratio ->
  ratio = 2%float \/ ratio = infinity \/ ratio = nan.
Proof.
  intros H Hr.
  apply evaluate_signal_Done in H as [(why & score & msg & -> & _) | Hacc].
  { discriminate Hr. }
  destruct Hacc as [close ema rsi c l k _ _ _ _ _ Hl _ _ _ ->].
  simpl in Hr. injection Hr as <-.
  apply calculate_levels_Done in Hl as (close' & d & _ & Hl).
  apply price_levels_Done in Hl as (Hnz & _ & -> & _).
  destruct (double_then_divide_values d Hnz) as [-> | [-> | ->]];
    [ left | right; left | right; right ]; vm_compute; reflexivity.
Qed.

(** X10 at the request with an atr of 1e308. *)
Lemma reward_ratio_values_huge_atr :
  exists r, evaluate_signal huge_atr = Done r
    /\ rrr r = Some infinity
    /\ (infinity = 2%float \/ infinity = infinity \/ infinity = nan).
Proof.
  eexists. split; [ vm_compute; reflexivity | ]. split; [ reflexivity | ].
  eapply (reward_ratio_values huge_atr); [ vm_compute; reflexivity | reflexivity ].
Defined.

(** * Exact values of floats

    The operations of the format against the numbers the floats denote:
    a sum, a difference and a decimal rounding are off by a few units of
    the last place, a comparison of finite floats is the comparison of
    their values. *)

Lemma bpow_pos (e : Z) : (0 < bpow e)%R.
Proof. apply powerRZ_lt. lra. Qed.

Lemma bpow_add (a b : Z) : bpow (a + b) = (bpow a * bpow b)%R.
Proof. apply powerRZ_add. lra. Qed.

Lemma bpow_IZR (n : Z) : 0 <= n -> bpow n = IZR (2 ^ n).
Proof.
  intros H. unfold bpow. rewrite <- (Z2Nat.id n H) at 1.
  rewrite <- pow_powerRZ. rewrite pow_IZR. rewrite Z2Nat.id by assumption. reflexivity.
Qed.

Lemma bpow_le (a b : Z) : a <= b -> (bpow a <= bpow b)%R.
Proof.
  intros H. replace b with (a + (b - a)) by lia. rewrite bpow_add.
  rewrite (bpow_IZR (b - a)) by lia.
  assert (1 <= 2 ^ (b - a)) by (apply Z.lt_pred_le, Z.pow_pos_nonneg; lia).
  apply IZR_le in H0. pose proof (bpow_pos a). nra.
Qed.

Lemma digits2_pos_bounds (p : positive) :
  2 ^ (Zpos (digits2_pos p) - 1) <= Zpos p < 2 ^ Zpos (digits2_pos p).
Proof.
  induction p as [p IH|p IH|]; simpl digits2_pos.
  - rewrite Pos2Z.inj_succ.
    replace (Z.succ (Zpos (digits2_pos p)) - 1) with (Z.succ (Zpos (digits2_pos p) - 1)) by lia.
    rewrite !Z.pow_succ_r by lia. lia.
  - rewrite Pos2Z.inj_succ.
    replace (Z.succ (Zpos (digits2_pos p)) - 1) with (Z.succ (Zpos (digits2_pos p) - 1)) by lia.
    rewrite !Z.pow_succ_r by lia. lia.
  - simpl. lia.
Qed.

Lemma Zdigits2_bounds (m : Z) : 0 < m -> 2 ^ (Zdigits2 m - 1) <= m < 2 ^ Zdigits2 m.
Proof. destruct m as [|p|p]; try lia. intros _. apply digits2_pos_bounds. Qed.

Lemma Zdigits2_pos (m : Z) : 0 < m -> 0 < Zdigits2 m.
Proof. destruct m; simpl; lia. Qed.

Lemma Zdigits2_unique (m k : Z) : 2 ^ (k - 1) <= m < 2 ^ k -> 0 < m -> Zdigits2 m = k.
Proof.
  intros [Hlo Hhi] Hm. pose proof (Zdigits2_bounds m Hm) as [Hl Hh].
  pose proof (Zdigits2_pos m Hm).
  assert (0 < k).
  { destruct (Z.lt_trichotomy k 0) as [H0|[H0|H0]]; try lia.
    - rewrite Z.pow_neg_r in Hhi by lia. lia.
    - subst k. simpl in Hhi. lia. }
  destruct (Z.lt_trichotomy (Zdigits2 m) k) as [Hc|[Hc|Hc]]; [ | assumption | ].
  - assert (2 ^ Zdigits2 m <= 2 ^ (k - 1)) by (apply Z.pow_le_mono_r; lia). lia.
  - assert (2 ^ k <= 2 ^ (Zdigits2 m - 1)) by (apply Z.pow_le_mono_r; lia). lia.
Qed.

Lemma Zdigits2_le (a b : Z) : 0 < a -> a <= b -> Zdigits2 a <= Zdigits2 b.
Proof.
  intros Ha Hab. pose proof (Zdigits2_bounds a Ha) as [Hl _].
  pose proof (Zdigits2_bounds b ltac:(lia)) as [_ Hh].
  destruct (Z_le_gt_dec (Zdigits2 a) (Zdigits2 b)) as [|Hgt]; [ assumption | ].
  assert (2 ^ Zdigits2 b <= 2 ^ (Zdigits2 a - 1)).
  { apply Z.pow_le_mono_r; [ lia | ]. lia. }
  lia.
Qed.

(** digits below a power of two *)
Lemma Zdigits2_lt_pow (m k : Z) : 0 < m -> m < 2 ^ k -> Zdigits2 m <= k.
Proof.
  intros Hm Hk. pose proof (Zdigits2_bounds m Hm) as [Hl _].
  destruct (Z_le_gt_dec (Zdigits2 m) k) as [|Hgt]; [ assumption | ].
  assert (0 <= k).
  { destruct (Z_le_gt_dec 0 k); [ assumption | ]. rewrite Z.pow_neg_r in Hk by lia. lia. }
  assert (2 ^ k <= 2 ^ (Zdigits2 m - 1)) by (apply Z.pow_le_mono_r; lia). lia.
Qed.

Lemma shr_1_m (r : shr_record) : 0 <= shr_m r -> shr_m (shr_1 r) = shr_m r / 2.
Proof.
  destruct r as [m rb sb]. cbn [shr_m]. intros Hm.
  destruct m as [|[p|p|]|p]; cbn [shr_1 shr_m]; try lia; try reflexivity.
  - apply Z.div_unique with (r := 1); lia.
  - apply Z.div_unique with (r := 0); lia.
Qed.

Lemma iter_pos_shr_m (p : positive) (r : shr_record) :
  0 <= shr_m r -> shr_m (SpecFloat.iter_pos shr_1 p r) = shr_m r / 2 ^ Zpos p.
Proof.
  revert r. induction p as [p IH|p IH|]; intros r Hr; simpl SpecFloat.iter_pos.
  - assert (0 <= shr_m (shr_1 r)) as H1.
    { rewrite shr_1_m by assumption. apply Z.div_pos; lia. }
    assert (0 <= shr_m (SpecFloat.iter_pos shr_1 p (shr_1 r))) as H2.
    { rewrite IH by assumption. apply Z.div_pos; lia. }
    rewrite IH, IH, shr_1_m by assumption.
    rewrite !Z.div_div by lia. f_equal.
    replace (Zpos p~1) with (1 + Zpos p + Zpos p) by lia.
    rewrite !Z.pow_add_r by lia. change (2 ^ 1) with 2. ring.
  - assert (0 <= shr_m (SpecFloat.iter_pos shr_1 p r)) as H2.
    { rewrite IH by assumption. apply Z.div_pos; lia. }
    rewrite IH, IH by assumption.
    rewrite !Z.div_div by lia. f_equal.
    replace (Zpos p~0) with (Zpos p + Zpos p) by lia.
    rewrite !Z.pow_add_r by lia. ring.
  - rewrite shr_1_m by assumption. reflexivity.
Qed.

Lemma shr_fexp_stage (m e : Z) (l : location) :
  0 < m -> e <= fexp prec emax (Zdigits2 m + e) ->
  exists mrs, shr_fexp prec emax m e l = (mrs, fexp prec emax (Zdigits2 m + e))
    /\ shr_m mrs = m / 2 ^ (fexp prec emax (Zdigits2 m + e) - e).
Proof.
  intros Hm He. unfold shr_fexp, shr.
  assert (shr_m (shr_record_of_loc m l) = m) as Hrec by (destruct l as [|[]]; reflexivity).
  destruct (fexp prec emax (Zdigits2 m + e) - e) as [|p|p] eqn:Hn.
  - eexists. split; [ f_equal; lia | ]. rewrite Hrec, Z.div_1_r. reflexivity.
  - eexists. split; [ f_equal; lia | ]. rewrite iter_pos_shr_m by lia. rewrite Hrec. reflexivity.
  - lia.
Qed.

Lemma F2R_shift (m e n : Z) : 0 <= n -> F2R (m * 2 ^ n) e = F2R m (e + n).
Proof.
  intros Hn. unfold F2R. rewrite mult_IZR, bpow_add, <- bpow_IZR by assumption. ring.
Qed.

Lemma F2R_le (a b e : Z) : a <= b -> (F2R a e <= F2R b e)%R.
Proof. intros H. unfold F2R. apply IZR_le in H. pose proof (bpow_pos e). nra. Qed.

Lemma F2R_lt (a b e : Z) : a < b -> (F2R a e < F2R b e)%R.
Proof. intros H. unfold F2R. apply IZR_lt in H. pose proof (bpow_pos e). nra. Qed.

Lemma F2R_zero (e : Z) : F2R 0 e = 0%R.
Proof. unfold F2R. apply Rmult_0_l. Qed.

Lemma F2R_succ (m e : Z) : F2R (m + 1) e = (F2R m e + bpow e)%R.
Proof. unfold F2R. rewrite plus_IZR. ring. Qed.

(** The truncation of a mantissa by [n] bits. *)
Lemma truncation (m e n : Z) :
  0 < m -> 0 <= n ->
  0 <= m / 2 ^ n
  /\ (F2R (m / 2 ^ n) (e + n) <= F2R m e < F2R (m / 2 ^ n) (e + n) + bpow (e + n))%R
  /\ (0 < m / 2 ^ n -> Zdigits2 (m / 2 ^ n) = Zdigits2 m - n)
  /\ (m / 2 ^ n = 0 -> Zdigits2 m <= n).
Proof.
  intros Hm Hn. set (m' := m / 2 ^ n).
  assert (0 < 2 ^ n) as Hp by (apply Z.pow_pos_nonneg; lia).
  pose proof (Z.mul_div_le m (2 ^ n) Hp) as Hlo.
  pose proof (Z.mul_succ_div_gt m (2 ^ n) Hp) as Hhi.
  fold m' in Hlo, Hhi.
  assert (0 <= m') as Hm' by (apply Z.div_pos; lia).
  split; [ assumption | ].
  split; [ | split ].
  - rewrite <- F2R_succ, <- !F2R_shift by lia. split.
    + apply F2R_le. lia.
    + apply F2R_lt. lia.
  - intros Hpos. pose proof (Zdigits2_bounds m Hm) as [Hl Hh].
    apply Zdigits2_unique; [ | assumption ].
    assert (n < Zdigits2 m) as Hnd.
    { destruct (Z_lt_ge_dec n (Zdigits2 m)) as [|Hge]; [ assumption | ].
      assert (2 ^ Zdigits2 m <= 2 ^ n) by (apply Z.pow_le_mono_r; lia).
      assert (m' = 0) by (apply Z.div_small; lia). lia. }
    replace (Zdigits2 m - 1) with (Zdigits2 m - n - 1 + n) in Hl by lia.
    replace (Zdigits2 m) with (Zdigits2 m - n + n) in Hh by lia.
    rewrite Z.pow_add_r in Hl, Hh by lia.
    split.
    + destruct (Z_le_gt_dec (2 ^ (Zdigits2 m - n - 1)) m') as [|Hgt]; [ assumption | ].
      assert (m' + 1 <= 2 ^ (Zdigits2 m - n - 1)) by lia. nia.
    + destruct (Z_lt_ge_dec m' (2 ^ (Zdigits2 m - n))) as [|Hge]; [ assumption | ]. nia.
  - intros H0. rewrite H0 in Hhi.
    apply Zdigits2_lt_pow; lia.
Qed.

Lemma fexp_mono (a b : Z) : a <= b -> fexp prec emax a <= fexp prec emax b.
Proof. unfold fexp, emin, prec, emax. lia. Qed.

Lemma fexp_ge_emin (a : Z) : emin <= fexp prec emax a.
Proof. unfold fexp, emin, prec, emax. lia. Qed.

Lemma round_nearest_even_bounds (m : Z) (l : location) :
  m <= round_nearest_even m l <= m + 1.
Proof.
  unfold round_nearest_even. destruct l as [|[]]; try lia.
  destruct (Z.even m); lia.
Qed.

Lemma digits_of_bound (m e K : Z) : 0 < m -> (F2R m e < bpow K)%R -> Zdigits2 m + e <= K.
Proof.
  intros Hm Hlt. pose proof (Zdigits2_bounds m Hm) as [Hl _].
  pose proof (Zdigits2_pos m Hm) as Hd.
  destruct (Z_le_gt_dec (Zdigits2 m + e) K) as [|Hgt]; [ assumption | exfalso ].
  assert (bpow K <= bpow (Zdigits2 m - 1 + e))%R as H1 by (apply bpow_le; lia).
  rewrite bpow_add, (bpow_IZR (Zdigits2 m - 1)) in H1 by lia.
  assert (F2R (2 ^ (Zdigits2 m - 1)) e <= F2R m e)%R as H2 by (apply F2R_le; lia).
  unfold F2R in H2 at 1. lra.
Qed.

Lemma shr_fexp_zero (e : Z) (l : location) :
  shr_m (fst (shr_fexp prec emax 0 e l)) = 0.
Proof.
  unfold shr_fexp, shr.
  assert (shr_m (shr_record_of_loc 0 l) = 0) as Hrec by (destruct l as [|[]]; reflexivity).
  destruct (fexp prec emax (Zdigits2 0 + e) - e) as [|p|p]; cbn [fst]; try assumption.
  rewrite iter_pos_shr_m by lia. rewrite Hrec. reflexivity.
Qed.

Lemma SF2R_finite (s : bool) (m : positive) (e : Z) :
  SF2R (S754_finite s m e) = signed s (F2R (Zpos m) e).
Proof. unfold SF2R, signed, F2R. destruct s; simpl cond_Zopp; [ | reflexivity ].
  change (Z.neg m) with (- Zpos m). rewrite opp_IZR. ring. Qed.

(** Rounding a truncated mantissa to the format: the result is a float of
    the format, at most three units of the last place from the input. *)
Lemma binary_round_aux_spec (s : bool) (mx ex : Z) (lx : location) (K : Z) :
  0 < mx -> ex <= fexp prec emax (Zdigits2 mx + ex) ->
  (F2R mx ex < bpow K)%R -> emin <= K <= 1023 ->
  exists v : R,
    valid_binary (binary_round_aux prec emax s mx ex lx) = true
    /\ SF2R (binary_round_aux prec emax s mx ex lx) = signed s v
    /\ (binary_round_aux prec emax s mx ex lx = S754_zero s
        \/ exists m e, binary_round_aux prec emax s mx ex lx = S754_finite s m e)
    /\ (- (3 * bpow (fexp prec emax K)) <= v - F2R mx ex <= 3 * bpow (fexp prec emax K))%R
    /\ ex <= fexp prec emax K.
Proof.
  intros Hm He HK HKr.
  pose proof (digits_of_bound mx ex K Hm HK) as HD.
  pose proof (fexp_mono _ _ HD) as He1K.
  unfold binary_round_aux.
  destruct (shr_fexp_stage mx ex lx Hm He) as (mrs1 & -> & Hm1).
  set (e1 := fexp prec emax (Zdigits2 mx + ex)) in *.
  destruct (truncation mx ex (e1 - ex) Hm ltac:(lia)) as (Hm1pos & Hv1 & Hd1 & Hz1).
  rewrite <- Hm1 in Hm1pos, Hv1, Hd1, Hz1.
  replace (ex + (e1 - ex)) with e1 in Hv1 by lia.
  pose proof (round_nearest_even_bounds (shr_m mrs1) (loc_of_shr_record mrs1)) as Hr.
  set (mr := round_nearest_even (shr_m mrs1) (loc_of_shr_record mrs1)) in *.
  assert (- bpow e1 <= F2R mr e1 - F2R mx ex <= bpow e1)%R as Herr1.
  { assert (F2R (shr_m mrs1) e1 <= F2R mr e1 <= F2R (shr_m mrs1 + 1) e1)%R as Hb
      by (split; apply F2R_le; lia).
    rewrite F2R_succ in Hb. lra. }
  assert (bpow e1 <= bpow (fexp prec emax K))%R as Hbe1 by (apply bpow_le; assumption).
  assert (fexp prec emax K <= K) as HfK by (unfold fexp, emin, prec, emax in *; lia).
  pose proof (bpow_pos (fexp prec emax K)) as HposU.
  destruct (Z.eq_dec mr 0) as [Hmr0|Hmr0].
  - (* everything is shifted out *)
    rewrite Hmr0.
    destruct (shr_fexp prec emax 0 e1 loc_Exact) as [mrs2 e2] eqn:H2.
    pose proof (shr_fexp_zero e1 loc_Exact) as Hz. rewrite H2 in Hz. cbn [fst] in Hz.
    rewrite Hz. exists 0%R. split; [ reflexivity | ].
    split; [ destruct s; simpl; unfold signed; lra | ].
    split; [ left; reflexivity | ].
    split; [ | lia ].
    rewrite Hmr0, F2R_zero in Herr1. lra.
  - assert (0 < mr) as Hmrpos by lia.
    assert (e1 <= fexp prec emax (Zdigits2 mr + e1)) as He2.
    { destruct (Z.eq_dec (shr_m mrs1) 0) as [H0|H0].
      - specialize (Hz1 H0).
        assert (e1 = emin) as -> by (unfold e1, fexp, emin, prec, emax in *; lia).
        apply fexp_ge_emin.
      - assert (0 < shr_m mrs1) as Hp by lia. specialize (Hd1 Hp).
        pose proof (Zdigits2_le (shr_m mrs1) mr Hp ltac:(lia)) as Hle.
        replace e1 with (fexp prec emax (Zdigits2 (shr_m mrs1) + e1)) at 1.
        + apply fexp_mono. lia.
        + rewrite Hd1. unfold e1. f_equal. lia. }
    destruct (shr_fexp_stage mr e1 loc_Exact Hmrpos He2) as (mrs2 & -> & Hm2).
    set (e2 := fexp prec emax (Zdigits2 mr + e1)) in *.
    destruct (truncation mr e1 (e2 - e1) Hmrpos ltac:(lia)) as (Hm2pos & Hv2 & Hd2 & Hz2).
    rewrite <- Hm2 in Hm2pos, Hv2, Hd2, Hz2.
    replace (e1 + (e2 - e1)) with e2 in Hv2 by lia.
    assert (F2R mr e1 < bpow (K + 1))%R as HK1.
    { assert (bpow (fexp prec emax K) <= bpow K)%R by (apply bpow_le; assumption).
      replace (bpow (K + 1)) with (2 * bpow K)%R; [ lra | ].
      rewrite bpow_add. unfold bpow at 3. simpl. lra. }
    pose proof (digits_of_bound mr e1 (K + 1) Hmrpos HK1) as HD2.
    pose proof (fexp_mono _ _ HD2) as He2K. fold e2 in He2K.
    assert (fexp prec emax (K + 1) <= fexp prec emax K + 1) as Hstep
      by (unfold fexp, emin, prec, emax; lia).
    assert (bpow e2 <= 2 * bpow (fexp prec emax K))%R as Hbe2.
    { replace (2 * bpow (fexp prec emax K))%R with (bpow (fexp prec emax K + 1)).
      - apply bpow_le. lia.
      - rewrite bpow_add. unfold bpow at 2. simpl. lra. }
    assert (- (3 * bpow (fexp prec emax K)) <= F2R (shr_m mrs2) e2 - F2R mx ex
            <= 3 * bpow (fexp prec emax K))%R as Herr by lra.
    destruct (shr_m mrs2) as [|m2|m2] eqn:Hm2e.
    + exists 0%R. split; [ reflexivity | ].
      split; [ destruct s; simpl; unfold signed; lra | ].
      split; [ left; reflexivity | ].
      split; [ | lia ].
      rewrite F2R_zero in Herr. assumption.
    + assert (e2 <= emax - prec) as Hbound by (unfold fexp, emin, prec, emax in *; lia).
      apply Z.leb_le in Hbound. rewrite Hbound.
      exists (F2R (Zpos m2) e2). split.
      { unfold SpecFloat.valid_binary, SpecFloat.bounded, canonical_mantissa.
        rewrite Hbound, andb_true_r. apply Z.eqb_eq.
        change (Zpos (digits2_pos m2)) with (Zdigits2 (Zpos m2)).
        rewrite Hd2 by lia. unfold e2. f_equal. lia. }
      split; [ apply SF2R_finite | ].
      split; [ right; eauto | ].
      split; [ assumption | lia ].
    + lia.
Qed.

Lemma iter_xO (d mx : positive) : Zpos (PosDef.Pos.iter xO mx d) = Zpos mx * 2 ^ Zpos d.
Proof.
  change (PosDef.Pos.iter xO mx d) with (Pos.iter xO mx d).
  induction d as [|d IH] using Pos.peano_ind.
  - simpl. lia.
  - rewrite Pos.iter_succ, Pos2Z.inj_xO, IH, Pos2Z.inj_succ, Z.pow_succ_r by lia. ring.
Qed.

Lemma Zdigits2_shift (m n : Z) : 0 < m -> 0 <= n -> Zdigits2 (m * 2 ^ n) = Zdigits2 m + n.
Proof.
  intros Hm Hn. pose proof (Zdigits2_bounds m Hm) as [Hl Hh].
  assert (0 < 2 ^ n) by (apply Z.pow_pos_nonneg; lia).
  pose proof (Zdigits2_pos m Hm).
  apply Zdigits2_unique; [ | nia ].
  replace (Zdigits2 m + n - 1) with (Zdigits2 m - 1 + n) by lia.
  rewrite !Z.pow_add_r by lia. nia.
Qed.

Lemma shl_align_spec (mx : positive) (ex ex' : Z) :
  exists n, 0 <= n
    /\ shl_align mx ex ex' = (Z.to_pos (Zpos mx * 2 ^ n), ex - n)
    /\ ex - n <= ex' /\ (n = 0 \/ ex - n = ex').
Proof.
  unfold shl_align. destruct (ex' - ex) as [|d|d] eqn:Hd.
  - exists 0. rewrite Z.mul_1_r, Z.sub_0_r. simpl. split; [ lia | ]. split; [ reflexivity | lia ].
  - exists 0. rewrite Z.mul_1_r, Z.sub_0_r. simpl. split; [ lia | ]. split; [ reflexivity | lia ].
  - exists (Zpos d). split; [ lia | ]. split; [ | lia ].
    f_equal; [ | lia ]. rewrite <- iter_xO. reflexivity.
Qed.

(** Rounding an integer multiple of a power of two to the format. *)
Lemma binary_round_spec (s : bool) (mx : positive) (ex K : Z) :
  (F2R (Zpos mx) ex < bpow K)%R -> emin <= K <= 1023 ->
  exists v : R,
    valid_binary (binary_round prec emax s mx ex) = true
    /\ SF2R (binary_round prec emax s mx ex) = signed s v
    /\ (binary_round prec emax s mx ex = S754_zero s
        \/ exists m e, binary_round prec emax s mx ex = S754_finite s m e)
    /\ (- (3 * bpow (fexp prec emax K)) <= v - F2R (Zpos mx) ex
        <= 3 * bpow (fexp prec emax K))%R.
Proof.
  intros HK HKr. unfold binary_round.
  destruct (shl_align_spec mx ex (fexp prec emax (Zpos (digits2_pos mx) + ex)))
    as (n & Hn & -> & Hle & Hcase).
  assert (0 < 2 ^ n) by (apply Z.pow_pos_nonneg; lia).
  rewrite Z2Pos.id by nia.
  assert (F2R (Zpos mx * 2 ^ n) (ex - n) = F2R (Zpos mx) ex) as Hsame.
  { rewrite F2R_shift by assumption. f_equal. lia. }
  assert (Zdigits2 (Zpos mx * 2 ^ n) + (ex - n) = Zpos (digits2_pos mx) + ex) as Hdig.
  { rewrite Zdigits2_shift by lia. simpl Zdigits2. lia. }
  destruct (binary_round_aux_spec s (Zpos mx * 2 ^ n) (ex - n) loc_Exact K)
    as (v & Hv & Hs & Hk & Herr & _).
  - nia.
  - rewrite Hdig. assumption.
  - rewrite Hsame. assumption.
  - assumption.
  - exists v. rewrite Hsame in Herr. auto.
Qed.

Lemma F2R_opp (m e : Z) : F2R (- m) e = (- F2R m e)%R.
Proof. unfold F2R. rewrite opp_IZR. ring. Qed.

(** Rounding any integer multiple of a power of two. *)
Lemma binary_normalize_spec (m e K : Z) (szero : bool) :
  (- bpow K < F2R m e < bpow K)%R -> emin <= K <= 1023 ->
  valid_binary (binary_normalize prec emax m e szero) = true
  /\ (exists s, binary_normalize prec emax m e szero = S754_zero s
      \/ exists m' e', binary_normalize prec emax m e szero = S754_finite s m' e')
  /\ (- (3 * bpow (fexp prec emax K))
      <= SF2R (binary_normalize prec emax m e szero) - F2R m e
      <= 3 * bpow (fexp prec emax K))%R.
Proof.
  intros HK HKr. pose proof (bpow_pos (fexp prec emax K)).
  destruct m as [|p|p]; unfold binary_normalize.
  - split; [ reflexivity | ]. split; [ exists szero; auto | ].
    rewrite F2R_zero. simpl. lra.
  - destruct (binary_round_spec false p e K) as (v & Hv & Hs & Hk & Herr);
      [ lra | assumption | ].
    split; [ assumption | ]. split; [ exists false; assumption | ].
    rewrite Hs. unfold signed. assumption.
  - change (Z.neg p) with (- Zpos p) in *. rewrite F2R_opp in *.
    destruct (binary_round_spec true p e K) as (v & Hv & Hs & Hk & Herr);
      [ lra | assumption | ].
    split; [ assumption | ]. split; [ exists true; assumption | ].
    rewrite Hs. unfold signed. lra.
Qed.

Lemma aligned (mx : positive) (ex ez : Z) :
  ez <= ex -> F2R (Zpos (fst (shl_align mx ex ez))) ez = F2R (Zpos mx) ex.
Proof.
  intros Hle. destruct (shl_align_spec mx ex ez) as (n & Hn & -> & Hle' & Hcase).
  cbn [fst]. assert (0 < 2 ^ n) by (apply Z.pow_pos_nonneg; lia).
  rewrite Z2Pos.id by nia. rewrite F2R_shift by assumption. f_equal. lia.
Qed.

Lemma F2R_cond_Zopp (s : bool) (m e : Z) : F2R (cond_Zopp s m) e = signed s (F2R m e).
Proof. destruct s; simpl; [ apply F2R_opp | reflexivity ]. Qed.

Lemma F2R_plus (a b e : Z) : F2R (a + b) e = (F2R a e + F2R b e)%R.
Proof. unfold F2R. rewrite plus_IZR. ring. Qed.

Lemma F2R_minus (a b e : Z) : F2R (a - b) e = (F2R a e - F2R b e)%R.
Proof. unfold F2R. rewrite minus_IZR. ring. Qed.

Lemma SFsub_spec (x y : spec_float) (K : Z) :
  valid_binary x = true -> valid_binary y = true ->
  finite_sf x = true -> finite_sf y = true ->
  (- bpow K < SF2R x - SF2R y < bpow K)%R -> emin <= K <= 1023 ->
  valid_binary (SFsub prec emax x y) = true
  /\ finite_sf (SFsub prec emax x y) = true
  /\ (- (3 * bpow (fexp prec emax K))
      <= SF2R (SFsub prec emax x y) - (SF2R x - SF2R y)
      <= 3 * bpow (fexp prec emax K))%R.
Proof.
  intros Hvx Hvy Hfx Hfy HK HKr. pose proof (bpow_pos (fexp prec emax K)) as Hpos.
  destruct x as [sx|sx| |sx mx ex]; try discriminate;
    destruct y as [sy|sy| |sy my ey]; try discriminate.
  - split; [ destruct sx, sy; reflexivity | ].
    split; [ destruct sx, sy; reflexivity | ].
    replace (SF2R (SFsub prec emax (S754_zero sx) (S754_zero sy))) with 0%R
      by (destruct sx, sy; reflexivity).
    simpl. lra.
  - cbn [SFsub]. split; [ exact Hvy | ]. split; [ reflexivity | ].
    rewrite !SF2R_finite. cbn [SF2R]. destruct sy; unfold signed; simpl; lra.
  - cbn [SFsub]. split; [ exact Hvx | ]. split; [ reflexivity | ].
    cbn [SF2R]. lra.
  - cbn [SFsub]. rewrite !SF2R_finite in *.
    set (ez := Z.min ex ey).
    set (M := cond_Zopp sx (Zpos (fst (shl_align mx ex ez)))
              - cond_Zopp sy (Zpos (fst (shl_align my ey ez)))).
    assert (F2R M ez = signed sx (F2R (Zpos mx) ex) - signed sy (F2R (Zpos my) ey))%R as HM.
    { unfold M. rewrite F2R_minus, !F2R_cond_Zopp, !aligned by (unfold ez; lia). reflexivity. }
    destruct (binary_normalize_spec M ez K false) as (Hv & (s & Hk) & Herr);
      [ rewrite HM; assumption | assumption | ].
    split; [ assumption | ].
    split; [ destruct Hk as [-> | (m' & e' & ->)]; reflexivity | ].
    rewrite HM in Herr. assumption.
Qed.

Lemma SFadd_spec (x y : spec_float) (K : Z) :
  valid_binary x = true -> valid_binary y = true ->
  finite_sf x = true -> finite_sf y = true ->
  (- bpow K < SF2R x + SF2R y < bpow K)%R -> emin <= K <= 1023 ->
  valid_binary (SFadd prec emax x y) = true
  /\ finite_sf (SFadd prec emax x y) = true
  /\ (- (3 * bpow (fexp prec emax K))
      <= SF2R (SFadd prec emax x y) - (SF2R x + SF2R y)
      <= 3 * bpow (fexp prec emax K))%R.
Proof.
  intros Hvx Hvy Hfx Hfy HK HKr. pose proof (bpow_pos (fexp prec emax K)) as Hpos.
  destruct x as [sx|sx| |sx mx ex]; try discriminate;
    destruct y as [sy|sy| |sy my ey]; try discriminate.
  - split; [ destruct sx, sy; reflexivity | ].
    split; [ destruct sx, sy; reflexivity | ].
    replace (SF2R (SFadd prec emax (S754_zero sx) (S754_zero sy))) with 0%R
      by (destruct sx, sy; reflexivity).
    simpl. lra.
  - cbn [SFadd]. split; [ exact Hvy | ]. split; [ reflexivity | ].
    cbn [SF2R]. lra.
  - cbn [SFadd]. split; [ exact Hvx | ]. split; [ reflexivity | ].
    cbn [SF2R]. lra.
  - cbn [SFadd]. rewrite !SF2R_finite in *.
    set (ez := Z.min ex ey).
    set (M := cond_Zopp sx (Zpos (fst (shl_align mx ex ez)))
              + cond_Zopp sy (Zpos (fst (shl_align my ey ez)))).
    assert (F2R M ez = signed sx (F2R (Zpos mx) ex) + signed sy (F2R (Zpos my) ey))%R as HM.
    { unfold M. rewrite F2R_plus, !F2R_cond_Zopp, !aligned by (unfold ez; lia). reflexivity. }
    destruct (binary_normalize_spec M ez K false) as (Hv & (s & Hk) & Herr);
      [ rewrite HM; assumption | assumption | ].
    split; [ assumption | ].
    split; [ destruct Hk as [-> | (m' & e' & ->)]; reflexivity | ].
    rewrite HM in Herr. assumption.
Qed.

Lemma valid_finite (s : bool) (m : positive) (e : Z) :
  valid_binary (S754_finite s m e) = true ->
  fexp prec emax (Zdigits2 (Zpos m) + e) = e /\ e <= emax - prec.
Proof.
  unfold SpecFloat.valid_binary, SpecFloat.bounded, canonical_mantissa.
  intros H. apply andb_prop in H as [Hc Hb].
  apply Z.eqb_eq in Hc. apply Z.leb_le in Hb. auto.
Qed.

Lemma F2R_pos (m : positive) (e : Z) : (0 < F2R (Zpos m) e)%R.
Proof.
  unfold F2R. pose proof (bpow_pos e). assert (0 < IZR (Zpos m))%R by (apply IZR_lt; lia). nra.
Qed.

Lemma canonical_lt (m1 m2 : positive) (e1 e2 : Z) :
  fexp prec emax (Zdigits2 (Zpos m1) + e1) = e1 ->
  fexp prec emax (Zdigits2 (Zpos m2) + e2) = e2 ->
  e1 < e2 -> (F2R (Zpos m1) e1 < F2R (Zpos m2) e2)%R.
Proof.
  intros H1 H2 Hlt.
  assert (Zdigits2 (Zpos m1) <= 53) as Hd1 by (unfold fexp, emin, prec, emax in H1; lia).
  assert (Zdigits2 (Zpos m2) = 53) as Hd2 by (unfold fexp, emin, prec, emax in H1, H2; lia).
  pose proof (Zdigits2_bounds (Zpos m1) ltac:(lia)) as [_ Hh].
  pose proof (Zdigits2_bounds (Zpos m2) ltac:(lia)) as [Hl _].
  rewrite Hd2 in Hl.
  assert (2 ^ Zdigits2 (Zpos m1) <= 2 ^ 53) by (apply Z.pow_le_mono_r; lia).
  assert (F2R (Zpos m1) e1 < F2R (2 ^ 53) e1)%R by (apply F2R_lt; lia).
  assert (F2R (2 ^ (53 - 1)) e2 <= F2R (Zpos m2) e2)%R by (apply F2R_le; assumption).
  assert (F2R (2 ^ 53) e1 <= F2R (2 ^ (53 - 1)) e2)%R.
  { unfold F2R. rewrite <- !bpow_IZR, <- !bpow_add by lia. apply bpow_le. lia. }
  lra.
Qed.

Lemma magnitude_compare (m1 m2 : positive) (e1 e2 : Z) :
  fexp prec emax (Zdigits2 (Zpos m1) + e1) = e1 ->
  fexp prec emax (Zdigits2 (Zpos m2) + e2) = e2 ->
  compare_spec_R
    (Some match e1 ?= e2 with
          | Eq => PosDef.Pos.compare_cont Eq m1 m2
          | Lt => Lt
          | Gt => Gt
          end) (F2R (Zpos m1) e1) (F2R (Zpos m2) e2).
Proof.
  intros H1 H2. destruct (Z.compare_spec e1 e2) as [->|Hlt|Hgt].
  - change (PosDef.Pos.compare_cont Eq m1 m2) with (Pos.compare m1 m2).
    destruct (Pos.compare_spec m1 m2) as [->|Hlt|Hgt]; simpl.
    + reflexivity.
    + apply F2R_lt. lia.
    + apply F2R_lt. lia.
  - simpl. apply canonical_lt; assumption.
  - simpl. apply canonical_lt; assumption.
Qed.

(** The comparison of two finite floats is the comparison of their values. *)
Lemma SFcompare_spec (x y : spec_float) :
  valid_binary x = true -> valid_binary y = true ->
  finite_sf x = true -> finite_sf y = true ->
  compare_spec_R (SFcompare x y) (SF2R x) (SF2R y).
Proof.
  intros Hvx Hvy Hfx Hfy.
  destruct x as [sx|sx| |sx mx ex]; try discriminate;
    destruct y as [sy|sy| |sy my ey]; try discriminate.
  - reflexivity.
  - cbn [SFcompare]. rewrite SF2R_finite. pose proof (F2R_pos my ey).
    destruct sy; simpl; unfold signed; lra.
  - cbn [SFcompare]. rewrite SF2R_finite. pose proof (F2R_pos mx ex).
    destruct sx; simpl; unfold signed; lra.
  - apply valid_finite in Hvx as [Hcx _]. apply valid_finite in Hvy as [Hcy _].
    pose proof (magnitude_compare mx my ex ey Hcx Hcy) as Hm.
    pose proof (F2R_pos mx ex). pose proof (F2R_pos my ey).
    cbn [SFcompare]. rewrite !SF2R_finite.
    destruct sx, sy; unfold signed.
    + destruct (ex ?= ey); [ destruct (PosDef.Pos.compare_cont Eq mx my) | | ];
        simpl in *; lra.
    + simpl. lra.
    + simpl. lra.
    + exact Hm.
Qed.

(** The quotient of a positive integer by 10^5, as the division of the
    format computes it: a truncated mantissa with enough digits. *)
Lemma SFdiv_core_binary_1e5 (k : Z) :
  0 < k ->
  exists q e l,
    SFdiv_core_binary prec emax k 0 100000 0 = (q, e, l)
    /\ 0 < q
    /\ e <= fexp prec emax (Zdigits2 q + e)
    /\ (F2R q e <= IZR k / 100000 < F2R q e + bpow e)%R.
Proof.
  intros Hk. unfold SFdiv_core_binary.
  change (Zdigits2 100000) with 17.
  set (d1 := Zdigits2 k).
  pose proof (Zdigits2_pos k Hk) as Hd1. fold d1 in Hd1.
  pose proof (Zdigits2_bounds k Hk) as [Hl Hh]. fold d1 in Hl, Hh.
  set (e' := Z.min (fexp prec emax (d1 + 0 - (17 + 0))) (0 - 0)).
  assert (e' <= 0 /\ e' <= fexp prec emax (d1 - 17) /\ 0 <= d1 + (- e') - 18 ) as (He0 & Hef & Hs).
  { unfold e', fexp, emin, prec, emax. lia. }
  set (m' := match 0 - 0 - e' with
             | 0 => k
             | Zpos _ => IntDef.Z.shiftl k (0 - 0 - e')
             | Zneg _ => 0
             end).
  assert (m' = k * 2 ^ (- e')) as Hm'.
  { unfold m'. replace (0 - 0 - e') with (- e') by lia.
    destruct (- e') as [|p|p] eqn:Hp; [ simpl; lia | | lia ].
    change (IntDef.Z.shiftl k (Zpos p)) with (Z.shiftl k (Zpos p)).
    rewrite Z.shiftl_mul_pow2 by lia. reflexivity. }
  clearbody m'.
  pose proof (Z.div_eucl_eq m' 100000 ltac:(lia)) as Heq.
  pose proof (Z.mod_pos_bound m' 100000 ltac:(lia)) as Hb.
  unfold Z.modulo in Hb.
  change (IntDef.Z.div_eucl m' 100000) with (Z.div_eucl m' 100000).
  destruct (Z.div_eucl m' 100000) as [q r].
  exists q, e', (new_location 100000 r). split; [ reflexivity | ].
  assert (0 < 2 ^ (- e')) as Hpow by (apply Z.pow_pos_nonneg; lia).
  assert (2 ^ (d1 + - e' - 18) <= q) as Hq.
  { assert (2 ^ (d1 - 1) * 2 ^ (- e') <= m') as H1 by nia.
    rewrite <- Z.pow_add_r in H1 by lia.
    replace (d1 - 1 + - e') with (d1 + - e' - 18 + 17) in H1 by lia.
    rewrite Z.pow_add_r in H1 by lia. change (2 ^ 17) with 131072 in H1.
    assert (0 < 2 ^ (d1 + - e' - 18)) by (apply Z.pow_pos_nonneg; lia).
    nia. }
  assert (0 < q) as Hqpos.
  { assert (0 < 2 ^ (d1 + - e' - 18)) by (apply Z.pow_pos_nonneg; lia). lia. }
  split; [ assumption | ]. split.
  - assert (d1 - 17 <= Zdigits2 q + e') as Hdq.
    { assert (d1 + - e' - 18 < Zdigits2 q); [ | lia ].
      pose proof (Zdigits2_bounds q Hqpos) as [_ Hqh].
      destruct (Z_lt_ge_dec (d1 + - e' - 18) (Zdigits2 q)) as [|Hge]; [ assumption | ].
      assert (2 ^ Zdigits2 q <= 2 ^ (d1 + - e' - 18)) by (apply Z.pow_le_mono_r; lia).
      lia. }
    apply fexp_mono in Hdq. lia.
  - assert (bpow e' * IZR (2 ^ (- e')) = 1)%R as Hone.
    { rewrite <- bpow_IZR, <- bpow_add by lia. replace (e' + - e') with 0 by lia. reflexivity. }
    assert (IZR q * 100000 <= IZR k * IZR (2 ^ (- e')) < (IZR q + 1) * 100000)%R as Hr.
    { rewrite <- !mult_IZR. change 1%R with (IZR 1). rewrite <- plus_IZR, <- mult_IZR.
      split; [ apply IZR_le | apply IZR_lt ]; lia. }
    pose proof (bpow_pos e') as Hbp.
    unfold F2R.
    assert (IZR k = IZR k * IZR (2 ^ (- e')) * bpow e')%R as Hkk.
    { rewrite Rmult_assoc, (Rmult_comm (IZR (2 ^ (- e')))), Hone. ring. }
    rewrite Hkk. split.
    + apply Rmult_le_reg_r with 100000%R; [ lra | ].
      replace (IZR k * IZR (2 ^ (- e')) * bpow e' / 100000 * 100000)%R
        with (IZR k * IZR (2 ^ (- e')) * bpow e')%R by (field; lra).
      nra.
    + apply Rmult_lt_reg_r with 100000%R; [ lra | ].
      replace (IZR k * IZR (2 ^ (- e')) * bpow e' / 100000 * 100000)%R
        with (IZR k * IZR (2 ^ (- e')) * bpow e')%R by (field; lra).
      nra.
Qed.

(** ** Decimal rounding and the arithmetic of the levels *)

Lemma scaled_half_even_spec (m : positive) (e : Z) :
  0 <= Float.scaled_half_even m e 5
  /\ (- (1 / 2) <= IZR (Float.scaled_half_even m e 5) - F2R (Zpos m) e * 100000 <= 1 / 2)%R.
Proof.
  unfold Float.scaled_half_even. change (10 ^ Z.of_nat 5) with 100000.
  set (num := Zpos m * 100000 * 2 ^ Z.max e 0).
  set (den := 2 ^ Z.max (- e) 0).
  assert (0 < den) as Hden by (apply Z.pow_pos_nonneg; lia).
  assert (0 < 2 ^ Z.max e 0) as Hnum by (apply Z.pow_pos_nonneg; lia).
  assert (0 <= num) as Hnum0 by (unfold num; nia).
  pose proof (Z.div_mod num den ltac:(lia)) as Heq.
  pose proof (Z.mod_pos_bound num den Hden) as Hb.
  assert (0 <= num / den) as Hq by (apply Z.div_pos; lia).
  set (q := num / den) in *. set (r := num mod den) in *.
  assert (F2R (Zpos m) e * 100000 * IZR den = IZR num)%R as Hval.
  { unfold num, den, F2R. rewrite !mult_IZR, <- !bpow_IZR by lia.
    replace (bpow (Z.max e 0)) with (bpow e * bpow (Z.max (- e) 0))%R; [ ring | ].
    rewrite <- bpow_add. f_equal. lia. }
  assert (0 < IZR den)%R as Hdr by (apply IZR_lt; assumption).
  assert (forall k : Z, 2 * (k * den - num) <= den -> - den <= 2 * (k * den - num) ->
            (- (1 / 2) <= IZR k - F2R (Zpos m) e * 100000 <= 1 / 2)%R) as Hconv.
  { intros k H1 H2. apply IZR_le in H1, H2.
    rewrite opp_IZR in H2.
    rewrite mult_IZR, minus_IZR, mult_IZR in H1, H2.
    rewrite <- Hval in H1, H2.
    split.
    - apply Rmult_le_reg_r with (IZR den); [ assumption | ]. nra.
    - apply Rmult_le_reg_r with (IZR den); [ assumption | ]. nra. }
  destruct (Z.compare_spec (2 * r) den) as [He|Hl|Hg].
  - destruct (Z.even q); (split; [ lia | apply Hconv; nia ]).
  - split; [ lia | apply Hconv; nia ].
  - split; [ lia | apply Hconv; nia ].
Qed.

Lemma signed_bounds (s : bool) (v w B : R) :
  (- B <= v - w <= B)%R -> (- B <= signed s v - signed s w <= B)%R.
Proof. destruct s; unfold signed; lra. Qed.

(** [round(x, 5)] moves a float by at most half of 1e-5 and the error of
    one division. *)
Lemma round5_spec (x : float) (K : Z) :
  Float.is_finite x = true ->
  (- bpow (K - 1) < exact_value x < bpow (K - 1))%R -> 1 <= K <= 1023 ->
  Float.is_finite (Float.round x 5) = true
  /\ (- (1 / 200000 + 4 * bpow (K - 53))
      <= exact_value (Float.round x 5) - exact_value x
      <= 1 / 200000 + 4 * bpow (K - 53))%R.
Proof.
  unfold Float.is_finite, Float.round, exact_value.
  intros Hfin Hx HK. pose proof (bpow_pos (K - 53)) as Hu.
  destruct (Prim2SF x) as [s|s| |s m e] eqn:Hsf; try discriminate.
  - rewrite Hsf. split; [ reflexivity | ]. simpl. lra.
  - rewrite SF2R_finite in Hx |- *.
    destruct (scaled_half_even_spec m e) as [Hk0 Hk].
    set (k := Float.scaled_half_even m e 5) in *.
    pose proof (F2R_pos m e) as Hpos.
    assert (F2R (Zpos m) e < bpow (K - 1))%R as Hx' by (destruct s; unfold signed in Hx; lra).
    destruct (Z.eqb_spec k 0) as [H0|H0].
    + assert (Prim2SF (if s then (-0)%float else 0%float) = S754_zero s) as ->
        by (destruct s; reflexivity).
      split; [ reflexivity | ].
      rewrite H0 in Hk. simpl SF2R.
      replace 0%R with (signed s 0) by (destruct s; unfold signed; lra).
      apply signed_bounds. lra.
    + unfold Float.nearest_ratio. change (10 ^ Z.of_nat 5) with 100000.
      destruct (SFdiv_core_binary_1e5 k ltac:(lia)) as (q & e' & l & -> & Hq & He' & Hv).
      assert (1 <= bpow (K - 1))%R as Hone.
      { change 1%R with (bpow 0). apply bpow_le. lia. }
      assert (bpow K = 2 * bpow (K - 1))%R as Htwo.
      { replace K with (K - 1 + 1) at 1 by lia. rewrite bpow_add. unfold bpow at 2. simpl. lra. }
      destruct (binary_round_aux_spec s q e' l K Hq He') as (v & Hvalid & Hs & Hkind & Herr & Hle).
      { lra. }
      { unfold emin, prec, emax. lia. }
      rewrite Prim2SF_SF2Prim by assumption.
      split; [ destruct Hkind as [-> | (m' & e'' & ->)]; reflexivity | ].
      rewrite Hs. apply signed_bounds.
      assert (fexp prec emax K = K - 53) as HfK by (unfold fexp, emin, prec, emax; lia).
      rewrite HfK in Herr, Hle.
      assert (bpow e' <= bpow (K - 53))%R by (apply bpow_le; assumption).
      lra.
Qed.

Lemma is_finite_sf (x : float) : Float.is_finite x = finite_sf (Prim2SF x).
Proof. reflexivity. Qed.

Lemma sub_value (x y : float) (K : Z) :
  Float.is_finite x = true -> Float.is_finite y = true ->
  (- bpow K < exact_value x - exact_value y < bpow K)%R -> emin <= K <= 1023 ->
  Float.is_finite (x - y) = true
  /\ (- (3 * bpow (fexp prec emax K))
      <= exact_value (x - y) - (exact_value x - exact_value y)
      <= 3 * bpow (fexp prec emax K))%R.
Proof.
  rewrite !is_finite_sf. unfold exact_value. rewrite FloatAxioms.sub_spec.
  intros Hx Hy HK HKr.
  destruct (SFsub_spec (Prim2SF x) (Prim2SF y) K) as (_ & Hf & Herr);
    auto using Prim2SF_valid.
Qed.

Lemma add_value (x y : float) (K : Z) :
  Float.is_finite x = true -> Float.is_finite y = true ->
  (- bpow K < exact_value x + exact_value y < bpow K)%R -> emin <= K <= 1023 ->
  Float.is_finite (x + y) = true
  /\ (- (3 * bpow (fexp prec emax K))
      <= exact_value (x + y) - (exact_value x + exact_value y)
      <= 3 * bpow (fexp prec emax K))%R.
Proof.
  rewrite !is_finite_sf. unfold exact_value. rewrite FloatAxioms.add_spec.
  intros Hx Hy HK HKr.
  destruct (SFadd_spec (Prim2SF x) (Prim2SF y) K) as (_ & Hf & Herr);
    auto using Prim2SF_valid.
Qed.

Lemma SFmul_two_exact (s : bool) (m : positive) (e : Z) :
  valid_binary (S754_finite s m e) = true -> e + 1 <= emax - prec ->
  SFmul prec emax two_sf (S754_finite s m e) = S754_finite s m (e + 1)
  \/ SFmul prec emax two_sf (S754_finite s m e) = S754_finite s m~0 e.
Proof.
  unfold SpecFloat.valid_binary, SpecFloat.bounded, canonical_mantissa.
  intros H Hle. apply andb_prop in H as [Hc Hb].
  apply Z.eqb_eq in Hc. apply Z.leb_le in Hb.
  change (Zpos (digits2_pos m)) with (Zdigits2 (Zpos m)) in Hc.
  unfold SFmul, two_sf. change (xorb false s) with s.
  unfold binary_round_aux.
  destruct (Z.eq_dec (Zdigits2 (Zpos m)) 53) as [Hd|Hd].
  - rewrite shr_fexp_scaled_normal;
      [ | assumption | unfold fexp, emin, prec, emax in Hc; lia ].
    cbn [shr_m loc_of_shr_record shr_r shr_s round_nearest_even].
    rewrite shr_fexp_canonical
      by (rewrite Hd; unfold fexp, emin, prec, emax in *; lia).
    cbn [shr_m]. apply Z.leb_le in Hle. rewrite Hle. auto.
  - assert (Zdigits2 (Zpos m) < 53 /\ e = -1074) as [Hlt He]
      by (unfold fexp, emin, prec, emax in Hc; lia).
    rewrite shr_fexp_scaled_subnormal by assumption.
    cbn [shr_m loc_of_shr_record shr_r shr_s round_nearest_even].
    rewrite shr_fexp_canonical
      by (rewrite Zdigits2_double; unfold fexp, emin, prec, emax in *; lia).
    cbn [shr_m].
    replace (e <=? emax - prec) with true; auto.
    symmetry. apply Z.leb_le. assumption.
Qed.

Lemma exponent_of_bound (s : bool) (m : positive) (e K : Z) :
  valid_binary (S754_finite s m e) = true ->
  (F2R (Zpos m) e < bpow K)%R -> e <= fexp prec emax K.
Proof.
  intros Hv Hlt. apply valid_finite in Hv as [Hc _].
  pose proof (digits_of_bound (Zpos m) e K ltac:(lia) Hlt) as Hd.
  rewrite <- Hc. apply fexp_mono. assumption.
Qed.

(** Doubling is exact below the overflow threshold. *)
Lemma double_value (d : float) :
  Float.is_finite d = true ->
  (- bpow 1000 < exact_value d < bpow 1000)%R ->
  Float.is_finite (2 * d) = true /\ exact_value (2 * d) = (2 * exact_value d)%R.
Proof.
  rewrite !is_finite_sf. unfold exact_value. rewrite FloatAxioms.mul_spec.
  change (Prim2SF 2) with two_sf. unfold SF64mul.
  intros Hf Hb. pose proof (Prim2SF_valid d) as Hv.
  destruct (Prim2SF d) as [s|s| |s m e]; try discriminate.
  - split; [ reflexivity | ]. simpl. lra.
  - rewrite SF2R_finite in Hb. pose proof (F2R_pos m e).
    assert (F2R (Zpos m) e < bpow 1000)%R as Hlt by (destruct s; unfold signed in Hb; lra).
    pose proof (exponent_of_bound s m e 1000 Hv Hlt) as He.
    assert (e + 1 <= emax - prec) as Hle by (unfold fexp, emin, prec, emax in *; lia).
    destruct (SFmul_two_exact s m e Hv Hle) as [-> | ->].
    + split; [ reflexivity | ]. rewrite !SF2R_finite.
      assert (F2R (Zpos m) (e + 1) = 2 * F2R (Zpos m) e)%R as ->.
      { unfold F2R. rewrite bpow_add. unfold bpow at 2. simpl. ring. }
      destruct s; unfold signed; lra.
    + split; [ reflexivity | ]. rewrite !SF2R_finite.
      assert (F2R (Zpos m~0) e = 2 * F2R (Zpos m) e)%R as ->.
      { unfold F2R. rewrite Pos2Z.inj_xO, mult_IZR. ring. }
      destruct s; unfold signed; lra.
Qed.

Lemma compare_value (x y : float) :
  Float.is_finite x = true -> Float.is_finite y = true ->
  compare_spec_R (SFcompare (Prim2SF x) (Prim2SF y)) (exact_value x) (exact_value y).
Proof.
  rewrite !is_finite_sf. intros Hx Hy.
  apply SFcompare_spec; auto using Prim2SF_valid.
Qed.

Lemma ltb_of_lt (x y : float) :
  Float.is_finite x = true -> Float.is_finite y = true ->
  (exact_value x < exact_value y)%R -> (x <? y)%float = true.
Proof.
  intros Hx Hy Hlt. pose proof (compare_value x y Hx Hy) as H.
  rewrite FloatAxioms.ltb_spec. unfold SFltb.
  destruct (SFcompare _ _) as [[]|]; simpl in H; try reflexivity; lra.
Qed.

Lemma lt_of_ltb (x y : float) :
  Float.is_finite x = true -> Float.is_finite y = true ->
  (x <? y)%float = true -> (exact_value x < exact_value y)%R.
Proof.
  intros Hx Hy. pose proof (compare_value x y Hx Hy) as H.
  rewrite FloatAxioms.ltb_spec. unfold SFltb.
  destruct (SFcompare _ _) as [[]|]; simpl in H; try discriminate. auto.
Qed.

Lemma le_of_leb (x y : float) :
  Float.is_finite x = true -> Float.is_finite y = true ->
  (x <=? y)%float = true -> (exact_value x <= exact_value y)%R.
Proof.
  intros Hx Hy. pose proof (compare_value x y Hx Hy) as H.
  rewrite FloatAxioms.leb_spec. unfold SFleb.
  destruct (SFcompare _ _) as [[]|]; simpl in H; try discriminate; lra.
Qed.

(** A float between two finite floats is finite. *)
Lemma finite_between (lo hi x : float) :
  Float.is_finite lo = true -> Float.is_finite hi = true ->
  (lo <=? x)%float = true -> (x <=? hi)%float = true ->
  Float.is_finite x = true.
Proof.
  rewrite !is_finite_sf, !FloatAxioms.leb_spec. unfold SFleb.
  destruct (Prim2SF x) as [s|s| |s m e]; try reflexivity;
    destruct (Prim2SF lo) as [sl|sl| |sl ml el]; try discriminate;
    destruct (Prim2SF hi) as [sh|sh| |sh mh eh]; try discriminate;
    destruct s; simpl; try discriminate; try (destruct sl; discriminate);
    try (destruct sh; discriminate).
Qed.

Lemma bpow_half (K : Z) : bpow (K - 54) = (bpow (K - 53) / 2)%R.
Proof.
  replace (K - 53) with (K - 54 + 1) by lia. rewrite bpow_add.
  unfold bpow at 3. simpl. lra.
Qed.

(** The three rounded levels against the exact close and stop distance. *)
Lemma price_levels_values (trend : Trend) (close d : float) (l : Levels)
    (K : Z) (Bc Bd : R) :
  price_levels trend close d = Done l ->
  Float.is_finite close = true -> Float.is_finite d = true ->
  (- Bc <= exact_value close <= Bc)%R -> (- Bd <= exact_value d <= Bd)%R ->
  (Bc + 2 * Bd + 1 <= bpow (K - 1))%R -> 2 <= K <= 52 ->
  let u := bpow (K - 53) in
  let sign := match trend with bullish => 1%R | bearish => (-1)%R end in
  Float.is_finite (level_entry l) = true
  /\ Float.is_finite (level_stop_loss l) = true
  /\ Float.is_finite (level_take_profit l) = true
  /\ (- (1 / 200000 + 4 * u)
      <= exact_value (level_entry l) - exact_value close
      <= 1 / 200000 + 4 * u)%R
  /\ (- (1 / 200000 + 6 * u)
      <= exact_value (level_stop_loss l) - (exact_value close - sign * exact_value d)
      <= 1 / 200000 + 6 * u)%R
  /\ (- (1 / 200000 + 6 * u)
      <= exact_value (level_take_profit l)
         - (exact_value close + sign * (2 * exact_value d))
      <= 1 / 200000 + 6 * u)%R.
Proof.
  intros Hl Hfc Hfd Hc Hd HB HK u sign.
  apply price_levels_Done in Hl as (_ & He & _ & Hlv).
  pose proof (bpow_pos (K - 53)) as Hu. fold u in Hu.
  assert (fexp prec emax (K - 1) = K - 54) as Hf by (unfold fexp, emin, prec, emax; lia).
  assert (bpow (K - 54) = u / 2)%R as Hhalf by apply bpow_half.
  assert (u <= 1 / 2)%R as Hu1.
  { unfold u. replace (1 / 2)%R with (bpow (-1)) by (unfold bpow; simpl; lra).
    apply bpow_le. lia. }
  assert (bpow (K - 1) <= bpow 1000)%R as Hbig by (apply bpow_le; lia).
  assert (emin <= K - 1 <= 1023) as HK1 by (unfold emin, prec, emax; lia).
  destruct (double_value d Hfd ltac:(lra)) as [Hf2 H2].
  destruct (round5_spec close K Hfc ltac:(lra) ltac:(lia)) as [HfE HE].
  rewrite <- He in HfE, HE. fold u in HE.
  split; [ assumption | ].
  destruct trend; destruct Hlv as [Hs Ht]; unfold sign.
  - destruct (sub_value close d (K - 1) Hfc Hfd ltac:(lra) HK1) as [Hfs0 Hs0].
    destruct (add_value close (2 * d) (K - 1) Hfc Hf2 ltac:(lra) HK1) as [Hft0 Ht0].
    rewrite Hf, Hhalf in Hs0, Ht0. rewrite H2 in Ht0.
    destruct (round5_spec (close - d) K Hfs0 ltac:(lra) ltac:(lia)) as [HfS HS].
    destruct (round5_spec (close + 2 * d) K Hft0 ltac:(lra) ltac:(lia)) as [HfT HT].
    rewrite <- Hs in HfS, HS. rewrite <- Ht in HfT, HT. fold u in HS, HT.
    repeat split; try assumption; lra.
  - destruct (add_value close d (K - 1) Hfc Hfd ltac:(lra) HK1) as [Hfs0 Hs0].
    destruct (sub_value close (2 * d) (K - 1) Hfc Hf2 ltac:(lra) HK1) as [Hft0 Ht0].
    rewrite Hf, Hhalf in Hs0, Ht0. rewrite H2 in Ht0.
    destruct (round5_spec (close + d) K Hfs0 ltac:(lra) ltac:(lia)) as [HfS HS].
    destruct (round5_spec (close - 2 * d) K Hft0 ltac:(lra) ltac:(lia)) as [HfT HT].
    rewrite <- Hs in HfS, HS. rewrite <- Ht in HfT, HT. fold u in HS, HT.
    repeat split; try assumption; lra.
Qed.

(** ** Levels of snapshots of ordinary size *)

Lemma bpow_neg (n : Z) : 0 <= n -> bpow (- n) = (/ IZR (2 ^ n))%R.
Proof.
  intros Hn. assert (bpow (- n) * IZR (2 ^ n) = 1)%R as H.
  { rewrite <- bpow_IZR, <- bpow_add by assumption. replace (- n + n) with 0 by lia. reflexivity. }
  assert (0 < IZR (2 ^ n))%R by (apply IZR_lt, Z.pow_pos_nonneg; lia).
  apply Rmult_eq_reg_r with (IZR (2 ^ n)); [ | lra ].
  rewrite H. field. lra.
Qed.

Lemma bpow_Zneg (p : positive) : bpow (Zneg p) = (/ IZR (2 ^ Zpos p))%R.
Proof. apply (bpow_neg (Zpos p)). lia. Qed.

Lemma exact_value_finite (x : float) (s : bool) (m : positive) (e : Z) :
  Prim2SF x = S754_finite s m e -> exact_value x = signed s (F2R (Zpos m) e).
Proof. intros H. unfold exact_value. rewrite H. apply SF2R_finite. Qed.

Lemma opp_value (x : float) : exact_value (- x) = (- exact_value x)%R.
Proof.
  unfold exact_value. rewrite FloatAxioms.opp_spec.
  destruct (Prim2SF x) as [s|s| |s m e]; simpl SFopp; simpl SF2R; try lra.
  rewrite !F2R_cond_Zopp. destruct s; unfold signed; simpl; lra.
Qed.

Lemma opp_finite (x : float) : Float.is_finite (- x) = Float.is_finite x.
Proof.
  unfold Float.is_finite. rewrite FloatAxioms.opp_spec.
  destruct (Prim2SF x); reflexivity.
Qed.

Lemma between_values (lo hi x : float) :
  Float.is_finite lo = true -> Float.is_finite hi = true ->
  between lo hi x = true ->
  Float.is_finite x = true /\ (exact_value lo <= exact_value x <= exact_value hi)%R.
Proof.
  unfold between. intros Hlo Hhi H. apply andb_prop in H as [H1 H2].
  pose proof (finite_between lo hi x Hlo Hhi H1 H2) as Hx.
  split; [ assumption | ]. split; apply le_of_leb; assumption.
Qed.

Lemma level_within_values (bound x : float) :
  Float.is_finite bound = true -> level_within bound (VFloat x) = true ->
  Float.is_finite x = true
  /\ (- exact_value bound <= exact_value x <= exact_value bound)%R.
Proof.
  intros Hb H. simpl in H.
  apply between_values in H as [Hx H]; [ | rewrite opp_finite | ]; try assumption.
  rewrite opp_value in H. auto.
Qed.

(** The stop distance of a snapshot within bounds: at least the atr, at
    most twice the bound and the error of one subtraction. *)
Lemma sl_distance_values (trend : Trend) (close atr : float) (low high : value)
    (d bound : float) (K : Z) :
  sl_distance trend close atr low high = Done d ->
  Float.is_finite bound = true ->
  between (- bound) bound close = true -> between (- bound) bound atr = true ->
  level_within bound match trend with bullish => low | bearish => high end = true ->
  (2 * exact_value bound < bpow K)%R -> 2 <= K <= 51 ->
  Float.is_finite d = true
  /\ (exact_value atr <= exact_value d <= 2 * exact_value bound + 1)%R.
Proof.
  intros Hd Hb Hc Ha Hsw HB HK.
  apply (level_within_values bound close) in Hc as [Hfc Hc]; [ | assumption ].
  apply (level_within_values bound atr) in Ha as [Hfa Ha]; [ | assumption ].
  assert (0 <= exact_value bound)%R as Hb0 by lra.
  assert (3 * bpow (fexp prec emax K) <= 1)%R as Herr.
  { assert (fexp prec emax K <= -2) by (unfold fexp, emin, prec, emax; lia).
    assert (bpow (fexp prec emax K) <= bpow (-2))%R as H1 by (apply bpow_le; assumption).
    unfold bpow at 2 in H1. simpl in H1. lra. }
  assert (emin <= K <= 1023) as HK1 by (unfold emin, prec, emax; lia).
  revert Hd. unfold sl_distance. rewrite mul_one.
  destruct trend.
  - destruct low as [| | |level]; simpl; try discriminate.
    + intros [= <-]. split; [ assumption | lra ].
    + apply level_within_values in Hsw as [Hfl Hl]; [ | assumption ].
      destruct (sub_value close level K Hfc Hfl ltac:(lra) HK1) as [Hfs Hs].
      destruct (atr <? close - level)%float eqn:Hlt; intros [= <-].
      * apply lt_of_ltb in Hlt; try assumption. split; [ assumption | lra ].
      * split; [ assumption | lra ].
  - destruct high as [| | |level]; simpl; try discriminate.
    + intros [= <-]. split; [ assumption | lra ].
    + apply level_within_values in Hsw as [Hfl Hl]; [ | assumption ].
      destruct (sub_value level close K Hfl Hfc ltac:(lra) HK1) as [Hfs Hs].
      destruct (atr <? level - close)%float eqn:Hlt; intros [= <-].
      * apply lt_of_ltb in Hlt; try assumption. split; [ assumption | lra ].
      * split; [ assumption | lra ].
Qed.

Lemma calculate_levels_inv (data : gmap string value) (trend : Trend) (l : Levels) :
  calculate_levels data trend = Done l ->
  exists close atr d,
    data !! "close" = Some (VFloat close)
    /\ data !! "atr" = Some (VFloat atr)
    /\ sl_distance trend close atr
         (Dict.get_or data "recent_swing_low" VNone)
         (Dict.get_or data "recent_swing_high" VNone) = Done d
    /\ price_levels trend close d = Done l.
Proof.
  unfold calculate_levels. intros H.
  bind_inv H as close Hclose. apply item_float_Done in Hclose.
  bind_inv H as atr Hatr. apply item_float_Done in Hatr.
  bind_inv H as d Hd. eauto 8.
Qed.

Lemma prices_within_inv (bound : float) (data : gmap string value) :
  prices_within bound data = true ->
  exists close ema50_daily atr,
    data !! "close" = Some (VFloat close)
    /\ data !! "ema50_daily" = Some (VFloat ema50_daily)
    /\ data !! "atr" = Some (VFloat atr)
    /\ between (- bound) bound close = true
    /\ between (- bound) bound atr = true
    /\ level_within bound
         match calculate_trend close ema50_daily with
         | bullish => Dict.get_or data "recent_swing_low" VNone
         | bearish => Dict.get_or data "recent_swing_high" VNone
         end = true.
Proof.
  unfold prices_within.
  destruct (data !! "close") as [[| | |close]|]; try discriminate.
  destruct (data !! "ema50_daily") as [[| | |ema]|]; try discriminate.
  destruct (data !! "atr") as [[| | |atr]|]; try discriminate.
  intros H. apply andb_prop in H as [H Hsw]. apply andb_prop in H as [Hc Ha].
  eauto 10.
Qed.

(** The levels of a snapshot whose prices lie within [bound]: each rounded
    level against the exact close and the exact stop distance. *)
Lemma calculate_levels_values (data : gmap string value) (close ema50_daily : float)
    (l : Levels) (bound : float) (K : Z) :
  data !! "close" = Some (VFloat close) ->
  data !! "ema50_daily" = Some (VFloat ema50_daily) ->
  calculate_levels data (calculate_trend close ema50_daily) = Done l ->
  prices_within bound data = true -> Float.is_finite bound = true ->
  (5 * exact_value bound + 3 <= bpow (K - 1))%R -> 2 <= K <= 51 ->
  exists atr d : float,
    data !! "atr" = Some (VFloat atr)
    /\ (exact_value atr <= exact_value d)%R
    /\ Float.is_finite atr = true
    /\ Float.is_finite (level_entry l) = true
    /\ Float.is_finite (level_stop_loss l) = true
    /\ Float.is_finite (level_take_profit l) = true
    /\ let u := bpow (K - 53) in
       let sign := match calculate_trend close ema50_daily with
                   | bullish => 1%R
                   | bearish => (-1)%R
                   end in
       (- (1 / 200000 + 4 * u)
        <= exact_value (level_entry l) - exact_value close
        <= 1 / 200000 + 4 * u)%R
       /\ (- (1 / 200000 + 6 * u)
           <= exact_value (level_stop_loss l)
              - (exact_value close - sign * exact_value d)
           <= 1 / 200000 + 6 * u)%R
       /\ (- (1 / 200000 + 6 * u)
           <= exact_value (level_take_profit l)
              - (exact_value close + sign * (2 * exact_value d))
           <= 1 / 200000 + 6 * u)%R.
Proof.
  intros Hclose Hema Hl Hw Hb HB HK.
  apply prices_within_inv in Hw
    as (close' & ema' & atr & Hclose' & Hema' & Hatr & Hc & Ha & Hsw).
  assert (close' = close) as -> by congruence.
  assert (ema' = ema50_daily) as -> by congruence.
  apply calculate_levels_inv in Hl as (close' & atr' & d & Hclose'' & Hatr' & Hd & Hl).
  assert (close' = close) as -> by congruence.
  assert (atr' = atr) as -> by congruence.
  pose proof (level_within_values bound close Hb Hc) as [Hfc Hcv].
  pose proof (level_within_values bound atr Hb Ha) as [Hfa Hav].
  assert (bpow (K - 1) <= bpow K)%R as Hmono by (apply bpow_le; lia).
  destruct (sl_distance_values _ _ _ _ _ _ _ K Hd Hb Hc Ha Hsw ltac:(lra) HK)
    as [Hfd Hdv].
  destruct (price_levels_values _ close d l K (exact_value bound)
              (2 * exact_value bound + 1) Hl Hfc Hfd Hcv ltac:(lra) ltac:(lra) ltac:(lia))
    as (HfE & HfS & HfT & HE & HS & HT).
  exists atr, d. repeat split; try assumption; lra.
Qed.

Lemma leb_false_of_lt (x y : float) :
  Float.is_finite x = true -> Float.is_finite y = true ->
  (exact_value y < exact_value x)%R -> (x <=? y)%float = false.
Proof.
  intros Hx Hy Hlt. pose proof (compare_value x y Hx Hy) as H.
  rewrite FloatAxioms.leb_spec. unfold SFleb.
  destruct (SFcompare _ _) as [[]|]; simpl in H; try reflexivity; lra.
Qed.

(** Every return of the evaluator, with the levels it computed. *)
Lemma evaluate_signal_levels (data : gmap string value) (r : TradeSignal) :
  evaluate_signal data = Done r ->
  (exists why score msg,
     r = no_trade data why score msg /\ why <> "invalid_risk_parameters")
  \/ exists close ema50_daily l,
       data !! "close" = Some (VFloat close)
       /\ data !! "ema50_daily" = Some (VFloat ema50_daily)
       /\ calculate_levels data (calculate_trend close ema50_daily) = Done l
       /\ ((invalid_positioning (calculate_trend close ema50_daily) l = true
            /\ exists score msg,
                 r = no_trade data "invalid_risk_parameters" score msg)
           \/ (invalid_positioning (calculate_trend close ema50_daily) l = false
               /\ exists c k, r = trade data (calculate_trend close ema50_daily) c l k)).
Proof.
  unfold evaluate_signal. intros H.
  bind_inv H as early Hearly. destruct early as [r0|].
  - invert_outcome H. subst r0.
    apply validate_data_Some in Hearly as (why & msg & -> & [-> | ->]);
      left; do 3 eexists; (split; [ reflexivity | discriminate ]).
  - bind_inv H as close Hclose. apply item_float_Done in Hclose.
    bind_inv H as ema Hema. apply item_float_Done in Hema.
    bind_inv H as c Hc.
    destruct (confluence_count c <? 3)%Z eqn:Hcount.
    { invert_outcome H. subst r. left. do 3 eexists. split; [ reflexivity | discriminate ]. }
    bind_inv H as l Hl. bind_inv H as rsi_daily Hrsi. bind_inv H as k Hk.
    destruct (confidence_score k <? 70)%float eqn:Hconf.
    { invert_outcome H. subst r. left. do 3 eexists. split; [ reflexivity | discriminate ]. }
    right. exists close, ema, l. do 3 (split; [ assumption | ]).
    destruct (invalid_positioning (calculate_trend close ema) l) eqn:Hpos.
    + invert_outcome H. subst r. left. eauto.
    + invert_outcome H. subst r. right. eauto.
Qed.

Lemma value_1e8 :
  Float.is_finite 100000000 = true /\ exact_value 100000000 = 100000000%R.
Proof.
  split; [ reflexivity | ].
  rewrite (exact_value_finite _ false 6710886400000000 (-26)) by (vm_compute; reflexivity).
  unfold signed, F2R. rewrite bpow_Zneg.
  change (2 ^ 26) with 67108864. lra.
Qed.

Lemma value_2e5 : (19 / 1000000 <= exact_value 0.00002)%R.
Proof.
  rewrite (exact_value_finite _ false 5902958103587057 (-68)) by (vm_compute; reflexivity).
  unfold signed, F2R. rewrite bpow_Zneg.
  change (2 ^ 68) with 295147905179352825856. lra.
Qed.

(** With prices up to 1e8 and an atr of at least 0.00002, the rounded stop
    and target stay on their sides of the rounded entry. *)
Lemma levels_in_order (data : gmap string value) (close ema50_daily : float)
    (l : Levels) :
  data !! "close" = Some (VFloat close) ->
  data !! "ema50_daily" = Some (VFloat ema50_daily) ->
  calculate_levels data (calculate_trend close ema50_daily) = Done l ->
  prices_within 100000000 data = true -> atr_at_least 0.00002 data = true ->
  Float.is_finite (level_entry l) = true
  /\ Float.is_finite (level_stop_loss l) = true
  /\ Float.is_finite (level_take_profit l) = true
  /\ match calculate_trend close ema50_daily with
     | bullish =>
         (exact_value (level_stop_loss l) < exact_value (level_entry l)
          < exact_value (level_take_profit l))%R
     | bearish =>
         (exact_value (level_take_profit l) < exact_value (level_entry l)
          < exact_value (level_stop_loss l))%R
     end.
Proof.
  intros Hclose Hema Hl Hw Ha. destruct value_1e8 as [Hfb Hvb].
  assert (bpow 29 = 536870912)%R as H29 by (rewrite bpow_IZR by lia; reflexivity).
  assert (bpow (-23) = / 8388608)%R as H23 by (rewrite bpow_Zneg; reflexivity).
  destruct (calculate_levels_values data close ema50_daily l 100000000 30
              Hclose Hema Hl Hw Hfb)
    as (atr & d & Hatr & Hd & Hfa & HfE & HfS & HfT & HE & HS & HT).
  { change (30 - 1) with 29. rewrite Hvb, H29. lra. }
  { lia. }
  change (30 - 53) with (-23) in HE, HS, HT. rewrite H23 in HE, HS, HT.
  assert (19 / 1000000 <= exact_value atr)%R as Hlow.
  { unfold atr_at_least in Ha. rewrite Hatr in Ha.
    apply le_of_leb in Ha; [ | reflexivity | assumption ].
    pose proof value_2e5. lra. }
  do 3 (split; [ assumption | ]).
  destruct (calculate_trend close ema50_daily); lra.
Qed.

(** C3, amended. For a snapshot whose atr is at least 0.00002 and whose
    close, atr and swing level of the trade's side are at most 1e8 in size,
    the final risk check never abstains: no result has the reason
    invalid_risk_parameters, and a returned signal is a long with
    stop_loss < entry < take_profit or a short with
    take_profit < entry < stop_loss. *)
Theorem risk_check_passes (data : gmap string value) (r : TradeSignal) :
  evaluate_signal data = Done r ->
  prices_within 100000000 data = true -> atr_at_least 0.00002 data = true ->
  reason r <> "invalid_risk_parameters"
  /\ (status r <> "no_trade" ->
      exists e s t,
        entry r = Some e /\ stop_loss r = Some s /\ take_profit r = Some t
        /\ ((status r = "long" /\ (s <? e)%float = true /\ (e <? t)%float = true)
            \/ (status r = "short"
                /\ (t <? e)%float = true /\ (e <? s)%float = true))).
Proof.
  intros H Hw Ha.
  apply evaluate_signal_levels in H
    as [(why & score & msg & -> & Hwhy)
       | (close & ema & l & Hclose & Hema & Hl & Hcase)].
  { split; [ exact Hwhy | ]. intros Hst. contradiction Hst. reflexivity. }
  destruct (levels_in_order data close ema l Hclose Hema Hl Hw Ha)
    as (HfE & HfS & HfT & Hord).
  destruct Hcase as [[Hpos _] | [_ (c & k & ->)]].
  - exfalso. unfold invalid_positioning in Hpos.
    destruct (calculate_trend close ema); destruct Hord as [H1 H2];
      rewrite !leb_false_of_lt in Hpos by assumption; discriminate.
  - split; [ discriminate | ]. intros _. simpl.
    exists (level_entry l), (level_stop_loss l), (level_take_profit l).
    do 3 (split; [ reflexivity | ]).
    destruct (calculate_trend close ema); destruct Hord as [H1 H2];
      [ left | right ]; (split; [ reflexivity | ]);
      split; apply ltb_of_lt; assumption.
Qed.

(** C3, amended, at the documented request: an atr of 0.0025 at a close
    of 1.0850. *)
Lemma risk_check_passes_eurusd :
  exists r, evaluate_signal eurusd = Done r
    /\ reason r <> "invalid_risk_parameters"
    /\ exists e s t,
         entry r = Some e /\ stop_loss r = Some s /\ take_profit r = Some t
         /\ ((status r = "long" /\ (s <? e)%float = true /\ (e <? t)%float = true)
             \/ (status r = "short"
                 /\ (t <? e)%float = true /\ (e <? s)%float = true)).
Proof.
  eexists.
  assert (evaluate_signal eurusd = Done _) as Hrun by (vm_compute; reflexivity).
  assert (prices_within 100000000 eurusd = true) as Hw by (vm_compute; reflexivity).
  assert (atr_at_least 0.00002 eurusd = true) as Ha by (vm_compute; reflexivity).
  destruct (risk_check_passes eurusd _ Hrun Hw Ha) as [Hreason Hsignal].
  split; [ exact Hrun | ]. split; [ exact Hreason | ].
  apply Hsignal. vm_compute. discriminate.
Defined.

Lemma value_1e11 :
  Float.is_finite 100000000000 = true /\ exact_value 100000000000 = 100000000000%R.
Proof.
  split; [ reflexivity | ].
  rewrite (exact_value_finite _ false 6553600000000000 (-16)) by (vm_compute; reflexivity).
  unfold signed, F2R. rewrite bpow_Zneg.
  change (2 ^ 16) with 65536. lra.
Qed.

(** C4, amended. Every accepted signal whose take_profit is finite has the
    rrr 2.0; and when the close, the atr and the swing level of the trade's
    side are at most 1e11 in size, the returned take-profit distance
    |take_profit - entry| is twice the returned stop-loss distance
    |entry - stop_loss| within 1e-2, as exact numbers, and the rrr is 2.0. *)
Theorem reward_within_tolerance (data : gmap string value) (r : TradeSignal) :
  evaluate_signal data = Done r -> status r <> "no_trade" ->
  exists e s t,
    entry r = Some e /\ stop_loss r = Some s /\ take_profit r = Some t
    /\ (Float.is_finite t = true -> rrr r = Some 2%float)
    /\ (prices_within 100000000000 data = true ->
        (Rabs (Rabs (exact_value t - exact_value e)
               - 2 * Rabs (exact_value e - exact_value s)) <= 1 / 100)%R
        /\ rrr r = Some 2%float).
Proof.
  intros H Hst.
  apply evaluate_signal_Done in H as [(why & score & msg & -> & _) | Hacc].
  { contradiction Hst. reflexivity. }
  destruct Hacc as [close ema rsi c l k _ Hclose Hema _ _ Hl _ _ _ ->].
  simpl.
  exists (level_entry l), (level_stop_loss l), (level_take_profit l).
  do 3 (split; [ reflexivity | ]).
  assert (Float.is_finite (level_take_profit l) = true -> level_rrr l = 2%float) as Hrrr.
  { intros Hfin. apply calculate_levels_Done in Hl as (close' & d & _ & Hl).
    eapply finite_take_profit_ratio; eassumption. }
  split; [ intros Hfin; f_equal; auto | ].
  intros Hw. destruct value_1e11 as [Hfb Hvb].
  assert (bpow 39 = 549755813888)%R as H39 by (rewrite bpow_IZR by lia; reflexivity).
  assert (bpow (-13) = / 8192)%R as H13 by (rewrite bpow_Zneg; reflexivity).
  destruct (calculate_levels_values data close ema l 100000000000 40
              Hclose Hema Hl Hw Hfb)
    as (atr & d & _ & _ & _ & HfE & HfS & HfT & HE & HS & HT).
  { change (40 - 1) with 39. rewrite Hvb, H39. lra. }
  { lia. }
  change (40 - 53) with (-13) in HE, HS, HT. rewrite H13 in HE, HS, HT.
  split; [ | f_equal; auto ].
  unfold Rabs. destruct (calculate_trend close ema);
    repeat destruct (Rcase_abs _); lra.
Qed.

(** C4, amended, at the documented request. *)
Lemma reward_within_tolerance_eurusd :
  exists r e s t,
    evaluate_signal eurusd = Done r
    /\ entry r = Some e /\ stop_loss r = Some s /\ take_profit r = Some t
    /\ (Rabs (Rabs (exact_value t - exact_value e)
              - 2 * Rabs (exact_value e - exact_value s)) <= 1 / 100)%R
    /\ rrr r = Some 2%float.
Proof.
  eexists.
  assert (evaluate_signal eurusd = Done _) as Hrun by (vm_compute; reflexivity).
  destruct (reward_within_tolerance eurusd _ Hrun)
    as (e & s & t & He & Hs & Ht & _ & Hbound).
  - vm_compute. discriminate.
  - exists e, s, t. split; [ exact Hrun | ]. split; [ exact He | ].
    split; [ exact Hs | ]. split; [ exact Ht | ].
    apply Hbound. vm_compute. reflexivity.
Defined.

(** * When the evaluator raises *)

Lemma item_float_Raise (data : gmap string value) (key : string) (e : exn) :
  Dict.item data key ≫= as_float = Raise e -> e <> ZeroDivisionError.
Proof.
  unfold Dict.item. destruct (data !! key) as [[]|]; simpl; congruence.
Qed.

Lemma candle_confluence_Raise (trend : Trend) (candle_type : value) (e : exn) :
  candle_confluence trend candle_type = Raise e -> e <> ZeroDivisionError.
Proof.
  unfold candle_confluence.
  destruct (truthy candle_type); [ | discriminate ].
  destruct candle_type; simpl; try congruence.
  destruct trend;
    match goal with |- context [if ?b then _ else _] => destruct b end;
    discriminate.
Qed.

Lemma pattern_confluence_Raise (trend : Trend) (pattern divergence : value)
    (e : exn) :
  pattern_confluence trend pattern divergence = Raise e -> e <> ZeroDivisionError.
Proof.
  unfold pattern_confluence.
  destruct (truthy pattern).
  - destruct pattern; simpl; try congruence.
    destruct trend;
      repeat match goal with |- context [if ?b then _ else _] => destruct b end;
      simpl; discriminate.
  - simpl. destruct (truthy divergence); discriminate.
Qed.

Lemma check_confluences_Raise (data : gmap string value) (trend : Trend) (e : exn) :
  check_confluences data trend = Raise e -> e <> ZeroDivisionError.
Proof.
  unfold check_confluences.
  destruct (Dict.item data "rsi_4h" ≫= as_float) as [x|e1] eqn:H1; simpl.
  2:{ intros [= <-]. eapply item_float_Raise, H1. }
  destruct (rsi_confluence _ _ x) as [m1 d1].
  destruct (candle_confluence _ _) as [[m2 d2]|e2] eqn:H2; simpl.
  2:{ intros [= <-]. eapply candle_confluence_Raise, H2. }
  destruct (pattern_confluence _ _ _) as [[m3 d3]|e3] eqn:H3; simpl.
  2:{ intros [= <-]. eapply pattern_confluence_Raise, H3. }
  destruct (Dict.item data "rsi_daily" ≫= as_float) as [y|e4] eqn:H4; simpl.
  2:{ intros [= <-]. eapply item_float_Raise, H4. }
  destruct (trend_confluence _ y). discriminate.
Qed.

Lemma calculate_confidence_Raise (trend : Trend) (c : Confluences)
    (rsi_daily : float) (candle_type : value) (e : exn) :
  calculate_confidence trend c rsi_daily candle_type = Raise e ->
  e <> ZeroDivisionError.
Proof.
  unfold calculate_confidence, candle_score.
  destruct (candle_confluence_met c); [ | discriminate ].
  destruct (truthy candle_type); [ | discriminate ].
  destruct candle_type; simpl; congruence.
Qed.

Lemma sl_distance_Raise (trend : Trend) (entry_price atr : float)
    (recent_swing_low recent_swing_high : value) (e : exn) :
  sl_distance trend entry_price atr recent_swing_low recent_swing_high = Raise e ->
  e <> ZeroDivisionError.
Proof.
  unfold sl_distance.
  destruct trend;
    [ destruct recent_swing_low | destruct recent_swing_high ];
    simpl; congruence.
Qed.

(** X11. On a mapping that conforms to the request schema, the evaluator
    raises ZeroDivisionError exactly when the mapping passes the validation,
    meets at least three confluences and has a stop distance equal to zero:
    the quotient comes before the confidence gate and before the final risk
    check. *)
Theorem zero_division_exactly (data : gmap string value) :
  conforms data = true ->
  (evaluate_signal data = Raise ZeroDivisionError
   <-> exists (close ema50_daily atr d : float) (c : Confluences),
        validate_data data = Done None
        /\ data !! "close" = Some (VFloat close)
        /\ data !! "ema50_daily" = Some (VFloat ema50_daily)
        /\ data !! "atr" = Some (VFloat atr)
        /\ check_confluences data (calculate_trend close ema50_daily) = Done c
        /\ 3 <= confluence_count c
        /\ sl_distance (calculate_trend close ema50_daily) close atr
             (Dict.get_or data "recent_swing_low" VNone)
             (Dict.get_or data "recent_swing_high" VNone) = Done d
        /\ (d =? 0)%float = true).
Proof.
  intros _. split.
  - unfold evaluate_signal. intros H.
    destruct (validate_data data) as [[r0|]|e0] eqn:Hv; simpl in H.
    { discriminate. }
    2:{ exfalso. injection H as ->. revert Hv. unfold validate_data.
        destruct (negb _); [ discriminate | ].
        destruct (negb _); [ discriminate | ].
        unfold Dict.item. destruct (data !! "timeframe") as [tf|]; simpl;
          [ | discriminate ].
        destruct (is_str tf "4H"); [ discriminate | ].
        destruct tf; simpl; discriminate. }
    destruct (Dict.item data "close" ≫= as_float) as [close|e1] eqn:Hclose;
      simpl in H.
    2:{ exfalso. injection H as ->. eapply item_float_Raise; eauto. }
    destruct (Dict.item data "ema50_daily" ≫= as_float) as [ema|e2] eqn:Hema;
      simpl in H.
    2:{ exfalso. injection H as ->. eapply item_float_Raise; eauto. }
    destruct (check_confluences data (calculate_trend close ema)) as [c|e3] eqn:Hc;
      simpl in H.
    2:{ exfalso. injection H as ->. eapply check_confluences_Raise; eauto. }
    destruct (confluence_count c <? 3) eqn:Hcount; [ discriminate | ].
    apply Z.ltb_ge in Hcount.
    destruct (calculate_levels data (calculate_trend close ema)) as [l|e4] eqn:Hl;
      simpl in H.
    { exfalso.
      destruct (Dict.item data "rsi_daily" ≫= as_float) as [y|e5] eqn:H4;
        simpl in H.
      2:{ injection H as ->. eapply item_float_Raise; eauto. }
      destruct (calculate_confidence _ c y _) as [k|e6] eqn:Hk; simpl in H.
      2:{ injection H as ->. eapply calculate_confidence_Raise; eauto. }
      destruct (confidence_score k <? 70)%float; [ discriminate | ].
      destruct (invalid_positioning _ l); discriminate. }
    injection H as ->. unfold calculate_levels in Hl. rewrite Hclose in Hl.
    simpl in Hl.
    destruct (Dict.item data "atr" ≫= as_float) as [atr|e7] eqn:Hatr; simpl in Hl.
    2:{ exfalso. injection Hl as ->. eapply item_float_Raise; eauto. }
    destruct (sl_distance _ close atr _ _) as [d|e8] eqn:Hd; simpl in Hl.
    2:{ exfalso. injection Hl as ->. eapply sl_distance_Raise; eauto. }
    apply item_float_Done in Hclose, Hema, Hatr.
    exists close, ema, atr, d, c. repeat split; try assumption.
    unfold price_levels, Float.div in Hl.
    destruct (calculate_trend close ema); destruct (d =? 0)%float;
      simpl in Hl; congruence.
  - intros (close & ema & atr & d & c & Hv & Hclose & Hema & Hatr & Hc & Hcount
            & Hd & Hz).
    unfold evaluate_signal. rewrite Hv. simpl.
    unfold Dict.item. rewrite Hclose, Hema. simpl. rewrite Hc. simpl.
    apply Z.ltb_ge in Hcount. rewrite Hcount.
    unfold calculate_levels, Dict.item. rewrite Hclose, Hatr. simpl.
    rewrite Hd. simpl. unfold price_levels, Float.div. rewrite Hz.
    destruct (calculate_trend close ema); reflexivity.
Qed.

(** X11 at the documented request with an atr of zero and no swing low. *)
Lemma zero_division_exactly_zero_atr :
  conforms zero_atr = true
  /\ (evaluate_signal zero_atr = Raise ZeroDivisionError
      <-> exists (close ema50_daily atr d : float) (c : Confluences),
            validate_data zero_atr = Done None
            /\ zero_atr !! "close" = Some (VFloat close)
            /\ zero_atr !! "ema50_daily" = Some (VFloat ema50_daily)
            /\ zero_atr !! "atr" = Some (VFloat atr)
            /\ check_confluences zero_atr (calculate_trend close ema50_daily) = Done c
            /\ 3 <= confluence_count c
            /\ sl_distance (calculate_trend close ema50_daily) close atr
                 (Dict.get_or zero_atr "recent_swing_low" VNone)
                 (Dict.get_or zero_atr "recent_swing_high" VNone) = Done d
            /\ (d =? 0)%float = true).
Proof.
  split; [ vm_compute; reflexivity | ].
  apply (zero_division_exactly zero_atr). vm_compute. reflexivity.
Defined.

(** * The endpoint *)

Lemma model_dump_conforms (q : Api.MarketDataRequest) :
  conforms (Api.model_dump q) = true.
Proof.
  destruct q as [i tf ts c h l r4 rd a e ct p dv sl sh sm].
  destruct ct, p, dv, sl, sh, sm; vm_compute; reflexivity.
Qed.

Lemma model_dump_complete (q : Api.MarketDataRequest) :
  missing_fields (Api.model_dump q) = [] /\ none_fields (Api.model_dump q) = [].
Proof. destruct q. split; vm_compute; reflexivity. Qed.

Lemma model_dump_identifiers (q : Api.MarketDataRequest) :
  Dict.get (Api.model_dump q) "instrument" = VStr (Api.instrument q)
  /\ Dict.get (Api.model_dump q) "timeframe" = VStr (Api.timeframe q)
  /\ Dict.get (Api.model_dump q) "timestamp" = VStr (Api.timestamp q)
  /\ Api.model_dump q !! "timeframe" = Some (VStr (Api.timeframe q)).
Proof. destruct q. repeat split; vm_compute; reflexivity. Qed.

(** The validation of a mapping that holds every required field. *)
Lemma validate_data_complete (data : gmap string value) (tf : string) :
  missing_fields data = [] -> none_fields data = [] ->
  data !! "timeframe" = Some (VStr tf) ->
  validate_data data
  = if String.eqb tf "4H" then Done None
    else Done (Some (no_trade data "preconditions_not_met" (NInt 0)
                       ("Invalid timeframe '" +:+ tf +:+
                        "'. Strategy requires '4H' timeframe."))).
Proof.
  intros Hm Hn Htf. unfold validate_data, Dict.item.
  rewrite Hm, Hn, Htf. simpl.
  destruct (String.eqb tf "4H"); reflexivity.
Qed.

Lemma complete_reason (data : gmap string value) (tf : string) (r : TradeSignal) :
  missing_fields data = [] -> none_fields data = [] ->
  data !! "timeframe" = Some (VStr tf) ->
  evaluate_signal data = Done r ->
  reason r <> "data_invalid"
  /\ (reason r = "preconditions_not_met" <-> tf <> "4H").
Proof.
  intros Hm Hn Htf. unfold evaluate_signal.
  rewrite (validate_data_complete data tf Hm Hn Htf).
  destruct (String.eqb tf "4H") eqn:Heq; simpl.
  - apply String.eqb_eq in Heq.
    destruct (Dict.item _ "close" ≫= as_float) as [close|]; simpl;
      [ | discriminate ].
    destruct (Dict.item _ "ema50_daily" ≫= as_float) as [ema|]; simpl;
      [ | discriminate ].
    destruct (check_confluences _ _) as [c|]; simpl; [ | discriminate ].
    destruct (confluence_count c <? 3).
    { intros [= <-]. simpl. split; [ discriminate | ].
      split; [ discriminate | congruence ]. }
    destruct (calculate_levels _ _) as [l|]; simpl; [ | discriminate ].
    destruct (Dict.item _ "rsi_daily" ≫= as_float) as [rsi|]; simpl;
      [ | discriminate ].
    destruct (calculate_confidence _ c rsi _) as [k|]; simpl; [ | discriminate ].
    destruct (confidence_score k <? 70)%float;
      [ | destruct (invalid_positioning _ l) ];
      intros [= <-]; simpl; (split; [ discriminate | ]);
      (split; [ discriminate | congruence ]).
  - apply String.eqb_neq in Heq. intros [= <-]. simpl.
    split; [ discriminate | ]. split; auto.
Qed.

(** A conforming mapping that makes the evaluator raise has passed the
    validation and divides by a zero stop distance. *)
Lemma conforming_Raise (data : gmap string value) (e : exn) :
  conforms data = true -> evaluate_signal data = Raise e ->
  e = ZeroDivisionError /\ validate_data data = Done None.
Proof.
  intros Hc. unfold evaluate_signal.
  destruct (validate_data_conforms data Hc) as (early & Hv & Hearly).
  rewrite Hv. simpl.
  destruct early as [r|]; [ discriminate | ].
  destruct (Hearly eq_refl) as [Hm Hn].
  destruct (validated_float data "close" Hc Hm Hn ltac:(in_schema) ltac:(in_schema))
    as (close & ->). simpl.
  destruct (validated_float data "ema50_daily" Hc Hm Hn ltac:(in_schema) ltac:(in_schema))
    as (ema & ->). simpl.
  destruct (check_confluences_total data (calculate_trend close ema) Hc Hm Hn)
    as (c & ->). simpl.
  destruct (confluence_count c <? 3); [ discriminate | ].
  destruct (calculate_levels data (calculate_trend close ema)) as [l|e'] eqn:Hl;
    simpl.
  - destruct (validated_float data "rsi_daily" Hc Hm Hn ltac:(in_schema) ltac:(in_schema))
      as (rsi_daily & ->). simpl.
    destruct (calculate_confidence_total (calculate_trend close ema) c rsi_daily
                (Dict.get_or data "candle_type" VNone)) as (k & ->).
    { apply get_or_kind; [ assumption | in_schema | reflexivity ]. }
    simpl. destruct (confidence_score k <? 70)%float; [ discriminate | ].
    destruct (invalid_positioning _ l); discriminate.
  - intros [= <-]. split; [ | reflexivity ].
    eapply calculate_levels_raises; eassumption.
Qed.

(** X12. Through the endpoint the two field checks never fire: a response is
    never data_invalid, and it is preconditions_not_met exactly when the
    timeframe of the request is not "4H". *)
Theorem endpoint_validation (q : Api.MarketDataRequest) (r : TradeSignal) :
  Api.generate_signal q = inl r ->
  reason r <> "data_invalid"
  /\ (reason r = "preconditions_not_met" <-> Api.timeframe q <> "4H").
Proof.
  unfold Api.generate_signal.
  destruct (evaluate_signal (Api.model_dump q)) as [r'|e] eqn:He;
    [ | discriminate ].
  intros [= <-].
  destruct (model_dump_complete q) as [Hm Hn].
  destruct (model_dump_identifiers q) as (_ & _ & _ & Htf).
  exact (complete_reason _ _ _ Hm Hn Htf He).
Qed.

(** X12 at the example of the request model. *)
Lemma endpoint_validation_example :
  exists r, Api.generate_signal Api.example = inl r
    /\ reason r <> "data_invalid"
    /\ (reason r = "preconditions_not_met" <-> Api.timeframe Api.example <> "4H").
Proof.
  eexists. split.
  - vm_compute. reflexivity.
  - apply (endpoint_validation Api.example). vm_compute. reflexivity.
Defined.

(** X13. The handler answers 500 only for a division by a zero stop distance:
    whatever the request, the exception it reports is ZeroDivisionError, and
    the request was on the "4H" timeframe. *)
Theorem endpoint_error (q : Api.MarketDataRequest) (h : Api.HTTPException) :
  Api.generate_signal q = inr h ->
  Api.status_code h = 500
  /\ Api.error h = "Signal generation failed"
  /\ Api.raised h = ZeroDivisionError
  /\ Api.timeframe q = "4H".
Proof.
  unfold Api.generate_signal.
  destruct (evaluate_signal (Api.model_dump q)) as [r|e] eqn:He;
    [ discriminate | ].
  intros [= <-]. cbn [Api.status_code Api.error Api.raised].
  destruct (conforming_Raise _ _ (model_dump_conforms q) He) as [-> Hv].
  repeat split.
  destruct (model_dump_complete q) as [Hm Hn].
  destruct (model_dump_identifiers q) as (_ & _ & _ & Htf).
  rewrite (validate_data_complete _ _ Hm Hn Htf) in Hv.
  destruct (String.eqb (Api.timeframe q) "4H") eqn:Heq.
  - apply String.eqb_eq. exact Heq.
  - discriminate Hv.
Qed.

(** X13 at the example with an atr of zero and no swing low. *)
Lemma endpoint_error_zero_atr :
  exists h, Api.generate_signal Api.flat = inr h
    /\ Api.status_code h = 500
    /\ Api.error h = "Signal generation failed"
    /\ Api.raised h = ZeroDivisionError
    /\ Api.timeframe Api.flat = "4H".
Proof.
  eexists. split.
  - vm_compute. reflexivity.
  - apply (endpoint_error Api.flat). vm_compute. reflexivity.
Defined.

(** X14. A response carries the instrument, timeframe and timestamp of the
    request, each a str: the three fields the response model requires are
    never [None]. *)
Theorem endpoint_identifiers (q : Api.MarketDataRequest) (r : TradeSignal) :
  Api.generate_signal q = inl r ->
  instrument r = VStr (Api.instrument q)
  /\ timeframe r = VStr (Api.timeframe q)
  /\ timestamp r = VStr (Api.timestamp q).
Proof.
  unfold Api.generate_signal.
  destruct (evaluate_signal (Api.model_dump q)) as [r'|e] eqn:He;
    [ | discriminate ].
  intros [= <-].
  destruct (model_dump_identifiers q) as (Hi & Ht & Hs & _).
  rewrite <- Hi, <- Ht, <- Hs.
  apply evaluate_signal_Done in He as [(why & score & msg & -> & _) | Hacc].
  - repeat split.
  - destruct Hacc as [close ema rsi c l k _ _ _ _ _ _ _ _ _ ->]. repeat split.
Qed.

(** X14 at the example of the request model. *)
Lemma endpoint_identifiers_example :
  exists r, Api.generate_signal Api.example = inl r
    /\ instrument r = VStr (Api.instrument Api.example)
    /\ timeframe r = VStr (Api.timeframe Api.example)
    /\ timestamp r = VStr (Api.timestamp Api.example).
Proof.
  eexists. split.
  - vm_compute. reflexivity.
  - apply (endpoint_identifiers Api.example). vm_compute. reflexivity.
Defined.

(** * Labels and strict mode *)

Section Variants.

Variables data1 data2 : gmap string value.

(** The two mappings agree outside the labels and the strict-mode flag. *)
Hypothesis same_fixed : forall k, k ∈ fixed_keys -> data1 !! k = data2 !! k.
Hypothesis same_range :
  forall k, k ∈ presence_keys -> presence (data1 !! k) = presence (data2 !! k).

Lemma fixed_presence (k : string) :
  k ∈ required_fields -> presence (data1 !! k) = presence (data2 !! k).
Proof.
  intros Hk. unfold required_fields in Hk.
  repeat (apply elem_of_cons in Hk as [-> | Hk]);
    try (apply same_range; in_list);
    try (rewrite same_fixed by in_list; reflexivity).
  inversion Hk.
Qed.

Lemma fixed_missing : missing_fields data1 = missing_fields data2.
Proof.
  unfold missing_fields. apply List.filter_ext_in. intros k Hk.
  apply list_elem_of_In, fixed_presence in Hk. revert Hk.
  unfold Dict.contains.
  destruct (data1 !! k) as [[]|], (data2 !! k) as [[]|]; simpl; congruence.
Qed.

Lemma fixed_none : none_fields data1 = none_fields data2.
Proof.
  unfold none_fields. apply List.filter_ext_in. intros k Hk.
  apply list_elem_of_In, fixed_presence in Hk. revert Hk.
  unfold Dict.get, Dict.get_or.
  destruct (data1 !! k) as [[]|], (data2 !! k) as [[]|]; simpl; congruence.
Qed.

Lemma fixed_item (k : string) :
  k ∈ fixed_keys -> Dict.item data1 k = Dict.item data2 k.
Proof. intros Hk. unfold Dict.item. rewrite (same_fixed k Hk). reflexivity. Qed.

Lemma fixed_get_or (k : string) (d : value) :
  k ∈ fixed_keys -> Dict.get_or data1 k d = Dict.get_or data2 k d.
Proof. intros Hk. unfold Dict.get_or. rewrite (same_fixed k Hk). reflexivity. Qed.

Lemma fixed_get (k : string) :
  k ∈ fixed_keys -> Dict.get data1 k = Dict.get data2 k.
Proof. intros Hk. apply fixed_get_or, Hk. Qed.

Ltac fixed_reads :=
  rewrite ?(fixed_item "timeframe"), ?(fixed_item "close"),
    ?(fixed_item "ema50_daily"), ?(fixed_item "rsi_4h"),
    ?(fixed_item "rsi_daily"), ?(fixed_item "atr"),
    ?(fixed_get_or "divergence"),
    ?(fixed_get_or "recent_swing_low"), ?(fixed_get_or "recent_swing_high"),
    ?(fixed_get "instrument"), ?(fixed_get "timeframe"),
    ?(fixed_get "timestamp")
    by in_list.

Lemma fixed_no_trade (why : string) (score : number) (msg : string) :
  no_trade data1 why score msg = no_trade data2 why score msg.
Proof. unfold no_trade. fixed_reads. reflexivity. Qed.

Lemma fixed_validate : validate_data data1 = validate_data data2.
Proof.
  unfold validate_data.
  rewrite fixed_missing, fixed_none. fixed_reads.
  destruct (negb (is_empty (missing_fields data2)));
    [ rewrite fixed_no_trade; reflexivity | ].
  destruct (negb (is_empty (none_fields data2)));
    [ rewrite fixed_no_trade; reflexivity | ].
  destruct (Dict.item data2 "timeframe") as [tf|]; [ simpl | reflexivity ].
  destruct (is_str tf "4H"); [ reflexivity | ].
  destruct (str tf); [ simpl | reflexivity ].
  rewrite fixed_no_trade. reflexivity.
Qed.

Lemma fixed_levels (trend : Trend) :
  calculate_levels data1 trend = calculate_levels data2 trend.
Proof. unfold calculate_levels. fixed_reads. reflexivity. Qed.

Lemma no_trade_same_decision (why : string) (score : number) (msg1 msg2 : string) :
  same_decision (no_trade data1 why score msg1) (no_trade data2 why score msg2).
Proof.
  unfold same_decision, no_trade. simpl. fixed_reads. repeat split.
Qed.

(** When the two mappings give confluences of the same count and the same
    confidence, they give the same outcome but for the message. *)
Lemma same_outcome_of_confluences :
  (forall trend,
     match check_confluences data1 trend, check_confluences data2 trend with
     | Done c1, Done c2 =>
         confluence_count c1 = confluence_count c2
         /\ forall rsi_daily,
              calculate_confidence trend c1 rsi_daily
                (Dict.get_or data1 "candle_type" VNone)
              = calculate_confidence trend c2 rsi_daily
                  (Dict.get_or data2 "candle_type" VNone)
     | Raise e1, Raise e2 => e1 = e2
     | _, _ => False
     end) ->
  same_outcome (evaluate_signal data1) (evaluate_signal data2).
Proof.
  intros Hconf. unfold evaluate_signal.
  rewrite fixed_validate. fixed_reads.
  destruct (validate_data data2) as [[r|]|e]; simpl.
  { unfold same_decision. repeat split. }
  2:{ reflexivity. }
  destruct (Dict.item data2 "close" ≫= as_float) as [close|]; simpl;
    [ | reflexivity ].
  destruct (Dict.item data2 "ema50_daily" ≫= as_float) as [ema|]; simpl;
    [ | reflexivity ].
  specialize (Hconf (calculate_trend close ema)).
  destruct (check_confluences data1 _) as [c1|e1],
           (check_confluences data2 _) as [c2|e2]; simpl;
    try contradiction; [ | exact Hconf ].
  destruct Hconf as [Hcount Hk]. rewrite Hcount.
  destruct (confluence_count c2 <? 3).
  { apply no_trade_same_decision. }
  rewrite fixed_levels.
  destruct (calculate_levels data2 _) as [l|]; simpl; [ | reflexivity ].
  destruct (Dict.item data2 "rsi_daily" ≫= as_float) as [rsi|]; simpl;
    [ | reflexivity ].
  rewrite Hk.
  destruct (calculate_confidence _ c2 rsi _) as [k|]; simpl; [ | reflexivity ].
  destruct (confidence_score k <? 70)%float.
  { apply no_trade_same_decision. }
  destruct (invalid_positioning _ l).
  { apply no_trade_same_decision. }
  unfold same_decision, trade. simpl. fixed_reads. repeat split.
Qed.

End Variants.


Lemma lower_empty (s1 s2 : string) :
  Str.lower s1 = Str.lower s2 -> String.eqb s1 "" = String.eqb s2 "".
Proof. destruct s1, s2; simpl; congruence. Qed.

Lemma same_label_truthy (v1 v2 : value) :
  same_label v1 v2 -> truthy v1 = truthy v2.
Proof.
  intros [-> | (s1 & s2 & -> & -> & H)]; [ reflexivity | ].
  simpl. rewrite (lower_empty s1 s2 H). reflexivity.
Qed.

Lemma candle_confluence_label (trend : Trend) (v1 v2 : value) :
  same_label v1 v2 ->
  match candle_confluence trend v1, candle_confluence trend v2 with
  | Done (m1, _), Done (m2, _) => m1 = m2
  | Raise e1, Raise e2 => e1 = e2
  | _, _ => False
  end.
Proof.
  intros H. unfold candle_confluence. rewrite (same_label_truthy v1 v2 H).
  destruct H as [-> | (s1 & s2 & -> & -> & H)].
  - destruct (truthy v2); [ | reflexivity ].
    destruct (as_str v2) as [label|]; simpl; [ | reflexivity ].
    destruct trend;
      match goal with |- context [if ?b then _ else _] => destruct b end;
      reflexivity.
  - destruct (truthy (VStr s2)); [ | reflexivity ]. simpl. rewrite H.
    destruct trend;
      match goal with |- context [if ?b then _ else _] => destruct b end;
      reflexivity.
Qed.

Lemma pattern_confluence_label (trend : Trend) (v1 v2 divergence : value) :
  same_label v1 v2 ->
  match pattern_confluence trend v1 divergence,
        pattern_confluence trend v2 divergence with
  | Done (m1, _), Done (m2, _) => m1 = m2
  | Raise e1, Raise e2 => e1 = e2
  | _, _ => False
  end.
Proof.
  intros H. unfold pattern_confluence. rewrite (same_label_truthy v1 v2 H).
  destruct H as [-> | (s1 & s2 & -> & -> & H)].
  - destruct (truthy v2).
    + destruct (as_str v2) as [label|]; simpl; [ | reflexivity ].
      destruct trend;
        repeat match goal with |- context [if ?b then _ else _] => destruct b end;
        reflexivity.
    + simpl. destruct (truthy divergence); reflexivity.
  - destruct (truthy (VStr s2)).
    + simpl. rewrite H.
      destruct trend;
        repeat match goal with |- context [if ?b then _ else _] => destruct b end;
        reflexivity.
    + simpl. destruct (truthy divergence); reflexivity.
Qed.

Lemma candle_score_label (candle_met : bool) (v1 v2 : value) :
  same_label v1 v2 -> candle_score candle_met v1 = candle_score candle_met v2.
Proof.
  intros H. unfold candle_score. rewrite (same_label_truthy v1 v2 H).
  destruct H as [-> | (s1 & s2 & -> & -> & H)]; [ reflexivity | ].
  simpl. rewrite H. reflexivity.
Qed.

(** X15. The labels are matched without regard to letter case: two mappings that
    differ only in the case of candle_type and pattern give the same
    outcome, message apart. *)
Theorem labels_ignore_case (data1 data2 : gmap string value) :
  (forall k, k <> "candle_type" -> k <> "pattern" -> data1 !! k = data2 !! k) ->
  same_label (Dict.get_or data1 "candle_type" VNone)
             (Dict.get_or data2 "candle_type" VNone) ->
  same_label (Dict.get_or data1 "pattern" VNone)
             (Dict.get_or data2 "pattern" VNone) ->
  same_outcome (evaluate_signal data1) (evaluate_signal data2).
Proof.
  intros Hsame Hcandle Hpattern.
  assert (forall k, k ∈ fixed_keys -> data1 !! k = data2 !! k) as Hfixed.
  { intros k Hk. apply Hsame; intros ->; unfold fixed_keys in Hk;
      repeat (apply elem_of_cons in Hk as [Hk | Hk]; [ discriminate Hk | ]);
      inversion Hk. }
  apply same_outcome_of_confluences.
  - exact Hfixed.
  - intros k Hk. rewrite Hsame; [ reflexivity | | ]; intros ->;
      unfold presence_keys in Hk;
      repeat (apply elem_of_cons in Hk as [Hk | Hk]; [ discriminate Hk | ]);
      inversion Hk.
  - intros trend. unfold check_confluences.
    rewrite (fixed_item data1 data2 Hfixed "rsi_4h") by in_list.
    rewrite (fixed_item data1 data2 Hfixed "rsi_daily") by in_list.
    rewrite (fixed_get_or data1 data2 Hfixed "divergence") by in_list.
    assert (Dict.get_or data1 "strict_mode" (VBool false)
            = Dict.get_or data2 "strict_mode" (VBool false)) as ->.
    { unfold Dict.get_or. rewrite Hsame by discriminate. reflexivity. }
    destruct (Dict.item data2 "rsi_4h" ≫= as_float) as [rsi_4h|]; simpl;
      [ | reflexivity ].
    destruct (rsi_confluence trend _ rsi_4h) as [m1 d1].
    pose proof (candle_confluence_label trend _ _ Hcandle) as Hc.
    destruct (candle_confluence trend (Dict.get_or data1 "candle_type" VNone))
      as [[m2 d2]|e2],
      (candle_confluence trend (Dict.get_or data2 "candle_type" VNone))
      as [[m2' d2']|e2']; simpl; try contradiction; [ subst m2' | exact Hc ].
    pose proof (pattern_confluence_label trend _ _
                  (Dict.get_or data2 "divergence" (VBool false)) Hpattern) as Hp.
    destruct (pattern_confluence trend (Dict.get_or data1 "pattern" VNone) _)
      as [[m3 d3]|e3],
      (pattern_confluence trend (Dict.get_or data2 "pattern" VNone) _)
      as [[m3' d3']|e3']; simpl; try contradiction; [ subst m3' | exact Hp ].
    destruct (Dict.item data2 "rsi_daily" ≫= as_float) as [rsi_daily|]; simpl;
      [ | reflexivity ].
    destruct (trend_confluence trend rsi_daily) as [m4 d4].
    split; [ reflexivity | ]. intros rsi.
    unfold calculate_confidence. simpl.
    rewrite (candle_score_label m2 _ _ Hcandle). reflexivity.
Qed.

(** X15 at the documented request with its labels in upper and mixed case. *)
Lemma labels_ignore_case_upper :
  same_outcome (evaluate_signal upper_case_labels) (evaluate_signal eurusd).
Proof.
  apply labels_ignore_case.
  - intros k Hc Hp. unfold upper_case_labels.
    rewrite !lookup_insert_ne by congruence. reflexivity.
  - right. exists "HAMMER", "hammer".
    split; [ vm_compute; reflexivity | ].
    split; [ vm_compute; reflexivity | vm_compute; reflexivity ].
  - right. exists "Double_Bottom", "double_bottom".
    split; [ vm_compute; reflexivity | ].
    split; [ vm_compute; reflexivity | vm_compute; reflexivity ].
Defined.

(** ** Strict mode *)

Lemma leb_5_20 (x : float) : (x <=? 5)%float = true -> (x <=? 20)%float = true.
Proof.
  rewrite !FloatAxioms.leb_spec.
  change (Prim2SF 5) with (S754_finite false 5629499534213120 (-50)).
  change (Prim2SF 20) with (S754_finite false 5629499534213120 (-48)).
  unfold SFleb, SFcompare.
  destruct (Prim2SF x) as [s|s| |s m e].
  - intros _. destruct s; reflexivity.
  - destruct s; intros Hle; [ reflexivity | discriminate Hle ].
  - intros Hle. discriminate Hle.
  - destruct s; [ intros _; reflexivity | ].
    destruct (Z.compare_spec e (-50)), (Z.compare_spec e (-48)); try lia;
      intros Hle; first [ reflexivity | discriminate Hle ].
Qed.

Lemma leb_95_80 (x : float) : (95 <=? x)%float = true -> (80 <=? x)%float = true.
Proof.
  rewrite !FloatAxioms.leb_spec.
  change (Prim2SF 95) with (S754_finite false 6685030696878080 (-46)).
  change (Prim2SF 80) with (S754_finite false 5629499534213120 (-46)).
  unfold SFleb, SFcompare.
  destruct (Prim2SF x) as [s|s| |s m e].
  - intros Hle. destruct s; discriminate Hle.
  - destruct s; intros Hle; [ discriminate Hle | reflexivity ].
  - intros Hle. discriminate Hle.
  - destruct s; [ intros Hle; discriminate Hle | ].
    destruct (Z.compare_spec (-46) e);
      [ | intros _; reflexivity | intros Hle; discriminate Hle ].
    rewrite !Pos.compare_cont_spec. unfold Pos.switch_Eq.
    destruct (6685030696878080 ?= m)%positive eqn:Hc;
      [ | | intros Hle; discriminate Hle ]; intros _.
    + apply Pos.compare_eq in Hc. rewrite <- Hc. vm_compute. reflexivity.
    + assert ((5629499534213120 ?= m)%positive = Lt) as ->; [ | reflexivity ].
      apply (Pos.lt_trans _ 6685030696878080); [ | exact Hc ].
      vm_compute. reflexivity.
Qed.

(** A confluence on the 4H RSI that holds in strict mode holds in normal
    mode. *)
Lemma rsi_confluence_strict (trend : Trend) (strict_mode normal : value)
    (rsi_4h : float) :
  truthy strict_mode = true -> truthy normal = false ->
  fst (rsi_confluence trend strict_mode rsi_4h) = true ->
  fst (rsi_confluence trend normal rsi_4h) = true.
Proof.
  unfold rsi_confluence. intros -> ->.
  destruct trend.
  - destruct (rsi_4h <=? 5)%float eqn:H; [ | discriminate ].
    rewrite (leb_5_20 _ H). reflexivity.
  - destruct (95 <=? rsi_4h)%float eqn:H; [ | discriminate ].
    rewrite (leb_95_80 _ H). reflexivity.
Qed.


Lemma check_confluences_strict (data1 data2 : gmap string value) (trend : Trend)
    (c1 : Confluences) :
  (forall k, k <> "strict_mode" -> data1 !! k = data2 !! k) ->
  truthy (Dict.get_or data1 "strict_mode" (VBool false)) = true ->
  truthy (Dict.get_or data2 "strict_mode" (VBool false)) = false ->
  check_confluences data1 trend = Done c1 ->
  exists c2, check_confluences data2 trend = Done c2
    /\ confluence_count c1 <= confluence_count c2
    /\ candle_confluence_met c2 = candle_confluence_met c1.
Proof.
  intros Hsame Hs1 Hs2. unfold check_confluences, Dict.item, Dict.get_or in *.
  rewrite !(Hsame "rsi_4h"), !(Hsame "candle_type"), !(Hsame "pattern"),
    !(Hsame "divergence"), !(Hsame "rsi_daily") by discriminate.
  intros H. bind_inv H as rsi_4h Hrsi. rewrite Hrsi. simpl.
  pose proof (rsi_confluence_strict trend _ _ rsi_4h Hs1 Hs2) as Hmono.
  destruct (rsi_confluence trend _ rsi_4h) as [m1 d1].
  destruct (rsi_confluence trend _ rsi_4h) as [m1' d1'].
  bind_inv H as candle Hcandle. rewrite Hcandle. simpl. destruct candle as [m2 d2].
  bind_inv H as pat Hpat. rewrite Hpat. simpl. destruct pat as [m3 d3].
  bind_inv H as rsi_daily Hdaily. rewrite Hdaily. simpl.
  destruct (trend_confluence trend rsi_daily) as [m4 d4].
  injection H as <-. eexists. split; [ reflexivity | ]. simpl.
  split; [ | reflexivity ].
  simpl in Hmono. destruct m1; [ rewrite Hmono by reflexivity | ];
    destruct m1'; simpl; lia.
Qed.

(** X16. Strict mode only takes signals away: a mapping that is accepted with
    strict_mode set is accepted without it, with the same direction, levels
    and reward ratio. *)
Theorem strict_mode_only_removes (data1 data2 : gmap string value)
    (r1 : TradeSignal) :
  (forall k, k <> "strict_mode" -> data1 !! k = data2 !! k) ->
  truthy (Dict.get_or data1 "strict_mode" (VBool false)) = true ->
  truthy (Dict.get_or data2 "strict_mode" (VBool false)) = false ->
  evaluate_signal data1 = Done r1 -> status r1 <> "no_trade" ->
  exists r2, evaluate_signal data2 = Done r2
    /\ status r2 = status r1 /\ reason r2 = reason r1
    /\ entry r2 = entry r1 /\ stop_loss r2 = stop_loss r1
    /\ take_profit r2 = take_profit r1 /\ rrr r2 = rrr r1.
Proof.
  intros Hsame Hs1 Hs2 H Hst.
  assert (forall k, k ∈ fixed_keys -> data1 !! k = data2 !! k) as Hfixed.
  { intros k Hk. apply Hsame; intros ->; unfold fixed_keys in Hk;
      repeat (apply elem_of_cons in Hk as [Hk | Hk]; [ discriminate Hk | ]);
      inversion Hk. }
  assert (forall k, k ∈ presence_keys ->
            presence (data1 !! k) = presence (data2 !! k)) as Hrange.
  { intros k Hk. rewrite Hsame; [ reflexivity | ]; intros ->;
      unfold presence_keys in Hk;
      repeat (apply elem_of_cons in Hk as [Hk | Hk]; [ discriminate Hk | ]);
      inversion Hk. }
  assert (Dict.get_or data1 "candle_type" VNone
          = Dict.get_or data2 "candle_type" VNone) as Hcandle.
  { unfold Dict.get_or. rewrite Hsame by discriminate. reflexivity. }
  unfold evaluate_signal in *.
  rewrite <- (fixed_validate data1 data2 Hfixed Hrange).
  rewrite <- (fixed_item data1 data2 Hfixed "close") by in_list.
  rewrite <- (fixed_item data1 data2 Hfixed "ema50_daily") by in_list.
  rewrite <- (fixed_item data1 data2 Hfixed "rsi_daily") by in_list.
  bind_inv H as early Hearly. rewrite Hearly. simpl.
  destruct early as [r0|].
  { injection H as <-.
    apply validate_data_Some in Hearly as (why & msg & -> & _).
    contradiction Hst. reflexivity. }
  bind_inv H as close Hclose. rewrite Hclose. simpl.
  bind_inv H as ema Hema. rewrite Hema. simpl.
  bind_inv H as c1 Hc1.
  destruct (check_confluences_strict data1 data2 _ c1 Hsame Hs1 Hs2 Hc1)
    as (c2 & Hc2 & Hle & Hmet).
  rewrite Hc2. simpl.
  destruct (confluence_count c1 <? 3) eqn:Hcount1.
  { injection H as <-. contradiction Hst. reflexivity. }
  apply Z.ltb_ge in Hcount1.
  assert (3 <= confluence_count c2) as Hcount2 by lia.
  pose proof Hcount2 as Hge. apply Z.ltb_ge in Hge. rewrite Hge.
  rewrite <- (fixed_levels data1 data2 Hfixed).
  bind_inv H as l Hl. rewrite Hl. simpl.
  bind_inv H as rsi_daily Hrsi. rewrite Hrsi. simpl.
  bind_inv H as k1 Hk1.
  assert (exists k2,
            calculate_confidence (calculate_trend close ema) c2 rsi_daily
              (Dict.get_or data2 "candle_type" VNone) = Done k2) as (k2 & Hk2).
  { revert Hk1. unfold calculate_confidence. rewrite Hmet, Hcandle.
    destruct (candle_score _ _) as [points|]; simpl; [ eauto | discriminate ]. }
  rewrite Hk2. simpl.
  assert (data2 !! "rsi_daily" = Some (VFloat rsi_daily)) as Hdaily.
  { rewrite <- Hsame by discriminate. apply item_float_Done, Hrsi. }
  destruct (confidence_bounds _ _ _ _ _ _ Hc2 Hcount2 Hdaily Hk2)
    as (_ & _ & Hgate2).
  rewrite Hgate2.
  destruct (confidence_score k1 <? 70)%float.
  { injection H as <-. contradiction Hst. reflexivity. }
  destruct (invalid_positioning _ l).
  { injection H as <-. contradiction Hst. reflexivity. }
  injection H as <-. eexists. split; [ reflexivity | ]. repeat split.
Qed.

(** X16 at the documented request, with and without strict mode. *)
Lemma strict_mode_only_removes_eurusd :
  exists r1 r2,
    evaluate_signal strict = Done r1
    /\ evaluate_signal eurusd = Done r2
    /\ status r2 = status r1 /\ reason r2 = reason r1
    /\ entry r2 = entry r1 /\ stop_loss r2 = stop_loss r1
    /\ take_profit r2 = take_profit r1 /\ rrr r2 = rrr r1.
Proof.
  eexists.
  assert (evaluate_signal strict = Done _) as Hrun by (vm_compute; reflexivity).
  assert (forall k, k <> "strict_mode" -> strict !! k = eurusd !! k) as Hsame.
  { intros k Hk. unfold strict. rewrite lookup_insert_ne by congruence.
    reflexivity. }
  assert (truthy (Dict.get_or strict "strict_mode" (VBool false)) = true) as Hs1
    by (vm_compute; reflexivity).
  assert (truthy (Dict.get_or eurusd "strict_mode" (VBool false)) = false) as Hs2
    by (vm_compute; reflexivity).
  destruct (strict_mode_only_removes strict eurusd _ Hsame Hs1 Hs2 Hrun)
    as (r2 & H2 & H).
  - vm_compute. discriminate.
  - exists r2. split; [ exact Hrun | ]. split; [ exact H2 | exact H ].
Defined.

(** The lower bound of the confidence is reached. *)
Example confidence_floor_reached :
  exists r, evaluate_signal weakest = Done r
    /\ status r = "long" /\ confidence r = NFloat 70.8.
Proof. eexists. split; [ vm_compute; reflexivity | ]. repeat split. Qed.
